(* ===== verification/_CoqProject ===== *)
-Q . S2P
Prelude.v
PyStr.v
Registry.v
Codec.v
Serial.v
Transport.v
Presenter.v
Legacy.v
Domoticz.v
Plugin.v
Heartbeat.v
Debug.v
