(* ===== verification/Prelude.v ===== *)
(** * A verification development for domoticzWGT

    The repository is a Domoticz plugin that polls a Schwoerer WGT
    heat-recovery ventilation unit (controller "Hermes wr3223") over a
    half-duplex serial line.  It has three source files:

    - [src/lib/hermesWr3223.py]: the protocol library.  It holds
      - the control characters [STX ETX EOT ENQ ACK NAK] and the table
        [CONTROLCHARS] of their printable names (lines 16-29);
      - the command registry [COMMANDS], a dict from 2-character codes to
        [Command] objects, some of which get a [mapping] from raw values
        to labels after construction (lines 31-93);
      - the class [HermesWr3223] (lines 95-189): a serial configuration,
        [connect]/[disconnect]/[isConnected], the frame codec
        ([_createAdressString], [_createReadRequest], [_makeHumanReadable],
        [_getValueFromResponse]), the byte-at-a-time receive loop
        [_receiveResponse], and the transactions [read] and
        [readMultiple];
      - the presenter [getMappedResult] and [getMessageByCommandResult]
        (lines 191-206) and debugging helpers.
    - [src/plugin.py]: the Domoticz plugin [BasePlugin] that partitions the
      commands into device kinds, numbers the devices, builds selector
      switch options from a mapping, polls every command on each heartbeat
      and updates the devices.
    - [src/lib/hermesWr3223.backup.py]: an older, function-based version of
      the library with a 5-entry command table.

    ** Layout of the development (library root of the load path)

    - [Prelude] (this file): Python's exceptions as [exn], fallible values
      as [Result] with the [let?] notation, the state-and-exception monad
      [io] (with an [OutOfFuel] outcome for loops run on fuel) with its
      [x <- m ;; k] notation in [io_scope], program equivalence [io_equiv]
      with its [Proper] instances, Python dict literals ([dict_lit]),
      [for] loops ([for_each]), methods of local objects ([run_local]),
      the rewrite database [pyio], the hint database [hermes] and the
      shared tactics.
    - [PyStr]: the Python [str] builtins the code calls: [strip] (with
      Python's whitespace set), slicing [s[n:]] and [s[:-1]],
      [replace], [split] and [join] on one character, [str(int)], ASCII
      encode/decode; and their lemmas.
    - [Registry]: [Command], the registry built by executing the module's
      statements in order ([COMMANDS_script], [COMMANDS]) and
      [getMappedResult].
    - [Codec]: control characters, [CONTROLCHARS], [_makeHumanReadable],
      [_createAdressString], [_createReadRequest], [_getValueFromResponse].
    - [Serial]: the part of pyserial the code uses ([open], [close],
      [read(1)], [write]) over a line whose device answers each written
      request; a model of the library, not of the repository.
    - [Transport]: the [HermesWr3223] object and its methods as [io]
      programs over the object's state: [__init__], [connect],
      [disconnect], [isConnected], [_receiveResponse] (fuel = number of
      loop iterations), [read], [readMultiple].
    - [Presenter]: [getMessageByCommandResult].
    - [Legacy]: [Module Backup], the backup library
      ([hermesWr3223.backup.py]: request builder, receive loop,
      [readFromDevice], [query]), and the refinement of its functions by
      the class.
    - [Domoticz]: the host of the plugin (the [Devices] dict,
      [Parameters], the trace of [Domoticz.*] calls, [Device.Create] and
      [Device.Update]) and the reasoning on host states the plugin's
      proofs share ([devices_step], [io_keeps], [host_evolves]); a model of
      the host, not of the repository.
    - [Plugin]: [plugin.py]: the class attributes that partition the
      commands, [__init__] (device numbering), [createDevice(s)], the
      selector options and levels, [updateDevices] with its [except]
      clause, [UpdateDevice], [DumpConfigToLog], [onStart] and the other
      callbacks, the module-level entry points ([dispatch]) and the
      lifetime of the plugin as a step relation ([plugin_step]).
    - [Heartbeat]: the theorems that compose the plugin with the
      transport, the presenter and the host.
    - [Debug]: the functions of both library files that print (the debug
      helpers, [testAsciiHex], the [__main__] blocks, the backup's
      [createConnection] and [main]) as programs over a [Console] whose
      output is the list of printed lines, with CPython's [repr] of
      [bytes], [str] and dicts and [binascii.hexlify]/[unhexlify].

    How the parts interact: Domoticz calls the module-level callbacks;
    [onStart] creates one device per used command, [onHeartbeat] runs
    [updateDevices], which builds a [HermesWr3223] on the configured port,
    connects it and calls [readMultiple] on all used commands; each value
    goes through [getMessageByCommandResult] (text devices) or
    [getDomoticzSwitchLevel] (selectors) into [UpdateDevice].  [read]
    builds the request with the codec, writes it through pyserial and
    reads the answer byte by byte up to ETX.

    ** What the theorems show

    1. Transport: [read] of a command answered by a well-formed frame
       returns the frame's payload, stripped; [readMultiple] against a
       device that answers every request returns the map from each
       command to its value and writes the requests in order;
       [_receiveResponse] returns with fuel equal to the frame length
       (termination) and never returns on a silent line, for any fuel
       (the loop has no exit on timeout); an exception in one [read]
       aborts [readMultiple], and a returned dict always holds every
       requested command.
    2. Plugin and heartbeat: one heartbeat against a controller that
       answers every command writes into each existing device the value
       shown for its command; when the port is missing or cannot be
       opened the heartbeat raises [AttributeError] (the [except] clause
       names [serial.Serialexception]); the selector level of a raw value
       names the label at that position of [LevelNames]; along any
       sequence of callbacks no device is deleted or renamed and devices
       stay stored under their unit (rule induction on [plugin_step]);
       [createDevices] creates exactly one device per command; the used
       commands partition the registry, the two device maps are inverse
       and units stay in [1, 255]; the error branches of
       [getDomoticzSwitchLevel].
    3. Codec: [_getValueFromResponse] after [_makeHumanReadable] equals
       removing the STX/ETX bytes, dropping the echo and stripping;
       [_createAdressString] is the digit-doubling encoding on [0..99],
       raises [ValueError] outside and has a left inverse;
       [_createReadRequest] builds [EOT AAAA CC ENQ], which parses back,
       with its two [ValueError] guards.
    4. Legacy: the class refines the backup module's [query] and
       [createReadRequest].
    5. Registry and presenter: every entry is keyed by its own
       2-character ASCII code and has a unit; the module body raises no
       exception; exact-string label lookup; the message format.
    6. Debug: the missing-result branch of
       [debugPrintMultiCommandResult] is dead (equivalence with the loop
       without it); the backup's [createConnection] opens the port the
       class opens (refinement); the hex dump reads back and has length
       [3n - 1]; what the [testAsciiHex] functions print; the backup's
       [main] on a port that cannot be opened.

    ** Fuel

    The receive loop runs on fuel, one unit per byte read before ETX.
    The termination theorems give the exact fuel that suffices (the
    number of bytes before ETX; a heartbeat needs the longest payload
    plus 3); the divergence theorem shows that no amount of fuel suffices
    on a silent line, so fuel there stands for the missing timeout exit.

    ** Not modelled

    - The imports and the [sys.path] manipulation at the top of the
      files, the comments of the backup's [main], and the commented-out
      alternative [serial.Serial] call of [createConnection]: no
      behaviour.
    - Characters above 255 in [debugPrintHex] and [printHex] (more than
      two hex digits): strings are byte strings here.
    - pyserial and Domoticz themselves: [Serial] and [Domoticz] model the
      behaviour the code relies on.  [str(device)], [device.ID] and
      [device.LastLevel], which only [DumpConfigToLog] prints, are
      parameters; the host's dicts are walked in the order of the maps.

    ** Modelling choices

    Python [str] values are Rocq [string]s (byte strings).  All the
    strings the data path handles (codes, addresses, frames) are ASCII,
    where the two agree; descriptions and labels with umlauts are kept as
    their UTF-8 bytes and are only concatenated.  Python dicts are
    stdpp's [gmap]s; dict literals are folded left to right, so a repeated
    key keeps its last value as in Python.  Integers are [Z], units and
    positions [nat].  A raised exception is a [Raise] value; loops that
    may not terminate run on fuel and report [OutOfFuel], and every
    termination theorem gives the fuel that suffices.  The Domoticz host
    is a record threaded through the plugin's methods; its [Domoticz.*]
    calls are a trace in it. *)

From stdpp Require Export base gmap strings list sorting.
From Stdlib Require Export String Ascii ZArith Strings.Byte.

Declare Scope py_scope.
Delimit Scope py_scope with py.
Declare Scope io_scope.
Delimit Scope io_scope with io.

Create Rewrite HintDb pyio.
Create HintDb hermes discriminated.

(** ** Python exceptions *)

(** The exception classes the modelled code raises or catches.  The
    message of a [ValueError] is kept because the two guards of
    [_createReadRequest] differ only by it. *)
Inductive exn :=
| ValueError (msg : string)
| KeyError (key : string)
| IndexError
| TypeError
| UnicodeEncodeError
| UnicodeDecodeError
| SerialException (msg : string)
| AttributeError (name : string).

(** Bytes compare by [Byte.byte_eq_dec]. *)
#[export] Instance byte_eq_decision : EqDecision byte := Byte.byte_eq_dec.

#[export] Instance exn_eq_dec : EqDecision exn.
Proof. solve_decision. Defined.

(** ** Fallible values *)

Inductive Result (A : Type) := Ok (a : A) | Raise (e : exn).
Arguments Ok {A} a.
Arguments Raise {A} e.

#[export] Instance Result_eq_dec {A} `{EqDecision A} : EqDecision (Result A).
Proof. solve_decision. Defined.

Definition rbind {A B} (m : Result A) (k : A -> Result B) : Result B :=
  match m with Ok a => k a | Raise e => Raise e end.

Notation "'let?' x ':=' m 'in' k" := (rbind m (fun x => k))
  (at level 10, x name, m at level 100, k at level 200) : py_scope.

(** [for x in l: acc = f(acc, x)] where [f] may raise. *)
Fixpoint rfold {A B} (f : A -> B -> Result A) (acc : A) (l : list B) : Result A :=
  match l with
  | [] => Ok acc
  | x :: l' => rbind (f acc x) (fun acc' => rfold f acc' l')
  end.

(** ** The state-and-exception monad of methods

    A method of an object with state [S] returns its result (a value or a
    raised exception) together with the state it leaves; a loop run on
    fuel may instead stop with [OutOfFuel].  Python does not roll back
    state on an exception, so [Done (Raise e) s] keeps the state [s]. *)
Inductive outcome (S A : Type) := Done (r : Result A) (s : S) | OutOfFuel.
Arguments Done {S A} r s.
Arguments OutOfFuel {S A}.

Definition io (S A : Type) := S -> outcome S A.

Definition ret {S A} (a : A) : io S A := fun s => Done (Ok a) s.
Definition raise {S A} (e : exn) : io S A := fun s => Done (Raise e) s.
Definition lift {S A} (r : Result A) : io S A := fun s => Done r s.
Definition out_of_fuel {S A} : io S A := fun _ => OutOfFuel.
Definition get {S} : io S S := fun s => Done (Ok s) s.

Definition bind {S A B} (m : io S A) (k : A -> io S B) : io S B :=
  fun s => match m s with
           | Done (Ok a) s' => k a s'
           | Done (Raise e) s' => Done (Raise e) s'
           | OutOfFuel => OutOfFuel
           end.

Notation "x <- m ;; k" := (bind m (fun x => k))
  (at level 100, m at next level, right associativity) : io_scope.
Notation "m ;;; k" := (bind m (fun _ => k))
  (at level 100, right associativity) : io_scope.

(** ** Python dict literals

    [{k1: v1, k2: v2, ...}] inserts left to right: a repeated key keeps
    its last value. *)
Definition dict_lit {K V} `{Countable K} (l : list (K * V)) : gmap K V :=
  foldl (fun m kv => <[kv.1 := kv.2]> m) ∅ l.

(** [d[k]] raises [KeyError] on a missing key. *)
Definition dict_get {V} (d : gmap string V) (k : string) : Result V :=
  match d !! k with Some v => Ok v | None => Raise (KeyError k) end.

(** ** Monad laws and computation rules *)

Section IoLaws.
Context {S A B C : Type}.

Lemma bind_ret_l (a : A) (k : A -> io S B) s : bind (ret a) k s = k a s.
Proof. reflexivity. Qed.

Lemma bind_get (k : S -> io S B) s : bind get k s = k s s.
Proof. reflexivity. Qed.

Lemma bind_raise (e : exn) (k : A -> io S B) s :
  bind (raise e) k s = Done (Raise e) s.
Proof. reflexivity. Qed.

Lemma bind_lift_ok (a : A) (k : A -> io S B) s : bind (lift (Ok a)) k s = k a s.
Proof. reflexivity. Qed.

Lemma bind_lift_raise e (k : A -> io S B) s :
  bind (lift (Raise e)) k s = Done (Raise e) s.
Proof. reflexivity. Qed.

Lemma bind_assoc (m : io S A) (f : A -> io S B) (g : B -> io S C) s :
  bind (bind m f) g s = bind m (fun a => bind (f a) g) s.
Proof. unfold bind. destruct (m s) as [[a|e] s'|]; reflexivity. Qed.

Lemma bind_Done_ok (m : io S A) (k : A -> io S B) s a s' :
  m s = Done (Ok a) s' -> bind m k s = k a s'.
Proof. unfold bind. by intros ->. Qed.

Lemma bind_Done_raise (m : io S A) (k : A -> io S B) s e s' :
  m s = Done (Raise e) s' -> bind m k s = Done (Raise e) s'.
Proof. unfold bind. by intros ->. Qed.

Lemma bind_OutOfFuel (m : io S A) (k : A -> io S B) s :
  m s = OutOfFuel -> bind m k s = OutOfFuel.
Proof. unfold bind. by intros ->. Qed.

Lemma bind_ext (m : io S A) (k1 k2 : A -> io S B) s :
  (forall a s', k1 a s' = k2 a s') -> bind m k1 s = bind m k2 s.
Proof. intros Hk. unfold bind. destruct (m s) as [[a|e] s'|]; auto. Qed.

Lemma bind_cong (m1 m2 : io S A) (k1 k2 : A -> io S B) s :
  m1 s = m2 s -> (forall a s', k1 a s' = k2 a s') -> bind m1 k1 s = bind m2 k2 s.
Proof. intros Hm Hk. unfold bind. rewrite Hm. destruct (m2 s) as [[a|e] s'|]; auto. Qed.

Lemma rbind_ok (a : A) (k : A -> Result B) : rbind (Ok a) k = k a.
Proof. reflexivity. Qed.
End IoLaws.

#[export] Hint Rewrite @bind_ret_l @bind_get @bind_raise @bind_lift_ok @bind_lift_raise
  @bind_assoc @rbind_ok : pyio.

(** Run the first step of a bind whose head is known by a hypothesis. *)
Ltac io_step :=
  match goal with
  | H : ?m ?s = Done (Ok _) _ |- context [bind ?m _ ?s] => rewrite (bind_Done_ok _ _ _ _ _ H)
  | H : ?m ?s = Done (Raise _) _ |- context [bind ?m _ ?s] => rewrite (bind_Done_raise _ _ _ _ _ H)
  | H : ?m ?s = OutOfFuel |- context [bind ?m _ ?s] => rewrite (bind_OutOfFuel _ _ _ H)
  end.

(** Close a decidable goal about closed, executable definitions by
    evaluating its decision procedure. *)
Ltac vm_decide :=
  apply (bool_decide_eq_true_1 _); vm_compute; reflexivity.

(** A property of the integers of a range follows from checking it on
    each of them (used with [vm_decide] for the 100 addresses). *)
Lemma Z_range_forall (P : Z -> Prop) (lo : Z) (n : nat) :
  Forall P (map (fun i => lo + Z.of_nat i)%Z (seq 0 n)) ->
  forall z, (lo <= z < lo + Z.of_nat n)%Z -> P z.
Proof.
  intros HF z Hz. rewrite Forall_forall in HF. apply HF, list_elem_of_In, in_map_iff.
  exists (Z.to_nat (z - lo)). split; [lia|]. apply in_seq. lia.
Qed.

(** ** Equivalence of [io] programs

    Two programs are equivalent when they behave the same from every
    state.  [bind] respects it, so equations between programs rewrite
    under the binders of a [x <- m ;; k] chain with [setoid_rewrite]. *)
Definition io_equiv {S A} (m1 m2 : io S A) : Prop := forall s, m1 s = m2 s.
Infix "≡io" := io_equiv (at level 70) : io_scope.

#[export] Instance io_equiv_equivalence {S A} : Equivalence (@io_equiv S A).
Proof.
  split.
  - intros m s. reflexivity.
  - intros m1 m2 H s. by rewrite H.
  - intros m1 m2 m3 H1 H2 s. by rewrite H1, H2.
Qed.

#[export] Instance bind_proper {S A B} :
  Proper (io_equiv ==> pointwise_relation A io_equiv ==> io_equiv) (@bind S A B).
Proof. intros m1 m2 Hm k1 k2 Hk s. apply bind_cong; [apply Hm|intros a s'; apply Hk]. Qed.

Lemma bind_assoc_equiv {S A B C} (m : io S A) (f : A -> io S B) (g : B -> io S C) :
  io_equiv (bind (bind m f) g) (bind m (fun a => bind (f a) g)).
Proof. intros s. apply bind_assoc. Qed.

Lemma io_equiv_at {S A} (m1 m2 : io S A) s : io_equiv m1 m2 -> m1 s = m2 s.
Proof. intros H. apply H. Qed.

Lemma bind_ret_l_equiv {S A B} (a : A) (k : A -> io S B) : io_equiv (bind (ret a) k) (k a).
Proof. intros s. reflexivity. Qed.

(** ** Loops and local objects *)

(** [for cmd in cmds: f(cmd)]. *)
Fixpoint for_each {S X} (xs : list X) (f : X -> io S Datatypes.unit) : io S Datatypes.unit :=
  match xs with
  | [] => ret tt
  | x :: rest => (f x ;;; for_each rest f)%io
  end.

(** Run a method of a local object [o] (such as [wgt] in
    [updateDevices]); the object is dropped after. *)
Definition run_local {O S A} (o : O) (m : io O A) : io S A := fun h =>
  match m o with
  | Done r _ => Done r h
  | OutOfFuel => OutOfFuel
  end.


Lemma run_local_Done {O S A} (o o' : O) (m : io O A) r (h : S) :
  m o = Done r o' -> run_local o m h = Done r h.
Proof. unfold run_local. by intros ->. Qed.

Lemma for_each_ext_in {S X} (xs : list X) (f g : X -> io S Datatypes.unit) :
  (forall x, x ∈ xs -> forall s, f x s = g x s) -> forall s, for_each xs f s = for_each xs g s.
Proof.
  induction xs as [|x xs IH]; intros Hfg s; [done|]. cbn [for_each]. unfold bind.
  rewrite (Hfg x ltac:(by left)). destruct (g x s) as [[[]|e] s'|]; [|done|done].
  apply IH. intros y Hy. apply Hfg. by right.
Qed.

(** Compute the left-hand side of an equation with [vm_compute]. *)
Ltac compute_lhs := match goal with |- ?L = _ => let v := eval vm_compute in L in change L with v end.
