(* ===== verification/PyStr.v ===== *)
(** * Python [str] builtins used by the library

    The semantics of the CPython builtins the modelled code calls on
    strings, restricted to the ASCII range the protocol uses:
    [str.strip()] with Python's whitespace set, slicing [s[n:]] and
    [s[:-1]], [str.replace(old, new)] (non-overlapping, left to right),
    [str(int)], and [str.encode('ascii')] / [bytes.decode('ascii')].
    These are library semantics, written from the language reference;
    the lemmas about them are shared by [Codec] and [Transport]. *)

From S2P Require Import Prelude.
From Stdlib Require Import DecimalString.

Open Scope string_scope.

(** ** Characters *)

(** [str.isspace()] on a code point below 128: TAB, LF, VT, FF, CR, the
    four information separators 0x1C-0x1F, and SPACE. *)
Definition py_isspace (c : ascii) : bool :=
  let n := N_of_ascii c in
  ((9 <=? n) && (n <=? 13))%N || ((28 <=? n) && (n <=? 32))%N.

Definition is_ascii (c : ascii) : bool := (N_of_ascii c <? 128)%N.

(** All characters of a string satisfy [p]. *)
Fixpoint str_forall (p : ascii -> bool) (s : string) : bool :=
  match s with
  | EmptyString => true
  | String c s' => p c && str_forall p s'
  end.

(** ** [str.strip()] *)

Fixpoint lstrip (s : string) : string :=
  match s with
  | EmptyString => EmptyString
  | String c s' => if py_isspace c then lstrip s' else s
  end.

Fixpoint rstrip (s : string) : string :=
  match s with
  | EmptyString => EmptyString
  | String c s' =>
      let r := rstrip s' in
      if py_isspace c && String.eqb r "" then "" else String c r
  end.

Definition strip (s : string) : string := rstrip (lstrip s).

(** ** Slicing *)

(** [s[n:]]: empty when [n] is past the end. *)
Fixpoint str_drop (n : nat) (s : string) : string :=
  match n, s with
  | O, _ => s
  | S _, EmptyString => EmptyString
  | S n', String _ s' => str_drop n' s'
  end.

(** [s[:-1]]: everything but the last character; empty stays empty. *)
Fixpoint str_drop_last (s : string) : string :=
  match s with
  | EmptyString => EmptyString
  | String _ EmptyString => EmptyString
  | String c s' => String c (str_drop_last s')
  end.

(** ** [str.replace(old, new)]

    CPython scans left to right; at an occurrence of [old] it emits [new]
    and resumes after the occurrence, otherwise it copies one character.
    [skip] counts the characters of the current occurrence still to be
    passed over, which keeps the recursion structural.  An empty [old]
    inserts [new] around every character. *)
Fixpoint str_replace_go (old new : string) (skip : nat) (s : string) : string :=
  match s with
  | EmptyString => EmptyString
  | String c s' =>
      match skip with
      | S k => str_replace_go old new k s'
      | O =>
          if String.prefix old s
          then new ++ str_replace_go old new (String.length old - 1) s'
          else String c (str_replace_go old new 0 s')
      end
  end.

Fixpoint str_interleave (new s : string) : string :=
  match s with
  | EmptyString => new
  | String c s' => new ++ String c (str_interleave new s')
  end.

Definition str_replace (old new s : string) : string :=
  match old with
  | EmptyString => str_interleave new s
  | _ => str_replace_go old new 0 s
  end.

(** ** [str(n)] for an [int] *)

Definition str_of_int (z : Z) : string :=
  DecimalString.NilZero.string_of_int (Z.to_int z).

(** ** ASCII codec *)

(** [s.encode('ascii')]. *)
Fixpoint encode_ascii (s : string) : Result (list byte) :=
  match s with
  | EmptyString => Ok []
  | String c s' =>
      if is_ascii c
      then let? bs := encode_ascii s' in Ok (byte_of_ascii c :: bs)
      else Raise UnicodeEncodeError
  end%py.

(** [bs.decode('ascii')]. *)
Fixpoint decode_ascii (bs : list byte) : Result string :=
  match bs with
  | [] => Ok EmptyString
  | b :: bs' =>
      if is_ascii (ascii_of_byte b)
      then let? s := decode_ascii bs' in Ok (String (ascii_of_byte b) s)
      else Raise UnicodeDecodeError
  end%py.

(** The bytes of an ASCII string, one per character. *)
Fixpoint bytes_of (s : string) : list byte :=
  match s with
  | EmptyString => []
  | String c s' => byte_of_ascii c :: bytes_of s'
  end.

(** Remove every occurrence of a character (the spec's reading of
    "removes the STX and ETX bytes"). *)
Fixpoint str_remove (x : ascii) (s : string) : string :=
  match s with
  | EmptyString => EmptyString
  | String c s' => if Ascii.eqb c x then str_remove x s' else String c (str_remove x s')
  end.

(** [s.split(sep)] for a one-character separator: the pieces between the
    separators, [[""]] for the empty string. *)
Fixpoint str_split (sep : ascii) (s : string) : list string :=
  match s with
  | EmptyString => [EmptyString]
  | String c s' =>
      if Ascii.eqb c sep then EmptyString :: str_split sep s'
      else match str_split sep s' with
           | x :: r => String c x :: r
           | [] => [String c EmptyString]
           end
  end.

(** [sep.join(l)]. *)
Fixpoint str_join (sep : ascii) (l : list string) : string :=
  match l with
  | [] => EmptyString
  | [x] => x
  | x :: l' => x ++ String sep (str_join sep l')
  end.

(** ** Lemmas *)

(** stdpp makes [String.append] opaque to [simpl]; these are its two
    computation rules. *)
Lemma str_app_cons c s t : (String c s ++ t) = String c (s ++ t).
Proof. reflexivity. Qed.

Lemma str_app_nil_l t : ("" ++ t) = t.
Proof. reflexivity. Qed.

#[export] Hint Rewrite str_app_cons str_app_nil_l : pyio.

Lemma str_app_assoc s t u : ((s ++ t) ++ u) = (s ++ (t ++ u)).
Proof. induction s as [|c s IH]; [done|]. rewrite !str_app_cons. by rewrite IH. Qed.

Lemma str_app_nil_r s : (s ++ "") = s.
Proof. induction s as [|c s IH]; [done|]. by rewrite str_app_cons, IH. Qed.

Lemma str_length_app s t : String.length (s ++ t) = String.length s + String.length t.
Proof. induction s as [|c s IH]; [done|]. rewrite str_app_cons. simpl. by rewrite IH. Qed.

#[export] Hint Rewrite str_app_assoc str_app_nil_r str_length_app : pyio.

Lemma str_prefix_app s r : String.prefix s (s ++ r) = true.
Proof.
  induction s as [|c s IH]; [by destruct r|].
  rewrite str_app_cons. cbn. by destruct (ascii_dec c c).
Qed.

(** A different string of the same length is not a prefix. *)
Lemma str_prefix_app_neq s t r :
  String.length s = String.length t -> s <> t -> String.prefix s (t ++ r) = false.
Proof.
  revert t. induction s as [|a s IH]; intros [|b t] Hl Hne; simpl in Hl; try done.
  rewrite str_app_cons. cbn [String.prefix].
  destruct (ascii_dec a b) as [->|]; [|done].
  apply IH; [lia|]. by intros ->.
Qed.

Lemma str_forall_app p s t :
  str_forall p (s ++ t) = str_forall p s && str_forall p t.
Proof.
  induction s as [|c s IH]; [done|].
  rewrite str_app_cons. cbn [str_forall]. by rewrite IH, andb_assoc.
Qed.

Lemma str_forall_cons p c s : str_forall p (String c s) = p c && str_forall p s.
Proof. reflexivity. Qed.

#[export] Hint Rewrite str_forall_app str_forall_cons : pyio.

Lemma str_drop_app n s t :
  String.length s = n -> str_drop n (s ++ t) = t.
Proof.
  revert n. induction s as [|c s IH]; intros [|n] Hn; simpl in Hn; try lia; [done|].
  rewrite str_app_cons. cbn [str_drop]. apply IH. lia.
Qed.

Lemma str_remove_app x s t : str_remove x (s ++ t) = str_remove x s ++ str_remove x t.
Proof.
  induction s as [|c s IH]; [done|]. rewrite str_app_cons. simpl.
  destruct (Ascii.eqb c x); [done|]. by rewrite IH, str_app_cons.
Qed.

#[export] Hint Rewrite str_remove_app : pyio.

Section Replace.
Context (o : ascii) (os new : string).

(** Inside an occurrence the characters are passed over. *)
Lemma str_replace_go_skip t r :
  str_replace_go (String o os) new (String.length t) (t ++ r) =
  str_replace_go (String o os) new 0 r.
Proof. induction t as [|c t IH]; simpl; auto. Qed.

(** A prefix without the first character of [old] is copied. *)
Lemma str_replace_go_copy t r :
  str_forall (fun c => negb (Ascii.eqb c o)) t = true ->
  str_replace_go (String o os) new 0 (t ++ r) =
  t ++ str_replace_go (String o os) new 0 r.
Proof.
  induction t as [|c t IH]; intros Ht; [done|].
  cbn [str_forall] in Ht. apply andb_prop in Ht as [Hc Ht].
  rewrite !str_app_cons. cbn [str_replace_go String.prefix].
  destruct (ascii_dec o c) as [->|Hne]; [by rewrite Ascii.eqb_refl in Hc|].
  f_equal. by apply IH.
Qed.

(** An occurrence at the front is replaced. *)
Lemma str_replace_go_hit r :
  str_replace_go (String o os) new 0 (String o os ++ r) =
  new ++ str_replace_go (String o os) new 0 r.
Proof.
  pose proof (str_prefix_app (String o os) r) as Hp. rewrite str_app_cons in Hp.
  rewrite str_app_cons. cbn [str_replace_go]. rewrite Hp.
  replace (String.length (String o os) - 1) with (String.length os) by (simpl; lia).
  f_equal. apply str_replace_go_skip.
Qed.
End Replace.

Lemma str_replace_nonempty o os new s :
  str_replace (String o os) new s = str_replace_go (String o os) new 0 s.
Proof. reflexivity. Qed.

Lemma bytes_of_app s t : bytes_of (s ++ t) = (bytes_of s ++ bytes_of t)%list.
Proof. induction s as [|c s IH]; [done|]. rewrite str_app_cons. simpl. by rewrite IH. Qed.

#[export] Hint Rewrite bytes_of_app : pyio.

Lemma encode_ascii_ok s : str_forall is_ascii s = true -> encode_ascii s = Ok (bytes_of s).
Proof.
  induction s as [|c s IH]; [done|]. simpl. intros [-> Hs]%andb_prop. by rewrite IH.
Qed.

Lemma decode_ascii_char c : is_ascii c = true -> decode_ascii [byte_of_ascii c] = Ok (String c "").
Proof. intros Hc. simpl. by rewrite ascii_of_byte_of_ascii, Hc. Qed.

(** ** Splitting and joining *)

Lemma str_drop_last_snoc s c : str_drop_last (s ++ String c EmptyString) = s.
Proof.
  induction s as [|c' s IH]; [done|].
  rewrite str_app_cons. cbn [str_drop_last]. rewrite IH.
  destruct s; [done|]. rewrite str_app_cons. done.
Qed.

Section Split.
Variable sep : ascii.

Definition sep_free (x : string) : bool := str_forall (fun c => negb (Ascii.eqb c sep)) x.

Lemma str_split_sep_free x : sep_free x = true -> str_split sep x = [x].
Proof.
  unfold sep_free. induction x as [|c x IH]; [done|]. cbn [str_forall str_split].
  intros [Hc Hx]%andb_prop. apply negb_true_iff in Hc. rewrite Hc, IH by done. done.
Qed.

Lemma str_split_app x r :
  sep_free x = true -> str_split sep (x ++ String sep r) = x :: str_split sep r.
Proof.
  unfold sep_free. induction x as [|c x IH].
  - intros _. rewrite str_app_nil_l. cbn [str_split]. by rewrite Ascii.eqb_refl.
  - cbn [str_forall]. intros [Hc Hx]%andb_prop. apply negb_true_iff in Hc.
    rewrite str_app_cons. cbn [str_split]. rewrite Hc, IH by done. done.
Qed.

Lemma str_split_join l :
  l <> [] -> Forall (fun x => sep_free x = true) l -> str_split sep (str_join sep l) = l.
Proof.
  induction l as [|x [|y l] IH]; intros Hne Hl; [done| |].
  - apply Forall_cons in Hl as [Hx _]. by apply str_split_sep_free.
  - apply Forall_cons in Hl as [Hx Hl]. cbn [str_join].
    rewrite str_split_app by done. f_equal. apply IH; [done|exact Hl].
Qed.

End Split.
