(* ===== verification/Registry.v ===== *)
(** * Command registry ([src/lib/hermesWr3223.py], lines 31-93 and 191-197)

    The class [Command] and the module-level dict [COMMANDS].  The module
    body builds the dict by a sequence of statements: [COMMANDS[k] =
    Command(...)] and, for six commands, [COMMANDS[k].mapping = {...}],
    which mutates the object stored under [k].  The registry is the
    result of executing that sequence ([COMMANDS_script]) in order from an
    empty dict.  [getMappedResult] is the label lookup of the presenter;
    it belongs here because it only reads the registry. *)

From S2P Require Import Prelude PyStr.

Open Scope string_scope.

(** [class Command] (lines 31-37): [unit] defaults to [None],
    [isWriteable] to [False], and [mapping] starts as [None]. *)
Record Command := mkCommand {
  cmd : string;
  descr : string;
  unit : option string;
  isWriteable : bool;
  mapping : option (gmap string string)
}.

Definition Command__init__ (cmd descr : string) (unit : option string)
    (isWriteable : bool) : Command :=
  {| cmd := cmd; descr := descr; unit := unit; isWriteable := isWriteable;
     mapping := None |}.

(** The two statement forms of the module body. *)
Inductive RegistryStmt :=
| SetItem (key : string) (c : Command)
| SetMapping (key : string) (m : gmap string string).

(** [COMMANDS[k].mapping = m] looks [k] up first and raises [KeyError]
    when it is missing. *)
Definition exec_stmt (d : gmap string Command) (st : RegistryStmt)
    : Result (gmap string Command) :=
  match st with
  | SetItem k c => Ok (<[k := c]> d)
  | SetMapping k m =>
      match d !! k with
      | Some c => Ok (<[k := {| cmd := cmd c; descr := descr c; unit := unit c;
                               isWriteable := isWriteable c; mapping := Some m |}]> d)
      | None => Raise (KeyError k)
      end
  end.

(** Lines 41-93, statement by statement. *)
Definition COMMANDS_script : list RegistryStmt := [
  SetItem "T1" (Command__init__ "T1" "Temperatur Verdampfer" (Some "[°C]") false);
  SetItem "T2" (Command__init__ "T2" "Temperatur Kondensator" (Some "[°C]") false);
  SetItem "T3" (Command__init__ "T3" "Aussentemperatur" (Some "[°C]") false);
  SetItem "T4" (Command__init__ "T4" "Temperatur Abluft (Raumtemperatur)" (Some "[°C]") false);
  SetItem "T5" (Command__init__ "T5" "Temperatur nach Wärmetauscher (Fortluft)" (Some "[°C]") false);
  SetItem "T6" (Command__init__ "T6" "Zulufttemperatur" (Some "[°C]") false);
  SetItem "T7" (Command__init__ "T7" "Temperatur nach Solevorerwärmung" (Some "[°C]") false);
  SetItem "T8" (Command__init__ "T8" "Temperatur nach Wärmetauscher" (Some "[°C]") false);
  SetItem "UZ" (Command__init__ "UZ" "Spannung Ventilator Zuluft" (Some "[0.1 V]") false);
  SetItem "UA" (Command__init__ "UA" "Spannung Ventilator Abluft" (Some "[0.1 V]") false);
  SetItem "NZ" (Command__init__ "NZ" "Drehzahl Zuluft" (Some "[U/min]") false);
  SetItem "NA" (Command__init__ "NA" "Drehzahl Abluft" (Some "[U/min]") false);
  SetItem "LS" (Command__init__ "LS" "Luftstufe" (Some "") false);
  SetMapping "LS" (dict_lit [
      ("0.", "Aus");
      ("1.", "Stufe 1");
      ("2.", "Stufe 2");
      ("3.", "Stufe 3")]);
  SetItem "L1" (Command__init__ "L1" "Luftstufe 1" (Some "[%]") true);
  SetItem "L2" (Command__init__ "L2" "Luftstufe 2" (Some "[%]") true);
  SetItem "L3" (Command__init__ "L3" "Luftstufe 3" (Some "[%]") true);
  SetItem "LD" (Command__init__ "LD" "Luftdifferenz Zuluft" (Some "[%]") true);
  SetItem "Ld" (Command__init__ "Ld" "Luftdifferenz Abluft" (Some "[%]") true);
  SetItem "ES" (Command__init__ "ES" "EWT Sommer" (Some "[°C]") true);
  SetItem "EW" (Command__init__ "EW" "EWT Winter" (Some "[°C]") true);
  SetItem "KM" (Command__init__ "KM" "Maximale Kondensationstemperatur" (Some "[°C]") true);
  SetItem "PA" (Command__init__ "PA" "Ausgleichszeit" (Some "[Sek.]") false);
  SetItem "ZH" (Command__init__ "ZH" "Zusatzheizung frei" (Some "") true);
  SetItem "ZE" (Command__init__ "ZE" "Zusatzheizung Ein" (Some "") true);
  SetItem "WP" (Command__init__ "WP" "Wärmepumpe freigegeben" (Some "") false);
  SetItem "MD" (Command__init__ "MD" "Mode" (Some "") false);
  SetMapping "MD" (dict_lit [
      ("0.", "Aus");
      ("1.", "Sommer");
      ("2.", "Abluft");
      ("3.", "Winter: WP aus");
      ("-125.", "Winter: WP an");
      ("4.", "Handbetrieb")]);
  SetItem "AE" (Command__init__ "AE" "Abtau ein" (Some "[°C]") true);
  SetItem "AA" (Command__init__ "AA" "Abtau aus" (Some "[°C]") true);
  SetItem "Az" (Command__init__ "Az" "Luftstufe Abtau" (Some "") true);
  SetItem "AP" (Command__init__ "AP" "Abtaupause" (Some "min") true);
  SetItem "AN" (Command__init__ "AN" "Abtaunachlauf" (Some "min") true);
  SetItem "ER" (Command__init__ "ER" "Fehlermeldung" (Some "") false);
  SetMapping "ER" (dict_lit [
      ("0.", "Keine Meldung");
      ("4.", "Hochdruck");
      ("11.", "Kurzschluss an T1");
      ("12.", "Kurzschluss an T2");
      ("13.", "Kurzschluss an T3");
      ("15.", "Kurzschluss an T5");
      ("21.", "Offene Leitung an T1");
      ("22.", "Offene Leitung an T2");
      ("23.", "Offene Leitung an T3");
      ("25.", "Offenen Leitung an T5")]);
  SetItem "ST" (Command__init__ "ST" "Status" (Some "") false);
  SetMapping "ST" (dict_lit [
      ("217.", "Wärmepumpe aktiv?");
      ("249.", "Wärmepumpe inaktiv?")]);
  SetItem "Tf" (Command__init__ "Tf" "EVU Sperre" (Some "") false);
  SetMapping "Tf" (dict_lit [
      ("-47.", "Aktiv");
      ("-48.", "Inaktiv")]);
  SetItem "RL" (Command__init__ "RL" "Relais" (Some "") false);
  SetMapping "RL" (dict_lit [
      ("-47.", "Zustand?");
      ("64.", "EVU?");
      ("320.", "Freigabe(WP/Kühl):Ja   | WP:Aus | Kühl:Aus | Freigabe(ZH):Nein | Bypass:Nein");
      ("321.", "Freigabe(WP/Kühl):Nein | WP:Aus | Kühl:Aus | Freigabe(ZH):Nein | Bypass:Nein");
      ("322.", "Freigabe(WP/Kühl):Ja   | WP:Aus | Kühl:Aus | Freigabe(ZH):Ja   | Bypass:Nein");
      ("328.", "Freigabe(WP/Kühl):Nein | WP:Aus | Kühl:Aus | Freigabe(ZH):Nein | Bypass:Ja");
      ("833.", "Freigabe(WP/Kühl):Ja   | WP:An  | Kühl:Aus | Freigabe(ZH):Nein | Bypass:Nein");
      ("835.", "Freigabe(WP/Kühl):Ja   | WP:An  | Kühl:Aus | Freigabe(ZH):Ja   | Bypass:Nein");
      ("2377.", "Freigabe(WP/Kühl):Ja   | WP:Aus | Kühl:An  | Freigabe(ZH):Nein | Bypass:Ja")]);
  SetItem "II" (Command__init__ "II" "Identifikation lesen" (Some "[Text]") false)].

(** The registry after the module body ran. *)
Definition COMMANDS_init : Result (gmap string Command) :=
  rfold exec_stmt ∅ COMMANDS_script.

Definition COMMANDS : gmap string Command :=
  match COMMANDS_init with Ok d => d | Raise _ => ∅ end.

(** [getMappedResult(cmd, result)] (lines 191-197): [COMMANDS[cmd]]
    raises [KeyError] for an unknown code; the label is found by exact
    string lookup in the command's mapping, if it has one. *)
Definition getMappedResult (cmd result : string) : Result (option string) :=
  (let? c := dict_get COMMANDS cmd in
   Ok (match mapping c with
       | None => None
       | Some m => m !! result
       end))%py.

(** ** Well-formedness of the registry *)

(** An entry is keyed by its own code, the code is two ASCII characters
    (what [_createReadRequest] and the wire format require), and the entry
    has a unit (what [getMessageByCommandResult] concatenates). *)
Definition wf_entry (k : string) (c : Command) : Prop :=
  cmd c = k /\ String.length k = 2 /\ str_forall is_ascii k = true /\ unit c <> None.

#[export] Instance wf_entry_dec k c : Decision (wf_entry k c).
Proof. unfold wf_entry. solve_decision. Defined.

(** The codes that carry a value mapping. *)
Definition mapped_codes : list string := ["LS"; "MD"; "ER"; "ST"; "Tf"; "RL"].

Lemma COMMANDS_mapped_codes :
  map_Forall (fun k c => mapping c = None \/ k ∈ mapped_codes) COMMANDS.
Proof. vm_decide. Qed.

(** ** Properties *)

(** C29: Executing the module body raises no exception: each
    [COMMANDS[k].mapping = ...] statement names a code registered before
    it, so importing the module succeeds and yields [COMMANDS]. *)
Theorem COMMANDS_init_ok : COMMANDS_init = Ok COMMANDS.
Proof. vm_compute. reflexivity. Qed.

(** The statement of [COMMANDS_wf], used by the proofs that build on it. *)
Lemma COMMANDS_entries_wf : map_Forall wf_entry COMMANDS.
Proof. vm_decide. Qed.

(** C28: Every registry entry is keyed by its own code, every code is
    exactly two ASCII characters, and every entry has a unit. *)
Theorem COMMANDS_wf : map_Forall wf_entry COMMANDS.
Proof. exact COMMANDS_entries_wf. Qed.


(** C31: [getMappedResult] raises [KeyError] exactly for unregistered
    codes, and returns a label only for the six enumerated commands. *)
Theorem getMappedResult_outcomes c r :
  (getMappedResult c r = Raise (KeyError c) <-> COMMANDS !! c = None) /\
  (forall l, getMappedResult c r = Ok (Some l) -> c ∈ mapped_codes).
Proof.
  unfold getMappedResult, dict_get.
  destruct (COMMANDS !! c) as [cm|] eqn:Hc; simpl; [|split; [done|discriminate]].
  split; [split; discriminate|].
  intros l Hl. destruct (COMMANDS_mapped_codes c cm Hc) as [Hn|]; [|done].
  by rewrite Hn in Hl.
Qed.

Lemma getMappedResult_outcomes_witness :
  getMappedResult "XX" "1." = Raise (KeyError "XX") /\
  (forall l, getMappedResult "MD" "3." = Ok (Some l) -> "MD" ∈ mapped_codes).
Proof.
  split.
  - apply (proj1 (getMappedResult_outcomes "XX" "1.")). reflexivity.
  - apply (proj2 (getMappedResult_outcomes "MD" "3.")).
Defined.
