(* ===== verification/Codec.v ===== *)
(** * Frame codec ([src/lib/hermesWr3223.py], lines 16-29 and the codec
    methods of [HermesWr3223], lines 134-171 and 183-189)

    The control characters and their printable names, the address
    encoding, the read request, the diagnostic rendering of a message and
    the extraction of the value from a (rendered) response.  The methods
    use only the field [_adressMessageString] of [self], which
    [_createReadRequest] takes as its first argument here.

    Besides the code, the file has the device-side parser of a request
    ([parse_read_request], a specification helper) and the structural
    form [humanize] of [_makeHumanReadable], with the lemmas that relate
    [str.replace] on a rendered message to removing a control byte. *)

From S2P Require Import Prelude PyStr Registry.

Open Scope string_scope.

(** ** Control characters (lines 16-29) *)

Definition STX_c : ascii := "002".
Definition ETX_c : ascii := "003".
Definition EOT_c : ascii := "004".
Definition ENQ_c : ascii := "005".
Definition ACK_c : ascii := "006".
Definition NAK_c : ascii := "021".

Definition STX : string := String STX_c "".
Definition ETX : string := String ETX_c "".
Definition EOT : string := String EOT_c "".
Definition ENQ : string := String ENQ_c "".
Definition ACK : string := String ACK_c "".
Definition NAK : string := String NAK_c "".

Definition CONTROLCHARS : gmap string string :=
  dict_lit [(STX, "<STX>"); (ETX, "<ETX>"); (EOT, "<EOT>");
            (ENQ, "<ENQ>"); (ACK, "<ACK>"); (NAK, "<NAK>")].

(** ** [_makeHumanReadable] (lines 143-150)

    The loop appends, for each character, its printable name if it is a
    key of [CONTROLCHARS] and the character itself otherwise. *)
Fixpoint _makeHumanReadable_loop (humanReadableMessage message : string) : string :=
  match message with
  | EmptyString => humanReadableMessage
  | String c rest =>
      let char := String c "" in
      _makeHumanReadable_loop
        (humanReadableMessage ++
           match CONTROLCHARS !! char with Some name => name | None => char end)
        rest
  end.

Definition _makeHumanReadable (message : string) : string :=
  _makeHumanReadable_loop "" message.

(** ** [_createAdressString] (lines 153-171) *)

Definition _createAdressString (adress : Z) : Result string :=
  if ((adress <? 0) || (adress >? 99))%Z then
    Raise (ValueError "The specified adress is out ouf range")
  else
    let adressString := str_of_int adress in
    let adressString :=
      if Nat.eqb (String.length adressString) 1 then "0" ++ adressString else adressString in
    match String.get 0 adressString, String.get 1 adressString with
    | Some adressCharHigh, Some adressCharLow =>
        Ok (String adressCharHigh (String adressCharHigh
              (String adressCharLow (String adressCharLow ""))))
    | _, _ => Raise IndexError
    end.

(** ** [_createReadRequest] (lines 134-140) *)

Definition _createReadRequest (adressMessageString command : string) : Result string :=
  if negb (Nat.eqb (String.length command) 2) then
    Raise (ValueError "The given Command is invalid - must have 2 chars!")
  else
    match COMMANDS !! command with
    | None => Raise (ValueError "The given Command is unknown")
    | Some _ => Ok (EOT ++ adressMessageString ++ command ++ ENQ)
    end.

(** ** [_getValueFromResponse] (lines 183-189)

    It is applied to the rendered response, so it removes the printable
    names ["<STX>"] and ["<ETX>"], drops the two characters of the echo
    field and strips whitespace. *)
Definition _getValueFromResponse (response : string) : Result string :=
  (let value := response in
   let? stx := dict_get CONTROLCHARS STX in
   let value := str_replace stx "" value in
   let? etx := dict_get CONTROLCHARS ETX in
   let value := str_replace etx "" value in
   let value := str_drop 2 value in
   Ok (strip value))%py.

(** ** Specification helpers *)

(** The decimal digit character of [0 <= n <= 9]. *)
Definition digit (n : Z) : ascii := ascii_of_nat (48 + Z.to_nat n).

(** The digit value of a character, if it is a decimal digit. *)
Definition digit_value (c : ascii) : option Z :=
  let n := nat_of_ascii c in
  if (48 <=? n)%nat && (n <=? 57)%nat then Some (Z.of_nat n - 48)%Z else None.

(** The spec's address encoding: tens digit twice, then units digit
    twice. *)
Definition encode_address (a : Z) : string :=
  String (digit (a / 10)) (String (digit (a / 10))
    (String (digit (a mod 10)) (String (digit (a mod 10)) ""))).

(** The controller's reading of an address field. *)
Definition parse_address (s : string) : option Z :=
  match s with
  | String h h' =>
      match h' with
      | String h2 (String l (String l2 EmptyString)) =>
          if Ascii.eqb h h2 && Ascii.eqb l l2 then
            match digit_value h, digit_value l with
            | Some dh, Some dl => Some (10 * dh + dl)%Z
            | _, _ => None
            end
          else None
      | _ => None
      end
  | EmptyString => None
  end.

(** The controller's reading of a read request [EOT AAAA CC ENQ]. *)
Definition parse_read_request (req : string) : option (Z * string) :=
  match req with
  | String e (String h1 (String h2 (String l1 (String l2
      (String c1 (String c2 (String q EmptyString))))))) =>
      if Ascii.eqb e EOT_c && Ascii.eqb q ENQ_c then
        match parse_address (String h1 (String h2 (String l1 (String l2 "")))) with
        | Some a => Some (a, String c1 (String c2 ""))
        | None => None
        end
      else None
  | _ => None
  end.

(** The printable form of one character, and of a message, by structural
    recursion. *)
Definition token (c : ascii) : string :=
  match CONTROLCHARS !! String c "" with Some name => name | None => String c "" end.

Fixpoint humanize (s : string) : string :=
  match s with
  | EmptyString => EmptyString
  | String c s' => token c ++ humanize s'
  end.

Definition is_control (c : ascii) : bool := bool_decide (is_Some (CONTROLCHARS !! String c "")).

(** A character the rendering leaves alone and that cannot start a
    printable name. *)
Definition plain (c : ascii) : bool := negb (is_control c) && negb (Ascii.eqb c "<").

(** ** The address field *)

(** Check a property of all 100 addresses by evaluation. *)
Lemma address_forall (P : Z -> Prop) :
  Forall P (map (fun i => 0 + Z.of_nat i)%Z (seq 0 100)) -> forall a, (0 <= a <= 99)%Z -> P a.
Proof. intros HF a Ha. apply (Z_range_forall P 0 100 HF). lia. Qed.

Lemma _createAdressString_range a s :
  _createAdressString a = Ok s -> (0 <= a <= 99)%Z.
Proof.
  unfold _createAdressString.
  destruct (Z.ltb_spec a 0), (Z.gtb_spec a 99); simpl; intros Hok; try discriminate; lia.
Qed.

(** The statement of [_createAdressString_correct], used by the proofs that build on it. *)
Lemma _createAdressString_correct_core a :
  (0 <= a <= 99)%Z -> _createAdressString a = Ok (encode_address a).
Proof.
  revert a. apply (address_forall (fun a => _createAdressString a = Ok (encode_address a))).
  vm_decide.
Qed.

(** C17: For every address in [0, 99], [_createAdressString] is the
    digit-doubling encoding: tens digit twice, then units digit twice
    (2 gives "0022", 45 gives "4455", 0 gives "0000"). *)
Theorem _createAdressString_correct a :
  (0 <= a <= 99)%Z -> _createAdressString a = Ok (encode_address a).
Proof. exact (_createAdressString_correct_core a). Qed.

Lemma _createAdressString_correct_witness :
  (0 <= 45 <= 99)%Z /\ _createAdressString 45 = Ok "4455".
Proof. split; [lia|]. apply (_createAdressString_correct 45). lia. Defined.

(** C18: An address outside [0, 99] raises [ValueError] (-1 and 100
    included). *)
Theorem _createAdressString_out_of_range a :
  (a < 0 \/ 99 < a)%Z ->
  _createAdressString a = Raise (ValueError "The specified adress is out ouf range").
Proof.
  intros Ha. unfold _createAdressString.
  destruct Ha as [Ha|Ha].
  - by rewrite (proj2 (Z.ltb_lt a 0) Ha).
  - rewrite (proj2 (Z.gtb_lt a 99) Ha). by destruct (a <? 0)%Z.
Qed.

Lemma _createAdressString_out_of_range_witness :
  _createAdressString (-1) = Raise (ValueError "The specified adress is out ouf range") /\
  _createAdressString 100 = Raise (ValueError "The specified adress is out ouf range").
Proof. split; apply _createAdressString_out_of_range; lia. Defined.

Lemma parse_encode_address a :
  (0 <= a <= 99)%Z -> parse_address (encode_address a) = Some a /\
                      String.length (encode_address a) = 4.
Proof.
  revert a. apply (address_forall (fun a => parse_address (encode_address a) = Some a /\
                                           String.length (encode_address a) = 4)).
  vm_decide.
Qed.

(** The statement of [_createAdressString_roundtrip], used by the proofs that build on it. *)
Lemma _createAdressString_roundtrip_core a s :
  _createAdressString a = Ok s -> parse_address s = Some a /\ String.length s = 4.
Proof.
  intros H. pose proof (_createAdressString_range _ _ H) as Hr.
  rewrite _createAdressString_correct_core in H by done. injection H as <-.
  by apply parse_encode_address.
Qed.

(** C19: The address field can be read back: whenever [_createAdressString]
    returns a string, it has 4 characters and [parse_address] recovers
    the address from it; so distinct addresses get distinct fields. *)
Theorem _createAdressString_roundtrip a s :
  _createAdressString a = Ok s -> parse_address s = Some a /\ String.length s = 4.
Proof. exact (_createAdressString_roundtrip_core a s). Qed.

Lemma _createAdressString_roundtrip_witness :
  _createAdressString 7 = Ok "0077" /\ parse_address "0077" = Some 7%Z /\ String.length "0077" = 4.
Proof.
  assert (H : _createAdressString 7 = Ok "0077") by reflexivity.
  split; [exact H|]. apply (_createAdressString_roundtrip 7 "0077"). exact H.
Defined.

Lemma _createAdressString_inj a b s :
  _createAdressString a = Ok s -> _createAdressString b = Ok s -> a = b.
Proof.
  intros Ha Hb. apply _createAdressString_roundtrip_core in Ha as [Ha _].
  apply _createAdressString_roundtrip_core in Hb as [Hb _]. congruence.
Qed.

(** ** The read request *)

Lemma COMMANDS_code_shape cmd c :
  COMMANDS !! cmd = Some c ->
  exists c1 c2, cmd = String c1 (String c2 "") /\ is_ascii c1 = true /\ is_ascii c2 = true.
Proof.
  intros Hc. destruct (COMMANDS_entries_wf cmd c Hc) as (_ & Hlen & Hasc & _).
  destruct cmd as [|c1 [|c2 [|c3 cmd]]]; simpl in Hlen; try lia.
  simpl in Hasc. apply andb_prop in Hasc as [H1 H2]. apply andb_prop in H2 as [H2 _].
  by exists c1, c2.
Qed.

Lemma address_shape a s :
  _createAdressString a = Ok s ->
  exists h1 h2 l1 l2, s = String h1 (String h2 (String l1 (String l2 ""))).
Proof.
  intros H. destruct (_createAdressString_roundtrip_core _ _ H) as [_ Hlen].
  destruct s as [|h1 [|h2 [|l1 [|l2 [|x s]]]]]; simpl in Hlen; try lia.
  by exists h1, h2, l1, l2.
Qed.

(** C20: A read request is [EOT AAAA CC ENQ]: 8 characters that the
    controller parses back into the address and the command code. *)
Theorem _createReadRequest_roundtrip a adr cmd req :
  _createAdressString a = Ok adr -> _createReadRequest adr cmd = Ok req ->
  parse_read_request req = Some (a, cmd) /\ String.length req = 8.
Proof.
  intros Ha Hr. unfold _createReadRequest in Hr.
  destruct (Nat.eqb (String.length cmd) 2); [|discriminate].
  destruct (COMMANDS !! cmd) as [c|] eqn:Hc; [|discriminate]. injection Hr as <-.
  destruct (COMMANDS_code_shape _ _ Hc) as (c1 & c2 & -> & _ & _).
  pose proof (_createAdressString_roundtrip_core _ _ Ha) as [Hp _].
  destruct (address_shape _ _ Ha) as (h1 & h2 & l1 & l2 & ->).
  split; [|done].
  unfold parse_read_request, EOT, ENQ. autorewrite with pyio.
  cbn [Ascii.eqb Bool.eqb andb EOT_c ENQ_c]. by rewrite Hp.
Qed.

Lemma _createReadRequest_roundtrip_witness :
  _createAdressString 1 = Ok "0011" /\
  _createReadRequest "0011" "T1" = Ok (EOT ++ "0011T1" ++ ENQ) /\
  parse_read_request (EOT ++ "0011T1" ++ ENQ) = Some (1%Z, "T1") /\
  String.length (EOT ++ "0011T1" ++ ENQ) = 8.
Proof.
  assert (Ha : _createAdressString 1 = Ok "0011") by reflexivity.
  assert (Hr : _createReadRequest "0011" "T1" = Ok (EOT ++ "0011T1" ++ ENQ)) by reflexivity.
  split; [exact Ha|]. split; [exact Hr|].
  apply (_createReadRequest_roundtrip 1 "0011" "T1" _ Ha Hr).
Defined.

(** C21: The two guards of [_createReadRequest]: a code that is not two
    characters long raises [ValueError] ("must have 2 chars"), and a
    two-character code absent from [COMMANDS] raises [ValueError]
    ("unknown"), whatever the address field. *)
Theorem _createReadRequest_errors adr cmd :
  (String.length cmd <> 2 ->
   _createReadRequest adr cmd =
     Raise (ValueError "The given Command is invalid - must have 2 chars!")) /\
  (String.length cmd = 2 -> COMMANDS !! cmd = None ->
   _createReadRequest adr cmd = Raise (ValueError "The given Command is unknown")).
Proof.
  unfold _createReadRequest. split.
  - intros Hl. by rewrite (proj2 (Nat.eqb_neq _ _) Hl).
  - intros Hl Hc. by rewrite Hl, Hc.
Qed.

Lemma _createReadRequest_errors_witness :
  _createReadRequest "0011" "T1x" =
    Raise (ValueError "The given Command is invalid - must have 2 chars!") /\
  _createReadRequest "0011" "XX" = Raise (ValueError "The given Command is unknown").
Proof.
  split.
  - apply (proj1 (_createReadRequest_errors "0011" "T1x")). discriminate.
  - apply (proj2 (_createReadRequest_errors "0011" "XX")); reflexivity.
Defined.

(** ** Rendering and value extraction *)

Lemma _makeHumanReadable_loop_humanize acc s :
  _makeHumanReadable_loop acc s = acc ++ humanize s.
Proof.
  revert acc. induction s as [|c s IH]; intros acc; simpl.
  - by rewrite str_app_nil_r.
  - rewrite IH. by rewrite str_app_assoc.
Qed.

Lemma _makeHumanReadable_humanize s : _makeHumanReadable s = humanize s.
Proof. apply _makeHumanReadable_loop_humanize. Qed.

Lemma humanize_app s t : humanize (s ++ t) = humanize s ++ humanize t.
Proof.
  induction s as [|c s IH]; [done|].
  rewrite str_app_cons. simpl. by rewrite IH, str_app_assoc.
Qed.

(** The six keys of [CONTROLCHARS], decided over all 256 characters. *)
Lemma is_control_iff c :
  is_control c = Ascii.eqb c STX_c || Ascii.eqb c ETX_c || Ascii.eqb c EOT_c ||
                 Ascii.eqb c ENQ_c || Ascii.eqb c ACK_c || Ascii.eqb c NAK_c.
Proof. destruct c as [[] [] [] [] [] [] [] []]; reflexivity. Qed.

Lemma control_cases c :
  is_control c = true ->
  c = STX_c \/ c = ETX_c \/ c = EOT_c \/ c = ENQ_c \/ c = ACK_c \/ c = NAK_c.
Proof.
  rewrite is_control_iff.
  intros H. repeat apply orb_true_iff in H as [H|H];
  apply Ascii.eqb_eq in H; subst; tauto.
Qed.

Lemma token_plain c : is_control c = false -> token c = String c "".
Proof.
  unfold is_control, token. case_bool_decide as Hs; [done|].
  destruct (CONTROLCHARS !! _); [|done]. by destruct Hs.
Qed.

Definition no_lt (c : ascii) : bool := negb (Ascii.eqb c "<").

(** The printable name of a control character is ["<"] followed by four
    characters none of which is ["<"]. *)
Lemma token_control c :
  is_control c = true ->
  exists tc, token c = String "<" tc /\ String.length tc = 4 /\ str_forall no_lt tc = true.
Proof.
  intros Hc. apply control_cases in Hc.
  destruct_or! Hc; subst; (eexists; split; [reflexivity|split; reflexivity]).
Qed.

Lemma token_inj x c :
  is_control x = true -> is_control c = true -> token x = token c -> x = c.
Proof.
  intros Hx%control_cases Hc%control_cases.
  destruct_or! Hx; destruct_or! Hc; subst; try done; discriminate.
Qed.

(** One step of [str.replace(name_x, "")] over a rendered character. *)
Lemma replace_token x c r :
  is_control x = true -> is_control c || no_lt c = true ->
  str_replace (token x) "" (token c ++ r) =
  (if Ascii.eqb c x then "" else token c) ++ str_replace (token x) "" r.
Proof.
  intros Hx Hc. destruct (token_control x Hx) as (tx & Etx & Ltx & _).
  rewrite Etx, !str_replace_nonempty.
  destruct (Ascii.eqb_spec c x) as [->|Hne].
  { rewrite Etx. apply str_replace_go_hit. }
  destruct (is_control c) eqn:Ec.
  - destruct (token_control c Ec) as (tc & Etc & Ltc & Ntc).
    assert (Hp : String.prefix (token x) (token c ++ r) = false).
    { apply str_prefix_app_neq; [rewrite Etx, Etc; simpl; lia|].
      intros E. apply Hne. symmetry. by apply token_inj. }
    rewrite Etx, Etc, str_app_cons in Hp.
    rewrite Etc, str_app_cons. cbn [str_replace_go]. rewrite Hp.
    by rewrite str_replace_go_copy.
  - rewrite (token_plain c Ec).
    apply (str_replace_go_copy "<" tx "" (String c "")).
    unfold no_lt in Hc. simpl in Hc |- *. by rewrite Hc.
Qed.

Lemma str_forall_remove p x s :
  str_forall p s = true -> str_forall p (str_remove x s) = true.
Proof.
  induction s as [|c s IH]; [done|]. simpl. intros [Hc Hs]%andb_prop.
  destruct (Ascii.eqb c x); simpl; [auto|]. by rewrite Hc, IH.
Qed.

Definition renderable (c : ascii) : bool := is_control c || no_lt c.

(** Removing the printable name of a control character from a rendered
    message is rendering the message without that character. *)
Lemma replace_humanize x s :
  is_control x = true -> str_forall renderable s = true ->
  str_replace (token x) "" (humanize s) = humanize (str_remove x s).
Proof.
  intros Hx. induction s as [|c s IH]; simpl.
  - destruct (token_control x Hx) as (tx & -> & _). done.
  - intros [Hc Hs]%andb_prop. rewrite replace_token, IH by done.
    destruct (Ascii.eqb c x); simpl; [done|]. reflexivity.
Qed.

(** The statement of [_getValueFromResponse_humanize], used by the proofs that build on it. *)
Lemma _getValueFromResponse_humanize_core s :
  str_forall renderable s = true ->
  _getValueFromResponse (_makeHumanReadable s) =
  Ok (strip (str_drop 2 (humanize (str_remove ETX_c (str_remove STX_c s))))).
Proof.
  intros Hs. rewrite _makeHumanReadable_humanize. unfold _getValueFromResponse.
  change (dict_get CONTROLCHARS STX) with (Ok (token STX_c)).
  change (dict_get CONTROLCHARS ETX) with (Ok (token ETX_c)).
  cbn [rbind].
  rewrite replace_humanize by done.
  rewrite replace_humanize by (done || by apply str_forall_remove).
  reflexivity.
Qed.

(** C10: The code's extraction of the value, applied to the rendered
    response as [read] does, equals the spec's [extractValue] on the raw
    response: remove the STX and ETX bytes, drop the two echo characters
    and strip, where any other control byte stays rendered as its
    printable name.  This holds for every response whose characters are
    control characters or are not ["<"]. *)
Theorem _getValueFromResponse_humanize s :
  str_forall renderable s = true ->
  _getValueFromResponse (_makeHumanReadable s) =
  Ok (strip (str_drop 2 (humanize (str_remove ETX_c (str_remove STX_c s))))).
Proof. exact (_getValueFromResponse_humanize_core s). Qed.

(** A response whose payload is a NAK byte yields the text ["<NAK>"]:
    the rendering meant for display leaks into the value. *)
Lemma _getValueFromResponse_humanize_witness :
  _getValueFromResponse (_makeHumanReadable (STX ++ "T1" ++ NAK ++ ETX)) = Ok "<NAK>".
Proof. rewrite _getValueFromResponse_humanize; reflexivity. Defined.

Lemma plain_renderable s : str_forall plain s = true -> str_forall renderable s = true.
Proof.
  induction s as [|c s IH]; [done|]. simpl. intros [Hc Hs]%andb_prop.
  rewrite IH by done. unfold plain in Hc. unfold renderable, no_lt.
  apply andb_prop in Hc as [_ ->]. by rewrite orb_true_r.
Qed.

Lemma humanize_plain s : str_forall plain s = true -> humanize s = s.
Proof.
  induction s as [|c s IH]; [done|]. simpl. intros [Hc Hs]%andb_prop.
  unfold plain in Hc. apply andb_prop in Hc as [Hc _]. apply negb_true_iff in Hc.
  by rewrite token_plain, IH.
Qed.

Lemma str_remove_plain x s :
  is_control x = true -> str_forall plain s = true -> str_remove x s = s.
Proof.
  intros Hx. induction s as [|c s IH]; [done|]. simpl. intros [Hc Hs]%andb_prop.
  destruct (Ascii.eqb_spec c x) as [->|]; [|by rewrite IH].
  unfold plain in Hc. by rewrite Hx in Hc.
Qed.

(** The statement of [_getValueFromResponse_frame], used by the proofs that build on it. *)
Lemma _getValueFromResponse_frame_core e1 e2 p :
  plain e1 = true -> plain e2 = true -> str_forall plain p = true ->
  _getValueFromResponse (_makeHumanReadable (STX ++ String e1 (String e2 p) ++ ETX)) =
  Ok (strip p).
Proof.
  intros H1 H2 Hp.
  assert (Hm : str_forall plain (String e1 (String e2 p)) = true) by (simpl; by rewrite H1, H2, Hp).
  rewrite _getValueFromResponse_humanize_core.
  - autorewrite with pyio.
    rewrite (str_remove_plain STX_c _ eq_refl Hm), (str_remove_plain ETX_c _ eq_refl Hm).
    rewrite humanize_plain by done.
    reflexivity.
  - rewrite !str_forall_app, (plain_renderable _ Hm). reflexivity.
Qed.

(** C12: For a well-formed response [STX e1 e2 payload ETX], where the
    echo [e1 e2] and the payload hold no control character and no
    ["<"], the value [read] extracts is the payload with surrounding
    whitespace stripped (e.g. [STX "T1" " 23.5" ETX] gives ["23.5"]). *)
Theorem _getValueFromResponse_frame e1 e2 p :
  plain e1 = true -> plain e2 = true -> str_forall plain p = true ->
  _getValueFromResponse (_makeHumanReadable (STX ++ String e1 (String e2 p) ++ ETX)) =
  Ok (strip p).
Proof. exact (_getValueFromResponse_frame_core e1 e2 p). Qed.

Lemma _getValueFromResponse_frame_witness :
  _getValueFromResponse (_makeHumanReadable (STX ++ "T1 23.5" ++ ETX)) = Ok "23.5".
Proof.
  rewrite (_getValueFromResponse_frame "T" "1" " 23.5"); reflexivity.
Defined.

Lemma _createAdressString_ascii a s :
  _createAdressString a = Ok s -> str_forall is_ascii s = true.
Proof.
  intros H. pose proof (_createAdressString_range _ _ H) as Hr.
  rewrite _createAdressString_correct_core in H by done. injection H as <-.
  revert a Hr. apply (address_forall (fun a => str_forall is_ascii (encode_address a) = true)).
  vm_decide.
Qed.

Lemma _createReadRequest_registered adr cmd c :
  COMMANDS !! cmd = Some c -> _createReadRequest adr cmd = Ok (EOT ++ adr ++ cmd ++ ENQ).
Proof.
  intros Hc. destruct (COMMANDS_entries_wf cmd c Hc) as (_ & Hlen & _).
  unfold _createReadRequest. by rewrite Hlen, Hc.
Qed.

(** A character that may stand in the echo field or the payload of a
    response the library decodes exactly. *)
Definition payload_char (c : ascii) : bool := plain c && is_ascii c.
