(* ===== verification/Serial.v ===== *)
(** * The serial port (pyserial's [serial.Serial], as the library uses it)

    A model of the part of pyserial that [HermesWr3223] calls: the
    constructor with its defaults, the configuration attributes, [open],
    [close], [is_open], [write] and [read(1)].  This is library
    behaviour, written from pyserial's [SerialBase] and POSIX [Serial]:
    - [open] raises [SerialException] when the port is already open, when
      no port is configured, or when the device cannot be opened; it
      flushes the input buffer;
    - [read] and [write] on a closed port raise [PortNotOpenError], a
      [SerialException];
    - [read(1)] returns one byte, or [b''] when the timeout expires with
      nothing received; [close] on a closed port does nothing.

    The other end of the line is a [Line]: whether the port can be
    opened, and the device, which answers each written chunk with the
    bytes it sends back.  Received bytes queue up in [rx]; an entry [None]
    is a read that times out.  Everything written is logged in [tx], so
    the order of requests is observable. *)

From S2P Require Import Prelude PyStr.

Open Scope string_scope.

Inductive ByteSize := FIVEBITS | SIXBITS | SEVENBITS | EIGHTBITS.
Inductive Parity := PARITY_NONE | PARITY_EVEN | PARITY_ODD | PARITY_MARK | PARITY_SPACE.
Inductive StopBits := STOPBITS_ONE | STOPBITS_ONE_POINT_FIVE | STOPBITS_TWO.

(** What is at the other end of a port name. *)
Record Line := mkLine {
  line_available : bool;
  line_device : list byte -> list (option byte)
}.

Record Serial := mkSerial {
  port : option string;
  baudrate : Z;
  bytesize : ByteSize;
  parity : Parity;
  stopbits : StopBits;
  timeout : option Z;
  xonxoff : bool;
  rtscts : bool;
  is_open : bool;
  world : string -> Line;
  rx : list (option byte);
  tx : list byte
}.

(** [serial.Serial()] with its defaults: no port, 9600 8N1, no timeout,
    no flow control, closed. *)
Definition Serial__init__ (w : string -> Line) : Serial :=
  {| port := None; baudrate := 9600; bytesize := EIGHTBITS; parity := PARITY_NONE;
     stopbits := STOPBITS_ONE; timeout := None; xonxoff := false; rtscts := false;
     is_open := false; world := w; rx := []; tx := [] |}.

Definition set_open (b : bool) (s : Serial) : Serial :=
  {| port := port s; baudrate := baudrate s; bytesize := bytesize s; parity := parity s;
     stopbits := stopbits s; timeout := timeout s; xonxoff := xonxoff s;
     rtscts := rtscts s; is_open := b; world := world s; rx := rx s; tx := tx s |}.

Definition set_rx (r : list (option byte)) (s : Serial) : Serial :=
  {| port := port s; baudrate := baudrate s; bytesize := bytesize s; parity := parity s;
     stopbits := stopbits s; timeout := timeout s; xonxoff := xonxoff s;
     rtscts := rtscts s; is_open := is_open s; world := world s; rx := r; tx := tx s |}.

Definition set_tx (t : list byte) (s : Serial) : Serial :=
  {| port := port s; baudrate := baudrate s; bytesize := bytesize s; parity := parity s;
     stopbits := stopbits s; timeout := timeout s; xonxoff := xonxoff s;
     rtscts := rtscts s; is_open := is_open s; world := world s; rx := rx s; tx := t |}.

Definition PortNotOpenError : exn :=
  SerialException "Attempting to use a port that is not open".

(** [Serial.open()]. *)
Definition serial_open : io Serial unit := fun s =>
  if is_open s then Done (Raise (SerialException "Port is already open.")) s
  else match port s with
       | None => Done (Raise (SerialException "Port must be configured before it can be used.")) s
       | Some p =>
           if line_available (world s p)
           then Done (Ok tt) (set_rx [] (set_open true s))
           else Done (Raise (SerialException ("could not open port " ++ p))) s
       end.

(** [Serial.close()]. *)
Definition serial_close : io Serial unit := fun s => Done (Ok tt) (set_open false s).

(** The device at the configured port. *)
Definition device_of (s : Serial) : list byte -> list (option byte) :=
  match port s with Some p => line_device (world s p) | None => fun _ => [] end.

(** [Serial.write(data)]: the device at the port answers the chunk. *)
Definition serial_write (data : list byte) : io Serial nat := fun s =>
  if negb (is_open s) then Done (Raise PortNotOpenError) s
  else
    let dev := device_of s in
    Done (Ok (List.length data)) (set_tx (tx s ++ data)%list (set_rx (rx s ++ dev data)%list s)).

(** [Serial.read(1)]: one byte, or [b''] on a timeout; a line with
    nothing queued times out on every read. *)
Definition serial_read1 : io Serial (list byte) := fun s =>
  if negb (is_open s) then Done (Raise PortNotOpenError) s
  else match rx s with
       | [] => Done (Ok []) s
       | None :: r => Done (Ok []) (set_rx r s)
       | Some b :: r => Done (Ok [b]) (set_rx r s)
       end.

(** ** Record update laws *)

Lemma set_rx_set_rx r r' s : set_rx r (set_rx r' s) = set_rx r s.
Proof. reflexivity. Qed.

Lemma set_rx_set_tx r t s : set_rx r (set_tx t s) = set_tx t (set_rx r s).
Proof. reflexivity. Qed.

Lemma set_rx_id s : set_rx (rx s) s = s.
Proof. by destruct s. Qed.

Lemma rx_set_rx r s : rx (set_rx r s) = r.
Proof. reflexivity. Qed.

Lemma is_open_set_rx r s : is_open (set_rx r s) = is_open s.
Proof. reflexivity. Qed.

#[export] Hint Rewrite set_rx_set_rx set_rx_set_tx rx_set_rx is_open_set_rx : pyio.
