(* ===== verification/Transport.v ===== *)
(** * Transport session: the class [HermesWr3223]
    ([src/lib/hermesWr3223.py], lines 95-132 and 174-181)

    The object holds its serial port, its address and the encoded address
    field.  Its methods are [io] programs over the object, whose only
    mutable part is the serial port: [on_serial] runs a port operation on
    the field [_serial].  [_receiveResponse] is the byte-at-a-time loop;
    it runs on fuel, one unit per iteration of its [while] loop.  [read]
    composes the codec and the port as the source does; [readMultiple]
    calls [read] for each command in order and stores the values in a
    fresh dict. *)

From S2P Require Import Prelude PyStr Registry Codec Serial.

Open Scope string_scope.
Open Scope io_scope.

Record HermesWr3223 := mkHermesWr3223 {
  _serial : Serial;
  _adress : Z;
  _adressMessageString : string
}.

Definition set_serial (s : Serial) (self : HermesWr3223) : HermesWr3223 :=
  {| _serial := s; _adress := _adress self;
     _adressMessageString := _adressMessageString self |}.

(** Run a port operation on [self._serial]. *)
Definition on_serial {A} (m : io Serial A) : io HermesWr3223 A := fun self =>
  match m (_serial self) with
  | Done r s => Done r (set_serial s self)
  | OutOfFuel => OutOfFuel
  end.

(** [__init__(serialPort, adress=1)] (lines 96-107): configure a fresh
    port (9600 baud, 7 data bits, even parity, 1 stop bit, 5 s timeout,
    RTS/CTS on, XON/XOFF off) and encode the address, which raises
    [ValueError] outside [0, 99].  [w] is the world the port names refer
    to. *)
Definition HermesWr3223__init__ (w : string -> Line) (serialPort : string) (adress : Z)
    : Result HermesWr3223 :=
  let s := Serial__init__ w in
  let s := {| port := Some serialPort; baudrate := 9600; bytesize := SEVENBITS;
              parity := PARITY_EVEN; stopbits := STOPBITS_ONE; timeout := Some 5%Z;
              xonxoff := false; rtscts := true; is_open := is_open s; world := world s;
              rx := rx s; tx := tx s |} in
  (let? adressMessageString := _createAdressString adress in
   Ok {| _serial := s; _adress := adress; _adressMessageString := adressMessageString |})%py.

(** [isConnected], [connect], [disconnect] (lines 109-116). *)
Definition isConnected : io HermesWr3223 bool := fun self => Done (Ok (is_open (_serial self))) self.
Definition connect : io HermesWr3223 Datatypes.unit := on_serial serial_open.
Definition disconnect : io HermesWr3223 Datatypes.unit := on_serial serial_close.

(** [self._serial.read(1).decode('ascii')]. *)
Definition read_char : io HermesWr3223 string :=
  b <- on_serial serial_read1 ;; lift (decode_ascii b).

(** The [while char != ETX] loop of [_receiveResponse] (lines 177-179). *)
Fixpoint _receiveResponse_loop (fuel : nat) (char response : string) : io HermesWr3223 string :=
  if String.eqb char ETX then ret response
  else match fuel with
       | O => out_of_fuel
       | S fuel' =>
           char' <- read_char ;;
           _receiveResponse_loop fuel' char' (response ++ char')
       end.

(** [_receiveResponse] (lines 174-181). *)
Definition _receiveResponse (fuel : nat) : io HermesWr3223 (string * string) :=
  char <- read_char ;;
  response <- _receiveResponse_loop fuel char char ;;
  checksum <- read_char ;;
  ret (response, checksum).

(** [read(command)] (lines 124-132). *)
Definition read (fuel : nat) (command : string) : io HermesWr3223 string :=
  self <- get ;;
  request <- lift (_createReadRequest (_adressMessageString self) command) ;;
  data <- lift (encode_ascii request) ;;
  on_serial (serial_write data) ;;;
  rc <- _receiveResponse fuel ;;
  let responseHumanReadable := _makeHumanReadable rc.1 in
  lift (_getValueFromResponse responseHumanReadable).

(** [readMultiple(commands)] (lines 118-122). *)
Fixpoint readMultiple_loop (fuel : nat) (commands : list string) (result : gmap string string)
    : io HermesWr3223 (gmap string string) :=
  match commands with
  | [] => ret result
  | command :: rest =>
      v <- read fuel command ;;
      readMultiple_loop fuel rest (<[command := v]> result)
  end.

Definition readMultiple (fuel : nat) (commands : list string) : io HermesWr3223 (gmap string string) :=
  readMultiple_loop fuel commands ∅.

(** ** Computation rules *)

Lemma set_serial_set_serial s s' self : set_serial s (set_serial s' self) = set_serial s self.
Proof. reflexivity. Qed.

Lemma set_serial_id self : set_serial (_serial self) self = self.
Proof. by destruct self. Qed.

Lemma _serial_set_serial s self : _serial (set_serial s self) = s.
Proof. reflexivity. Qed.

Lemma _adressMessageString_set_serial s self :
  _adressMessageString (set_serial s self) = _adressMessageString self.
Proof. reflexivity. Qed.

#[export] Hint Rewrite set_serial_set_serial _serial_set_serial _adressMessageString_set_serial : pyio.

(** Reading a queued ASCII byte. *)
Lemma read_char_byte self c r :
  is_open (_serial self) = true -> rx (_serial self) = Some (byte_of_ascii c) :: r ->
  is_ascii c = true ->
  read_char self = Done (Ok (String c "")) (set_serial (set_rx r (_serial self)) self).
Proof.
  intros Ho Hr Hc. unfold read_char, bind, on_serial, serial_read1.
  rewrite Ho, Hr. cbn [negb]. unfold lift. by rewrite decode_ascii_char.
Qed.

(** Reading from a line with nothing queued: the timeout expires and
    [read(1)] returns [b''], decoded to [""]. *)
Lemma read_char_silent self :
  is_open (_serial self) = true -> rx (_serial self) = [] ->
  read_char self = Done (Ok "") self.
Proof.
  intros Ho Hr. unfold read_char, bind, on_serial, serial_read1.
  rewrite Ho, Hr. cbn. by rewrite set_serial_id.
Qed.

(** A character that may occur before the end of a frame. *)
Definition wire_char (c : ascii) : bool := is_ascii c && negb (Ascii.eqb c ETX_c).

Lemma wire_char_not_ETX c : wire_char c = true -> String.eqb (String c "") ETX = false.
Proof.
  unfold wire_char. intros [_ Hc]%andb_prop. apply String.eqb_neq. intros [= ->].
  by rewrite Ascii.eqb_refl in Hc.
Qed.

(** The loop reads up to and including ETX, one iteration per byte. *)
Lemma _receiveResponse_loop_frame s fuel char response self r :
  String.eqb char ETX = false -> is_open (_serial self) = true ->
  rx (_serial self) = (map Some (bytes_of (s ++ ETX)) ++ r)%list ->
  str_forall wire_char s = true -> String.length s < fuel ->
  _receiveResponse_loop fuel char response self =
  Done (Ok (response ++ s ++ ETX)) (set_serial (set_rx r (_serial self)) self).
Proof.
  revert fuel char response self.
  induction s as [|c s IH]; intros [|fuel] char response self Hch Ho Hr Hs Hf;
    simpl in Hf; try lia; cbn [_receiveResponse_loop]; rewrite Hch.
  - rewrite (bind_Done_ok _ _ _ ETX (set_serial (set_rx r (_serial self)) self)).
    + destruct fuel; cbn [_receiveResponse_loop]; reflexivity.
    + apply read_char_byte; [done| |reflexivity]. by rewrite Hr.
  - simpl in Hs. apply andb_prop in Hs as [Hc Hs].
    rewrite (bind_Done_ok _ _ _ (String c "") (set_serial (set_rx (map Some (bytes_of (s ++ ETX)) ++ r)%list (_serial self)) self)).
    + rewrite IH; autorewrite with pyio; try done; [|lia].
      by apply wire_char_not_ETX.
    + apply read_char_byte; [done| |by apply andb_prop in Hc as [-> _]].
      rewrite Hr. by rewrite str_app_cons.
Qed.

(** The statement of [_receiveResponse_frame], used by the proofs that build on it. *)
Lemma _receiveResponse_frame_core fuel self s cs r :
  is_open (_serial self) = true ->
  rx (_serial self) = (map Some (bytes_of (s ++ ETX)) ++ Some (byte_of_ascii cs) :: r)%list ->
  str_forall wire_char s = true -> is_ascii cs = true -> String.length s <= fuel ->
  _receiveResponse fuel self =
  Done (Ok (s ++ ETX, String cs "")) (set_serial (set_rx r (_serial self)) self).
Proof.
  intros Ho Hr Hs Hcs Hf. unfold _receiveResponse.
  destruct s as [|c s].
  - rewrite (bind_Done_ok _ _ _ ETX (set_serial (set_rx (Some (byte_of_ascii cs) :: r) (_serial self)) self))
      by (apply read_char_byte; [done|by rewrite Hr|reflexivity]).
    cbv beta.
    rewrite (bind_Done_ok _ _ _ ETX (set_serial (set_rx (Some (byte_of_ascii cs) :: r) (_serial self)) self))
      by (destruct fuel; reflexivity).
    cbv beta.
    rewrite (bind_Done_ok _ _ _ (String cs "") (set_serial (set_rx r (_serial self)) self)); [done|].
    rewrite (read_char_byte _ cs r); autorewrite with pyio; done.
  - simpl in Hs. apply andb_prop in Hs as [Hc Hs].
    set (q := (map Some (bytes_of (s ++ ETX)) ++ Some (byte_of_ascii cs) :: r)%list).
    rewrite (bind_Done_ok _ _ _ (String c "") (set_serial (set_rx q (_serial self)) self)).
    2:{ apply read_char_byte; [done| |by apply andb_prop in Hc as [-> _]].
        rewrite Hr, str_app_cons. reflexivity. }
    cbv beta.
    rewrite (bind_Done_ok _ _ _ (String c "" ++ s ++ ETX)
               (set_serial (set_rx (Some (byte_of_ascii cs) :: r) (_serial self)) self)).
    2:{ rewrite (_receiveResponse_loop_frame s _ _ _ _ (Some (byte_of_ascii cs) :: r));
        [by autorewrite with pyio|by apply wire_char_not_ETX|done|done|done|simpl in Hf; lia]. }
    cbv beta.
    rewrite (bind_Done_ok _ _ _ (String cs "") (set_serial (set_rx r (_serial self)) self)).
    + by rewrite str_app_cons.
    + rewrite (read_char_byte _ cs r); autorewrite with pyio; done.
Qed.

(** C3: [_receiveResponse] terminates on a well-formed frame.  If the
    line delivers the characters [s] (ASCII, no ETX), then ETX, then a
    checksum byte [cs], then anything, the method returns the response
    [s ++ ETX] and the checksum with fuel [length s] (the number of loop
    iterations after the first byte), and leaves exactly the bytes after
    the checksum queued. *)
Theorem _receiveResponse_frame fuel self s cs r :
  is_open (_serial self) = true ->
  rx (_serial self) = (map Some (bytes_of (s ++ ETX)) ++ Some (byte_of_ascii cs) :: r)%list ->
  str_forall wire_char s = true -> is_ascii cs = true -> String.length s <= fuel ->
  _receiveResponse fuel self =
  Done (Ok (s ++ ETX, String cs "")) (set_serial (set_rx r (_serial self)) self).
Proof. exact (_receiveResponse_frame_core fuel self s cs r). Qed.

(** A queued entry that is not the end of a frame: a timeout, or an ASCII
    byte other than ETX. *)
Definition not_end (o : option byte) : bool :=
  match o with None => true | Some b => wire_char (ascii_of_byte b) end.

(** One read from a line whose next entry is not ETX returns a string
    other than ETX and leaves a line that still holds no ETX. *)
Lemma read_char_not_end self :
  is_open (_serial self) = true -> forallb not_end (rx (_serial self)) = true ->
  exists ch self', read_char self = Done (Ok ch) self' /\ String.eqb ch ETX = false /\
    is_open (_serial self') = true /\ forallb not_end (rx (_serial self')) = true.
Proof.
  intros Ho Hr. unfold read_char, bind, on_serial, serial_read1. rewrite Ho. cbn [negb].
  destruct (rx (_serial self)) as [|[b|] r] eqn:E.
  - eexists "", _. split; [reflexivity|]. simpl. by rewrite Ho, E.
  - simpl in Hr. apply andb_prop in Hr as [Hb Hr].
    eexists (String (ascii_of_byte b) ""), _. split.
    + unfold lift. cbn [decode_ascii]. unfold wire_char in Hb.
      apply andb_prop in Hb as [-> _]. reflexivity.
    + split; [by apply wire_char_not_ETX|]. by split.
  - eexists "", _. split; [reflexivity|]. simpl in Hr |- *. by split.
Qed.

Lemma _receiveResponse_loop_no_end fuel char response self :
  String.eqb char ETX = false -> is_open (_serial self) = true ->
  forallb not_end (rx (_serial self)) = true ->
  _receiveResponse_loop fuel char response self = OutOfFuel.
Proof.
  revert char response self.
  induction fuel as [|fuel IH]; intros char response self Hch Ho Hr;
    cbn [_receiveResponse_loop]; rewrite Hch; [reflexivity|].
  destruct (read_char_not_end self Ho Hr) as (ch & self' & Hread & Hch' & Ho' & Hr').
  rewrite (bind_Done_ok _ _ _ _ _ Hread). by apply IH.
Qed.

(** C4: [_receiveResponse] has no exit when ETX never comes: on a line
    whose queued entries are timeouts or ASCII bytes other than ETX
    (in particular a silent line, where every [read(1)] times out and
    returns [b'']), it runs out of every amount of fuel.  Since more fuel
    never changes a returned result ([_receiveResponse_loop_mono]), the
    loop does not terminate: a stalled controller hangs [read] instead of
    surfacing a timeout error. *)
Theorem _receiveResponse_no_ETX fuel self :
  is_open (_serial self) = true -> forallb not_end (rx (_serial self)) = true ->
  _receiveResponse fuel self = OutOfFuel.
Proof.
  intros Ho Hr. unfold _receiveResponse.
  destruct (read_char_not_end self Ho Hr) as (ch & self' & Hread & Hch & Ho' & Hr').
  rewrite (bind_Done_ok _ _ _ _ _ Hread). apply bind_OutOfFuel.
  by apply _receiveResponse_loop_no_end.
Qed.

(** More fuel does not change a result the loop returns. *)
Lemma _receiveResponse_loop_mono fuel fuel' char response self r s' :
  fuel <= fuel' ->
  _receiveResponse_loop fuel char response self = Done r s' ->
  _receiveResponse_loop fuel' char response self = Done r s'.
Proof.
  revert fuel' char response self.
  induction fuel as [|fuel IH]; intros fuel' char response self Hle H;
    destruct fuel' as [|fuel']; try lia; cbn [_receiveResponse_loop] in H |- *;
    destruct (String.eqb char ETX); try done.
  unfold bind in H |- *. destruct (read_char self) as [[ch|e] self'|]; try done.
  apply IH; [lia|done].
Qed.

(** ** The [read] transaction *)

(** The object invariant: the address field is the encoding of the
    address.  [__init__] establishes it and no method changes either
    field. *)
Definition hermes_inv (self : HermesWr3223) : Prop :=
  _createAdressString (_adress self) = Ok (_adressMessageString self).

(** The request [read(cmd)] writes. *)
Definition request_of (self : HermesWr3223) (cmd : string) : string :=
  EOT ++ _adressMessageString self ++ cmd ++ ENQ.

(** The device answers the request [req] with a frame carrying payload
    [p]: [STX e1 e2 p ETX cs], where the echo [e1 e2] and [p] are
    printable ASCII without ["<"] and [cs] is any ASCII checksum. *)
Definition answers (dev : list byte -> list (option byte)) (req p : string) : Prop :=
  exists e1 e2 cs,
    dev (bytes_of req) = map Some (bytes_of (STX ++ String e1 (String e2 p) ++ ETX ++ String cs "")) /\
    payload_char e1 = true /\ payload_char e2 = true /\ str_forall payload_char p = true /\
    is_ascii cs = true.

Lemma serial_write_open data s :
  is_open s = true ->
  serial_write data s =
  Done (Ok (List.length data)) (set_tx (tx s ++ data)%list (set_rx (rx s ++ device_of s data)%list s)).
Proof. intros Ho. unfold serial_write. by rewrite Ho. Qed.

Lemma payload_wire s : str_forall payload_char s = true -> str_forall wire_char s = true.
Proof.
  induction s as [|c s IH]; [done|]. simpl. intros [Hc Hs]%andb_prop. rewrite IH by done.
  unfold payload_char, plain in Hc. apply andb_prop in Hc as [Hp Ha].
  apply andb_prop in Hp as [Hnc _]. unfold wire_char. rewrite Ha.
  destruct (Ascii.eqb_spec c ETX_c) as [->|]; [discriminate|done].
Qed.

Lemma payload_plain s : str_forall payload_char s = true -> str_forall plain s = true.
Proof.
  induction s as [|c s IH]; [done|]. simpl. intros [Hc Hs]%andb_prop. rewrite IH by done.
  unfold payload_char in Hc. by apply andb_prop in Hc as [-> _].
Qed.

(** The first half of [read]: build, encode and write the request. *)
Lemma read_request_written fuel self cmd c :
  hermes_inv self -> is_open (_serial self) = true -> COMMANDS !! cmd = Some c ->
  read fuel cmd self =
  (rc <- _receiveResponse fuel ;;
   lift (_getValueFromResponse (_makeHumanReadable rc.1)))
    (set_serial (set_tx (tx (_serial self) ++ bytes_of (request_of self cmd))%list
                  (set_rx (rx (_serial self) ++ device_of (_serial self) (bytes_of (request_of self cmd)))%list
                     (_serial self))) self).
Proof.
  intros Hinv Ho Hc. unfold read. rewrite bind_get.
  rewrite (_createReadRequest_registered _ _ _ Hc), bind_lift_ok.
  destruct (COMMANDS_code_shape _ _ Hc) as (c1 & c2 & -> & H1 & H2).
  rewrite encode_ascii_ok, bind_lift_ok.
  2:{ autorewrite with pyio. rewrite (_createAdressString_ascii _ _ Hinv), H1, H2. reflexivity. }
  unfold bind at 1, on_serial. rewrite serial_write_open by done. reflexivity.
Qed.

(** The statement of [read_answered], used by the proofs that build on it. *)
Lemma read_answered_core fuel self cmd c p :
  hermes_inv self -> is_open (_serial self) = true -> rx (_serial self) = [] ->
  COMMANDS !! cmd = Some c ->
  answers (device_of (_serial self)) (request_of self cmd) p ->
  String.length p + 3 <= fuel ->
  read fuel cmd self =
  Done (Ok (strip p))
       (set_serial (set_tx (tx (_serial self) ++ bytes_of (request_of self cmd))%list
                      (_serial self)) self).
Proof.
  intros Hinv Ho Hrx Hc (e1 & e2 & cs & Hdev & H1 & H2 & Hp & Hcs) Hf.
  rewrite (read_request_written fuel self cmd c Hinv Ho Hc), Hrx, Hdev.
  set (s1 := set_serial _ self).
  assert (Hr1 : rx (_serial s1) =
    (map Some (bytes_of ((STX ++ String e1 (String e2 p)) ++ ETX)) ++
     Some (byte_of_ascii cs) :: [])%list).
  { simpl. autorewrite with pyio. rewrite !map_app. simpl. by rewrite <- !app_assoc. }
  assert (Hw : str_forall wire_char (STX ++ String e1 (String e2 p)) = true).
  { unfold STX. rewrite str_app_cons, str_app_nil_l, (str_forall_cons wire_char STX_c).
    rewrite (payload_wire (String e1 (String e2 p))); [reflexivity|].
    by rewrite !str_forall_cons, H1, H2, Hp. }
  rewrite (bind_Done_ok _ _ _ _ _ (_receiveResponse_frame_core fuel s1 _ cs [] Ho Hr1 Hw Hcs ltac:(simpl; lia))).
  cbv beta. cbn [fst]. rewrite str_app_assoc.
  unfold payload_char in H1, H2. apply andb_prop in H1 as [H1 _], H2 as [H2 _].
  unfold lift. rewrite (_getValueFromResponse_frame_core e1 e2 p H1 H2 (payload_plain _ Hp)).
  subst s1. autorewrite with pyio.
  replace (set_rx [] (_serial self)) with (_serial self) by (by rewrite <- Hrx, set_rx_id).
  reflexivity.
Qed.

(** C1: [read] returns the value of the frame the controller answers.
    If the object is consistent and connected with nothing pending, the
    command is registered, the device answers the request with
    [STX e1 e2 p ETX cs] and the fuel covers the frame, then [read]
    writes exactly the request, consumes the whole answer including the
    checksum, and returns [p] stripped of surrounding whitespace. *)
Theorem read_answered fuel self cmd c p :
  hermes_inv self -> is_open (_serial self) = true -> rx (_serial self) = [] ->
  COMMANDS !! cmd = Some c ->
  answers (device_of (_serial self)) (request_of self cmd) p ->
  String.length p + 3 <= fuel ->
  read fuel cmd self =
  Done (Ok (strip p))
       (set_serial (set_tx (tx (_serial self) ++ bytes_of (request_of self cmd))%list
                      (_serial self)) self).
Proof. exact (read_answered_core fuel self cmd c p). Qed.

(** ** The [readMultiple] transaction *)

Lemma readMultiple_loop_app fuel l1 l2 m self :
  readMultiple_loop fuel (l1 ++ l2) m self =
  bind (readMultiple_loop fuel l1 m) (readMultiple_loop fuel l2) self.
Proof.
  revert m self. induction l1 as [|cmd l1 IH]; intros m self; [done|].
  cbn [app readMultiple_loop]. rewrite bind_assoc. apply bind_ext. intros v s'. apply IH.
Qed.

Lemma lookup_foldl_insert (f : string -> string) (l : list string) (m0 : gmap string string) k :
  foldl (fun m c => <[c := f c]> m) m0 l !! k =
  if decide (k ∈ l) then Some (f k) else m0 !! k.
Proof.
  revert m0. induction l as [|c l IH]; intros m0; cbn [foldl].
  - case_decide as Hk; [set_solver|done].
  - rewrite IH. destruct (decide (k ∈ l)) as [Hl|Hl], (decide (k ∈ c :: l)) as [Hcl|Hcl];
      try set_solver.
    + apply elem_of_cons in Hcl as [->|]; [by rewrite lookup_insert_eq|done].
    + rewrite lookup_insert_ne; [done|set_solver].
Qed.

(** Writing a request changes only the log of written bytes. *)
Definition after_tx (self : HermesWr3223) (t : list byte) : HermesWr3223 :=
  set_serial (set_tx t (_serial self)) self.

(** What [readMultiple] needs of each command: registered, answered with
    a frame, and the fuel covers the frame. *)
Definition command_answered (fuel : nat) (self : HermesWr3223) (payload : string -> string)
    (cmd : string) : Prop :=
  is_Some (COMMANDS !! cmd) /\
  answers (device_of (_serial self)) (request_of self cmd) (payload cmd) /\
  String.length (payload cmd) + 3 <= fuel.

Lemma readMultiple_loop_answered fuel payload cmds m self :
  hermes_inv self -> is_open (_serial self) = true -> rx (_serial self) = [] ->
  Forall (command_answered fuel self payload) cmds ->
  readMultiple_loop fuel cmds m self =
  Done (Ok (foldl (fun m c => <[c := strip (payload c)]> m) m cmds))
       (after_tx self (tx (_serial self) ++ List.concat (map (fun c => bytes_of (request_of self c)) cmds))%list).
Proof.
  revert m self. induction cmds as [|cmd cmds IH]; intros m self Hinv Ho Hrx Hall.
  - unfold after_tx. simpl. rewrite app_nil_r. by destruct self as [[] ? ?].
  - apply Forall_cons in Hall as [(Hc & Hans & Hf) Hall]. destruct Hc as [c Hc].
    cbn [readMultiple_loop]. rewrite (bind_Done_ok _ _ _ _ _ (read_answered_core fuel self cmd c _ Hinv Ho Hrx Hc Hans Hf)).
    rewrite IH; try done.
    + unfold after_tx. cbn [map List.concat]. by rewrite app_assoc.
Qed.

(** C2: [readMultiple] against a controller that answers every request:
    if the object is consistent and connected with nothing pending, and
    each command of the list is registered and answered with a frame
    carrying its payload (with enough fuel), then [readMultiple] writes
    the requests one after the other in the order of the list and
    returns the dict whose keys are exactly the commands, each mapped to
    its payload stripped of whitespace. *)
Theorem readMultiple_answered fuel self cmds payload :
  hermes_inv self -> is_open (_serial self) = true -> rx (_serial self) = [] ->
  Forall (command_answered fuel self payload) cmds ->
  exists res,
    readMultiple fuel cmds self =
    Done (Ok res) (after_tx self (tx (_serial self) ++
                                  List.concat (map (fun c => bytes_of (request_of self c)) cmds))%list) /\
    forall c, res !! c = if decide (c ∈ cmds) then Some (strip (payload c)) else None.
Proof.
  intros Hinv Ho Hrx Hall. eexists. split.
  - by apply readMultiple_loop_answered.
  - intros c. by rewrite lookup_foldl_insert, lookup_empty.
Qed.

Lemma readMultiple_loop_keys fuel cmds m self res self' :
  readMultiple_loop fuel cmds m self = Done (Ok res) self' ->
  forall c, is_Some (res !! c) <-> c ∈ cmds \/ is_Some (m !! c).
Proof.
  revert m self. induction cmds as [|cmd cmds IH]; intros m self H c; cbn [readMultiple_loop] in H.
  - injection H as <- _. set_solver.
  - unfold bind in H. destruct (read fuel cmd self) as [[v|e] s1|]; try done.
    rewrite (IH _ _ H c), lookup_insert, elem_of_cons.
    case_decide; subst; split; intros; naive_solver.
Qed.

(** C11: When [readMultiple] returns a dict, its keys are exactly the
    requested commands: a missing key never signals a failed command. *)
Theorem readMultiple_complete fuel cmds self res self' :
  readMultiple fuel cmds self = Done (Ok res) self' ->
  forall c, is_Some (res !! c) <-> c ∈ cmds.
Proof.
  intros H c. rewrite (readMultiple_loop_keys _ _ _ _ _ _ H c), lookup_empty.
  split; [by intros [|[]]|by left].
Qed.

(** C5: An exception raised by [read] for one command aborts
    [readMultiple]: the whole call raises that exception, the values read
    before it are lost and the commands after it are not sent.  The spec
    asks instead for a partial dict without the failed command. *)
Theorem readMultiple_abort fuel cmds1 cmd cmds2 self m1 self1 e self2 :
  readMultiple fuel cmds1 self = Done (Ok m1) self1 ->
  read fuel cmd self1 = Done (Raise e) self2 ->
  readMultiple fuel (cmds1 ++ cmd :: cmds2) self = Done (Raise e) self2.
Proof.
  unfold readMultiple. intros H1 H2.
  rewrite readMultiple_loop_app, (bind_Done_ok _ _ _ _ _ H1).
  cbn [readMultiple_loop]. by rewrite (bind_Done_raise _ _ _ _ _ H2).
Qed.

(** ** A concrete controller

    A device that answers every well-formed read request for command
    [CC] with [STX CC " 21.0" ETX "x"], on port ["/dev/ttyUSB0"] at
    address 1.  The witnesses below apply the theorems to it. *)

Definition demo_device (req : list byte) : list (option byte) :=
  match parse_read_request (string_of_list_byte req) with
  | Some (_, cmd) => map Some (bytes_of (STX ++ cmd ++ " 21.0" ++ ETX ++ "x"))
  | None => []
  end.

Definition demo_world (p : string) : Line := mkLine true demo_device.

Definition demo_initial : HermesWr3223 :=
  match HermesWr3223__init__ demo_world "/dev/ttyUSB0" 1 with
  | Ok h => h
  | Raise _ => mkHermesWr3223 (Serial__init__ demo_world) 1 ""
  end.

Definition demo_connected : HermesWr3223 :=
  match connect demo_initial with Done _ h => h | OutOfFuel => demo_initial end.

Lemma demo_connected_reachable :
  HermesWr3223__init__ demo_world "/dev/ttyUSB0" 1 = Ok demo_initial /\
  connect demo_initial = Done (Ok tt) demo_connected /\
  hermes_inv demo_connected /\ is_open (_serial demo_connected) = true /\
  rx (_serial demo_connected) = [].
Proof. repeat split; reflexivity. Qed.

Lemma demo_answers cmd :
  cmd ∈ ["T1"; "T2"] ->
  command_answered 10 demo_connected (fun _ => " 21.0") cmd.
Proof.
  intros Hc. apply elem_of_cons in Hc as [->|Hc];
    [|apply elem_of_cons in Hc as [->|Hc]; [|by apply not_elem_of_nil in Hc]];
    (split; [eexists; reflexivity|split; [|simpl; lia]]).
  - exists "T"%char, "1"%char, "x"%char. split; [reflexivity|]. repeat split.
  - exists "T"%char, "2"%char, "x"%char. split; [reflexivity|]. repeat split.
Qed.

Lemma _receiveResponse_frame_witness :
  let st := set_serial (set_rx (map Some (bytes_of ("AB" ++ ETX)) ++ [Some (byte_of_ascii "x")])%list
                          (_serial demo_connected)) demo_connected in
  _receiveResponse 2 st = Done (Ok ("AB" ++ ETX, "x")) (set_serial (set_rx [] (_serial st)) st).
Proof.
  intros st. apply (_receiveResponse_frame 2 st "AB" "x" []); reflexivity.
Defined.

Lemma _receiveResponse_no_ETX_witness :
  _receiveResponse 1000 demo_connected = OutOfFuel.
Proof. apply _receiveResponse_no_ETX; reflexivity. Defined.

Lemma read_answered_witness :
  read 10 "T1" demo_connected =
  Done (Ok "21.0")
       (set_serial (set_tx (tx (_serial demo_connected) ++
                            bytes_of (request_of demo_connected "T1"))%list
                      (_serial demo_connected)) demo_connected).
Proof.
  destruct (demo_answers "T1") as ([c Hc] & Hans & Hf); [set_solver|].
  apply (read_answered 10 demo_connected "T1" c " 21.0"); try reflexivity; assumption.
Defined.

Lemma readMultiple_answered_witness :
  exists res,
    readMultiple 10 ["T1"; "T2"] demo_connected =
    Done (Ok res) (after_tx demo_connected (tx (_serial demo_connected) ++
      List.concat (map (fun c => bytes_of (request_of demo_connected c)) ["T1"; "T2"]))%list) /\
    forall c, res !! c = if decide (c ∈ ["T1"; "T2"]) then Some (strip " 21.0") else None.
Proof.
  apply (readMultiple_answered 10 demo_connected ["T1"; "T2"] (fun _ => " 21.0"));
    try reflexivity.
  apply Forall_forall. intros c Hc. by apply demo_answers.
Defined.

(** The object after [read("T1")]. *)
Definition demo_after_T1 : HermesWr3223 :=
  after_tx demo_connected (tx (_serial demo_connected) ++
                           bytes_of (request_of demo_connected "T1"))%list.

Lemma readMultiple_complete_witness :
  readMultiple 10 ["T1"] demo_connected = Done (Ok (<["T1" := "21.0"]> ∅)) demo_after_T1 /\
  (is_Some ((<["T1" := "21.0"]> ∅ : gmap string string) !! "T1") <-> "T1" ∈ ["T1"]).
Proof.
  assert (H : readMultiple 10 ["T1"] demo_connected =
              Done (Ok (<["T1" := "21.0"]> ∅)) demo_after_T1) by (vm_compute; reflexivity).
  split; [exact H|]. exact (readMultiple_complete 10 ["T1"] demo_connected _ _ H "T1").
Defined.

Lemma readMultiple_abort_witness :
  readMultiple 10 ["T1"; "XX"; "T2"] demo_connected =
  Done (Raise (ValueError "The given Command is unknown")) demo_after_T1.
Proof.
  apply (readMultiple_abort 10 ["T1"] "XX" ["T2"] demo_connected (<["T1" := "21.0"]> ∅)
           demo_after_T1); vm_compute; reflexivity.
Defined.
