(* ===== verification/Presenter.v ===== *)
(** * Result presenter ([src/lib/hermesWr3223.py], lines 199-206)

    [getMessageByCommandResult(cmd, result)] builds the display line
    [cmd ": " descr ": " result], then [" (" label ")"] when the raw value
    has a label, then [" " unit].  [COMMANDS[cmd]] raises [KeyError] for
    an unknown code and concatenating a [None] unit raises [TypeError];
    the registry invariant ([Registry.COMMANDS_wf]) rules the latter out
    for every registered command. *)

From S2P Require Import Prelude PyStr Registry.

Open Scope string_scope.

Definition getMessageByCommandResult (cmd result : string) : Result string :=
  (let? mappedResult := getMappedResult cmd result in
   let msg := "" in
   let? c := dict_get COMMANDS cmd in
   let msg := msg ++ (cmd ++ ": " ++ descr c ++ ": " ++ result) in
   let msg := match mappedResult with
              | Some m => msg ++ (" (" ++ m ++ ")")
              | None => msg
              end in
   let? c' := dict_get COMMANDS cmd in
   match unit c' with
   | Some u => Ok (msg ++ (" " ++ u))
   | None => Raise TypeError
   end)%py.

(** The label part of the message. *)
Definition label_suffix (c : Command) (result : string) : string :=
  match mapping c with
  | Some m => match m !! result with Some l => " (" ++ l ++ ")" | None => "" end
  | None => ""
  end.

(** The statement of [getMessageByCommandResult_format], used by the proofs that build on it. *)
Lemma getMessageByCommandResult_format_core cmd c result :
  COMMANDS !! cmd = Some c ->
  exists u, unit c = Some u /\
    getMessageByCommandResult cmd result =
    Ok (cmd ++ ": " ++ descr c ++ ": " ++ result ++ label_suffix c result ++ " " ++ u).
Proof.
  intros Hc. destruct (COMMANDS_entries_wf cmd c Hc) as (_ & _ & _ & Hu).
  destruct (unit c) as [u|] eqn:Eu; [|done]. exists u. split; [done|].
  unfold getMessageByCommandResult, getMappedResult, dict_get, label_suffix.
  rewrite Hc. cbn [rbind]. rewrite Eu.
  destruct (mapping c) as [m|]; [destruct (m !! result)|];
    by autorewrite with pyio.
Qed.

(** C32: For every registered command and every raw value, the message
    never raises and reads [cmd ": " descr ": " value], then the label in
    parentheses when the value has one, then a space and the unit. *)
Theorem getMessageByCommandResult_format cmd c result :
  COMMANDS !! cmd = Some c ->
  exists u, unit c = Some u /\
    getMessageByCommandResult cmd result =
    Ok (cmd ++ ": " ++ descr c ++ ": " ++ result ++ label_suffix c result ++ " " ++ u).
Proof. exact (getMessageByCommandResult_format_core cmd c result). Qed.

Lemma getMessageByCommandResult_format_witness :
  getMessageByCommandResult "MD" "3." = Ok "MD: Mode: 3. (Winter: WP aus) " /\
  getMessageByCommandResult "T1" "21.0" = Ok "T1: Temperatur Verdampfer: 21.0 [°C]".
Proof.
  split.
  - destruct (getMessageByCommandResult_format "MD" _ "3." eq_refl) as (u & Hu & ->).
    vm_compute in Hu. injection Hu as <-. reflexivity.
  - destruct (getMessageByCommandResult_format "T1" _ "21.0" eq_refl) as (u & Hu & ->).
    vm_compute in Hu. injection Hu as <-. reflexivity.
Defined.

(** C33: An unknown code raises [KeyError] before any message is
    built. *)
Theorem getMessageByCommandResult_unknown cmd result :
  COMMANDS !! cmd = None -> getMessageByCommandResult cmd result = Raise (KeyError cmd).
Proof.
  intros Hc. unfold getMessageByCommandResult, getMappedResult, dict_get. by rewrite Hc.
Qed.

Lemma getMessageByCommandResult_unknown_witness :
  getMessageByCommandResult "XX" "1." = Raise (KeyError "XX").
Proof. apply getMessageByCommandResult_unknown. reflexivity. Defined.
