(* ===== verification/Legacy.v ===== *)
(** * The earlier, function-based library ([src/lib/hermesWr3223.backup.py])

    The backup module predates the class: a 5-entry command table whose
    values are descriptions, module-level [createReadRequest(adress,
    command)], [createAdressStringForRequest], [makeHumanReadable],
    [receiveResponse(connection)], [getValueFromResponse],
    [readFromDevice(connection, command)] at the fixed address 1, and
    [query(connection)], which reads every command of the table in the
    table's order.  Its dict is iterated, so it is an association list in
    insertion order.  The control characters and their names are defined
    again, as the file does; they equal the current module's ([Codec]).

    The refinement theorem says the current class implements the backup's
    polling: on the backup's commands, [read] and [readMultiple] of an
    object at address 1 do what [readFromDevice] and [query] do on the
    same port. *)

From S2P Require Import Prelude PyStr Registry Codec Serial Transport.

Open Scope string_scope.
Open Scope io_scope.

Module Backup.

(** The control characters and [CONTROLCHARS] (lines 16-29): a fresh dict
    filled key by key, the same table as the current module's. *)
Definition STX : string := String "002"%char "".
Definition ETX : string := String "003"%char "".
Definition EOT : string := String "004"%char "".
Definition ENQ : string := String "005"%char "".
Definition ACK : string := String "006"%char "".
Definition NAK : string := String "021"%char "".

Definition CONTROLCHARS : gmap string string :=
  dict_lit [(STX, "<STX>"); (ETX, "<ETX>"); (EOT, "<EOT>");
            (ENQ, "<ENQ>"); (ACK, "<ACK>"); (NAK, "<NAK>")].

(** [COMMANDS] (lines 32-38), in insertion order. *)
Definition COMMANDS : list (string * string) :=
  [("T1", "Temperatur Verdampfer"); ("T2", "Temperatur Kondensator");
   ("T3", "Temperatur Luft aussen"); ("T4", "Temperatur Abluft (Raumtemperatur)");
   ("T5", "Temperatur nach Wärmetauscher")].

Definition in_COMMANDS (command : string) : bool :=
  existsb (fun kv => String.eqb kv.1 command) COMMANDS.

(** [makeHumanReadable] (lines 44-51). *)
Fixpoint makeHumanReadable_loop (humanReadableMessage message : string) : string :=
  match message with
  | EmptyString => humanReadableMessage
  | String c rest =>
      let char := String c "" in
      makeHumanReadable_loop
        (humanReadableMessage ++
           match CONTROLCHARS !! char with Some name => name | None => char end)
        rest
  end.

Definition makeHumanReadable (message : string) : string := makeHumanReadable_loop "" message.

(** [createAdressStringForRequest] (lines 63-80). *)
Definition createAdressStringForRequest (adress : Z) : Result string :=
  if ((adress <? 0) || (adress >? 99))%Z then
    Raise (ValueError "The specified adress is out ouf range")
  else
    let adressString := str_of_int adress in
    let adressString :=
      if Nat.eqb (String.length adressString) 1 then "0" ++ adressString else adressString in
    match String.get 0 adressString, String.get 1 adressString with
    | Some adressCharHigh, Some adressCharLow =>
        Ok (String adressCharHigh (String adressCharHigh
              (String adressCharLow (String adressCharLow ""))))
    | _, _ => Raise IndexError
    end.

(** [createReadRequest(adress, command)] (lines 53-60): the code checks
    come before the address is encoded. *)
Definition createReadRequest (adress : Z) (command : string) : Result string :=
  (if negb (Nat.eqb (String.length command) 2) then
     Raise (ValueError "The given Command is invalid - must have 2 chars!")
   else if negb (in_COMMANDS command) then
     Raise (ValueError "The given Command is unknown")
   else
     let? adressMessageString := createAdressStringForRequest adress in
     Ok (EOT ++ adressMessageString ++ command ++ ENQ))%py.

(** [connection.read(1).decode('ascii')]. *)
Definition read_char : io Serial string :=
  b <- serial_read1 ;; lift (decode_ascii b).

(** [receiveResponse(connection)] (lines 109-116). *)
Fixpoint receiveResponse_loop (fuel : nat) (char response : string) : io Serial string :=
  if String.eqb char ETX then ret response
  else match fuel with
       | O => out_of_fuel
       | S fuel' =>
           char' <- read_char ;;
           receiveResponse_loop fuel' char' (response ++ char')
       end.

Definition receiveResponse (fuel : nat) : io Serial (string * string) :=
  char <- read_char ;;
  response <- receiveResponse_loop fuel char char ;;
  checksum <- read_char ;;
  ret (response, checksum).

(** [getValueFromResponse] (lines 118-124). *)
Definition getValueFromResponse (response : string) : Result string :=
  (let value := response in
   let? stx := dict_get CONTROLCHARS STX in
   let value := str_replace stx "" value in
   let? etx := dict_get CONTROLCHARS ETX in
   let value := str_replace etx "" value in
   let value := str_drop 2 value in
   Ok (strip value))%py.

(** [readFromDevice(connection, command)] (lines 99-107). *)
Definition readFromDevice (fuel : nat) (command : string) : io Serial string :=
  let adress := 1%Z in
  request <- lift (createReadRequest adress command) ;;
  data <- lift (encode_ascii request) ;;
  serial_write data ;;;
  rc <- receiveResponse fuel ;;
  ret (makeHumanReadable rc.1).

(** [query(connection)] (lines 126-131). *)
Fixpoint query_loop (fuel : nat) (commands : list string) (result : gmap string string)
    : io Serial (gmap string string) :=
  match commands with
  | [] => ret result
  | command :: rest =>
      response <- readFromDevice fuel command ;;
      v <- lift (getValueFromResponse response) ;;
      query_loop fuel rest (<[command := v]> result)
  end.

Definition query (fuel : nat) : io Serial (gmap string string) :=
  query_loop fuel (map fst COMMANDS) ∅.

End Backup.

(** ** Refinement *)

#[export] Instance on_serial_proper {A} : Proper (io_equiv ==> io_equiv) (@on_serial A).
Proof. intros m1 m2 Hm self. unfold on_serial. by rewrite Hm. Qed.

Lemma on_serial_bind {A B} (m : io Serial A) (k : A -> io Serial B) :
  io_equiv (on_serial (bind m k)) (bind (on_serial m) (fun a => on_serial (k a))).
Proof.
  intros self. unfold on_serial, bind. destruct (m (_serial self)) as [[a|e] s|]; [|done|done].
  change (_serial (set_serial s self)) with s. destruct (k a s) as [r s'|]; reflexivity.
Qed.

Lemma on_serial_lift {A} (r : Result A) : io_equiv (on_serial (lift r)) (lift r).
Proof. intros self. by destruct self. Qed.

Lemma on_serial_ret {A} (a : A) : io_equiv (on_serial (ret a)) (ret a).
Proof. intros self. by destruct self. Qed.

Lemma on_serial_read_char : io_equiv (on_serial Backup.read_char) read_char.
Proof.
  unfold Backup.read_char, read_char. rewrite on_serial_bind.
  setoid_rewrite on_serial_lift. reflexivity.
Qed.

Lemma on_serial_receiveResponse_loop fuel char response :
  io_equiv (on_serial (Backup.receiveResponse_loop fuel char response))
           (_receiveResponse_loop fuel char response).
Proof.
  revert char response. induction fuel as [|fuel IH]; intros char response;
    cbn [Backup.receiveResponse_loop _receiveResponse_loop]; change Backup.ETX with ETX;
    destruct (String.eqb char ETX); try apply on_serial_ret; [intros s; reflexivity|].
  rewrite on_serial_bind, on_serial_read_char. setoid_rewrite IH. reflexivity.
Qed.

Lemma on_serial_receiveResponse fuel :
  io_equiv (on_serial (Backup.receiveResponse fuel)) (_receiveResponse fuel).
Proof.
  unfold Backup.receiveResponse, _receiveResponse.
  rewrite on_serial_bind, on_serial_read_char. setoid_rewrite on_serial_bind.
  setoid_rewrite on_serial_receiveResponse_loop. setoid_rewrite on_serial_bind.
  setoid_rewrite on_serial_read_char. setoid_rewrite on_serial_ret. reflexivity.
Qed.

Lemma backup_commands_registered :
  Forall (fun kv => exists c, Registry.COMMANDS !! kv.1 = Some c) Backup.COMMANDS.
Proof.
  repeat constructor; eexists; reflexivity.
Qed.

Lemma backup_in_registered cmd :
  Backup.in_COMMANDS cmd = true -> exists c, Registry.COMMANDS !! cmd = Some c.
Proof.
  unfold Backup.in_COMMANDS. intros (kv & Hkv & Heq)%existsb_exists.
  apply String.eqb_eq in Heq as <-.
  pose proof backup_commands_registered as Hall. rewrite Forall_forall in Hall.
  apply Hall. by apply list_elem_of_In.
Qed.

(** The statement of [createReadRequest_refined], used by the proofs that build on it. *)
Lemma createReadRequest_refined_core a cmd :
  Backup.in_COMMANDS cmd = true ->
  Backup.createReadRequest a cmd =
  (let? adr := _createAdressString a in _createReadRequest adr cmd)%py.
Proof.
  intros Hin. destruct (backup_in_registered cmd Hin) as [c Hc].
  destruct (COMMANDS_entries_wf cmd c Hc) as (_ & Hlen & _).
  unfold Backup.createReadRequest. rewrite Hlen, Hin. cbn [Nat.eqb negb].
  change (Backup.createAdressStringForRequest a) with (_createAdressString a).
  destruct (_createAdressString a) as [adr|e]; cbn [rbind]; [|done].
  by rewrite (_createReadRequest_registered _ _ _ Hc).
Qed.

(** C23: The class's request builder refines the backup's: for every
    command of the backup's table and every address, encoding the
    address and then calling [_createReadRequest] gives what
    [createReadRequest(adress, command)] gives, errors included (the
    current registry extends the backup's table, so only the order of
    the checks differs, which cannot matter on these commands). *)
Theorem createReadRequest_refined a cmd :
  Backup.in_COMMANDS cmd = true ->
  Backup.createReadRequest a cmd =
  (let? adr := _createAdressString a in _createReadRequest adr cmd)%py.
Proof. exact (createReadRequest_refined_core a cmd). Qed.

Lemma createReadRequest_refined_witness :
  Backup.createReadRequest 1 "T3" = (let? adr := _createAdressString 1 in _createReadRequest adr "T3")%py.
Proof. apply createReadRequest_refined. reflexivity. Defined.

(** [read] at address 1 is the backup's [readFromDevice] followed by
    [getValueFromResponse]. *)
Lemma read_as_readFromDevice fuel cmd self :
  _adressMessageString self = "0011" -> Backup.in_COMMANDS cmd = true ->
  read fuel cmd self =
  bind (on_serial (Backup.readFromDevice fuel cmd))
       (fun r => lift (Backup.getValueFromResponse r)) self.
Proof.
  intros Hf Hin. unfold read. rewrite bind_get, Hf.
  unfold Backup.readFromDevice.
  change Backup.getValueFromResponse with _getValueFromResponse.
  change Backup.makeHumanReadable with _makeHumanReadable.
  rewrite (createReadRequest_refined_core 1 cmd Hin). change (_createAdressString 1) with (Ok "0011").
  cbn [rbind]. unfold bind, lift, on_serial, ret.
  destruct (_createReadRequest "0011" cmd) as [req|e]; [|by destruct self].
  destruct (encode_ascii req) as [data|e]; [|by destruct self].
  destruct (serial_write data (_serial self)) as [[n|e] s1|]; [|done|done].
  rewrite <- (on_serial_receiveResponse fuel (set_serial s1 self)). unfold on_serial.
  change (_serial (set_serial s1 self)) with s1.
  destruct (Backup.receiveResponse fuel s1) as [[rc|e] s2|]; reflexivity.
Qed.

(** C22: The class refines the backup's polling loop: for an object at
    address 1, [readMultiple] over the backup's table, in the table's
    order, behaves exactly as the backup's [query] on the object's port,
    from every port state: same dict, same exception, same writes and
    reads, same port state afterwards. *)
Theorem readMultiple_refines_query fuel self :
  _adressMessageString self = "0011" ->
  readMultiple fuel (map fst Backup.COMMANDS) self = on_serial (Backup.query fuel) self.
Proof.
  unfold readMultiple, Backup.query.
  assert (Hin : Forall (fun cmd => Backup.in_COMMANDS cmd = true) (map fst Backup.COMMANDS))
    by (repeat constructor).
  generalize (∅ : gmap string string) as m. revert self.
  induction Hin as [|cmd cmds Hc Hcs IH]; intros self m Hf.
  - symmetry. apply on_serial_ret.
  - cbn [readMultiple_loop Backup.query_loop].
    rewrite (bind_cong _ _ _ _ self (read_as_readFromDevice fuel cmd self Hf Hc)
               (fun _ _ => eq_refl)).
    unfold bind, on_serial, lift.
    destruct (Backup.readFromDevice fuel cmd (_serial self)) as [[r|e] s|]; [|done|done].
    destruct (Backup.getValueFromResponse r) as [v|e]; [|done].
    rewrite IH by done. reflexivity.
Qed.

Lemma readMultiple_refines_query_witness :
  readMultiple 10 (map fst Backup.COMMANDS) demo_connected =
  on_serial (Backup.query 10) demo_connected.
Proof. apply readMultiple_refines_query. reflexivity. Defined.
