(* ===== verification/Domoticz.v ===== *)
(** * The Domoticz host

    The part of Domoticz a Python plugin talks to, as the plugin of this
    repository uses it: the [Devices] dict, the plugin's [Parameters],
    the trace of calls to the [Domoticz] module ([Log], [Debug],
    [Error], [Debugging], [Heartbeat]), and the serial lines the port
    names refer to.  [Domoticz.Device(...).Create()] and
    [Device.Update(...)] are written from Domoticz's documented plugin
    API.  This is the environment of [Plugin.v]; it is not repository
    code.

    The second half is the reasoning about host states the plugin's
    proofs share: [devices_step] (a program ends normally, changes the
    devices by a given function and leaves the environment alone), the
    lookups of a fold of device updates, and [io_keeps] (every run of a
    program relates its start and end states by a preorder), with the
    preorder [host_evolves]: devices are kept with their identity and
    stay stored under their own unit. *)

From S2P Require Import Prelude PyStr Serial.

Open Scope string_scope.
Open Scope io_scope.

(** ** The host *)

Record Device := mkDevice {
  Name : string;
  Unit : nat;
  TypeName : string;
  Options : gmap string string;
  nValue : Z;
  sValue : string
}.

(** The calls of the plugin to the [Domoticz] module, in order:
    [Log], [Debug] and [Error] messages, and the [Debugging(n)] and
    [Heartbeat(n)] settings. *)
Inductive LogEntry :=
| LogMsg (s : string)
| DebugMsg (s : string)
| ErrorMsg (s : string)
| DebuggingCall (n : Z)
| HeartbeatCall (n : Z).

Record Host := mkHost {
  Devices : gmap nat Device;
  log : list LogEntry;
  Parameters : gmap string string;
  ports : string -> Line
}.

Definition set_Devices (d : gmap nat Device) (h : Host) : Host :=
  {| Devices := d; log := log h; Parameters := Parameters h; ports := ports h |}.

Definition emit (e : LogEntry) : io Host Datatypes.unit := fun h =>
  Done (Ok tt) {| Devices := Devices h; log := (log h ++ [e])%list;
                  Parameters := Parameters h; ports := ports h |}.

(** [Domoticz.Device(Name=.., Unit=.., TypeName=.., Options=..).Create()]:
    a new device starts at [nValue = 0], [sValue = ""]; Domoticz refuses a
    unit that is already taken and logs an error. *)
Definition device_create (d : Device) : io Host Datatypes.unit := fun h =>
  match Devices h !! Unit d with
  | Some _ => emit (ErrorMsg ("Unit " ++ str_of_int (Z.of_nat (Unit d)) ++ " already exists")) h
  | None => Done (Ok tt) (set_Devices (<[Unit d := d]> (Devices h)) h)
  end.

(** A device with its value set. *)
Definition set_value (n : Z) (s : string) (d : Device) : Device :=
  {| Name := Name d; Unit := Unit d; TypeName := TypeName d; Options := Options d;
     nValue := n; sValue := s |}.

(** [Devices[Unit].Update(nValue, sValue)]. *)
Definition device_update (u : nat) (n : Z) (s : string) : io Host Datatypes.unit := fun h =>
  match Devices h !! u with
  | Some d => Done (Ok tt) (set_Devices (<[u := set_value n s d]> (Devices h)) h)
  | None => Done (Ok tt) h
  end.

(** ** Programs on the host *)

(** Only the devices and the log changed. *)
Definition same_env (h h' : Host) : Prop := Parameters h' = Parameters h /\ ports h' = ports h.

#[export] Instance same_env_preorder : PreOrder same_env.
Proof. split; [by intros h|]. intros h1 h2 h3 [] []. split; congruence. Qed.

(** [m] runs to completion, leaves the environment alone and changes the
    devices by [F]. *)
Definition devices_step {A} (m : io Host A) (h : Host) (a : A) (F : gmap nat Device -> gmap nat Device) : Prop :=
  exists h', m h = Done (Ok a) h' /\ Devices h' = F (Devices h) /\ same_env h h'.

Lemma emit_step e h : devices_step (emit e) h tt id.
Proof. eexists. split; [reflexivity|]. split; [done|]. split; done. Qed.

Lemma devices_step_bind {A B} (m : io Host A) (k : A -> io Host B) h a b F G :
  devices_step m h a F -> (forall h', same_env h h' -> devices_step (k a) h' b G) ->
  devices_step (bind m k) h b (fun D => G (F D)).
Proof.
  intros (h1 & Hm & HD1 & He1) Hk. destruct (Hk h1 He1) as (h2 & Hk2 & HD2 & He2).
  exists h2. unfold bind. rewrite Hm. split; [done|]. split; [by rewrite HD2, HD1|].
  by transitivity h1.
Qed.

Lemma devices_step_lift {A B} (a : A) (k : A -> io Host B) h b F :
  devices_step (k a) h b F -> devices_step (bind (lift (Ok a)) k) h b F.
Proof. done. Qed.

Lemma devices_step_ret {A B} (a : A) (k : A -> io Host B) h b F :
  devices_step (k a) h b F -> devices_step (bind (ret a) k) h b F.
Proof. done. Qed.

Lemma for_each_step (f : string -> io Host Datatypes.unit) (g : string -> gmap nat Device -> gmap nat Device) cmds h :
  (forall cmd h, cmd ∈ cmds -> devices_step (f cmd) h tt (g cmd)) ->
  devices_step (for_each cmds f) h tt (fun D => foldl (fun D c => g c D) D cmds).
Proof.
  revert h. induction cmds as [|cmd cmds IH]; intros h Hf.
  - eexists. split; [reflexivity|]. split; done.
  - cbn [for_each foldl].
    eapply (devices_step_bind _ _ _ _ _ (g cmd) (fun D => foldl (fun D c => g c D) D cmds)).
    + apply Hf. by left.
    + intros h' _. apply IH. intros c h'' Hc. apply Hf. by right.
Qed.

Section FoldAlter.
Context (u : string -> option nat) (f : string -> Device -> Device).
Hypothesis u_inj : forall c1 c2 j, u c1 = Some j -> u c2 = Some j -> c1 = c2.

(** Update the device of command [c], if [c] has a unit. *)
Definition alter_at (D : gmap nat Device) (c : string) : gmap nat Device :=
  match u c with Some j => alter (f c) j D | None => D end.

Lemma foldl_alter_other cmds D i :
  (forall c, c ∈ cmds -> u c <> Some i) -> foldl alter_at D cmds !! i = D !! i.
Proof.
  revert D. induction cmds as [|c cmds IH]; intros D Hn; [done|]. cbn [foldl].
  rewrite IH by (intros c' Hc'; apply Hn; by right).
  unfold alter_at. destruct (u c) as [j|] eqn:Hu; [|done].
  rewrite lookup_alter_ne; [done|]. intros ->. apply (Hn c); [by left|done].
Qed.

Lemma foldl_alter_hit cmds D cmd i :
  NoDup cmds -> cmd ∈ cmds -> u cmd = Some i -> foldl alter_at D cmds !! i = f cmd <$> D !! i.
Proof.
  revert D. induction cmds as [|c cmds IH]; intros D Hnd Hin Hu; [by apply not_elem_of_nil in Hin|].
  apply NoDup_cons in Hnd as [Hc Hnd]. cbn [foldl].
  apply elem_of_cons in Hin as [->|Hin].
  - rewrite foldl_alter_other.
    + unfold alter_at. by rewrite Hu, lookup_alter_eq.
    + intros c' Hc' Hu'. apply Hc. by rewrite (u_inj _ _ _ Hu Hu').
  - rewrite IH by done. unfold alter_at. destruct (u c) as [j|] eqn:Hj; [|done].
    rewrite lookup_alter_ne; [done|]. intros ->. apply Hc. by rewrite (u_inj _ _ _ Hj Hu).
Qed.

End FoldAlter.

(** ** Preservation along the lifetime of the plugin *)

Section Keeps.
Context (R : Host -> Host -> Prop) `{!PreOrder R}.

(** Every run of [m] that ends relates its start and end states by [R]. *)
Definition io_keeps {A} (m : io Host A) : Prop :=
  forall h r h', m h = Done r h' -> R h h'.

Lemma io_keeps_bind {A B} (m : io Host A) (k : A -> io Host B) :
  io_keeps m -> (forall a, io_keeps (k a)) -> io_keeps (bind m k).
Proof.
  intros Hm Hk h r h'. unfold bind.
  destruct (m h) as [[a|e] h1|] eqn:E; [|intros [= _ <-]; exact (Hm _ _ _ E)|done].
  intros H. transitivity h1; [exact (Hm _ _ _ E)|exact (Hk a _ _ _ H)].
Qed.

Lemma io_keeps_pure {A} (m : io Host A) : (forall h r h', m h = Done r h' -> h' = h) -> io_keeps m.
Proof. intros Hm h r h' H. rewrite (Hm _ _ _ H). reflexivity. Qed.

Lemma io_keeps_ret {A} (a : A) : io_keeps (ret a).
Proof. apply io_keeps_pure. by intros h r h' [= _ <-]. Qed.

Lemma io_keeps_lift {A} (r : Result A) : io_keeps (lift r).
Proof. apply io_keeps_pure. by intros h r' h' [= _ <-]. Qed.

Lemma io_keeps_raise {A} e : io_keeps (@raise Host A e).
Proof. apply io_keeps_pure. by intros h r h' [= _ <-]. Qed.

Lemma io_keeps_get : io_keeps get.
Proof. apply io_keeps_pure. by intros h r h' [= _ <-]. Qed.

Lemma io_keeps_run_local {O A} (o : O) (m : io O A) : io_keeps (run_local o m).
Proof. apply io_keeps_pure. intros h r h'. unfold run_local. by destruct (m o); [intros [= _ <-]|]. Qed.

Lemma io_keeps_for_each {X} (xs : list X) (f : X -> io Host Datatypes.unit) :
  (forall x, io_keeps (f x)) -> io_keeps (for_each xs f).
Proof.
  intros Hf. induction xs as [|x xs IH]; cbn [for_each]; [apply io_keeps_ret|by apply io_keeps_bind].
Qed.

End Keeps.

Create HintDb host_keeps.
#[export] Hint Resolve io_keeps_ret io_keeps_lift io_keeps_raise io_keeps_get io_keeps_run_local : host_keeps.

Ltac io_keeps_auto :=
  repeat (intros; lazymatch goal with
          | |- io_keeps _ (match ?x with _ => _ end) => destruct x
          | |- io_keeps _ (if ?b then _ else _) => destruct b
          | |- PreOrder _ => exact _
          | |- io_keeps _ (let _ := _ in _) => cbv zeta
          | |- io_keeps _ (bind _ _) => apply io_keeps_bind
          | |- io_keeps _ (for_each _ _) => apply io_keeps_for_each
          | |- _ => eauto with host_keeps
          end).

(** Every device is stored under its own unit number. *)
Definition host_wf (h : Host) : Prop := map_Forall (fun i d => Unit d = i) (Devices h).

(** A device keeps what identifies it: its name, unit, type and options. *)
Definition same_device (d d' : Device) : Prop :=
  Name d' = Name d /\ Unit d' = Unit d /\ TypeName d' = TypeName d /\ Options d' = Options d.

(** How the host may evolve under the plugin: well-formedness is kept,
    no device is deleted or changes identity, and the parameters and
    ports stay as they are. *)
Definition host_evolves (h h' : Host) : Prop :=
  (host_wf h -> host_wf h') /\
  (forall i d, Devices h !! i = Some d -> exists d', Devices h' !! i = Some d' /\ same_device d d') /\
  Parameters h' = Parameters h /\ ports h' = ports h.

#[export] Instance host_evolves_preorder : PreOrder host_evolves.
Proof.
  split.
  - intros h. split; [done|]. split; [|done]. intros i d Hd. exists d. by repeat split.
  - intros h1 h2 h3 (W12 & D12 & P12 & L12) (W23 & D23 & P23 & L23).
    split; [tauto|]. split; [|split; congruence].
    intros i d Hd. destruct (D12 i d Hd) as (d2 & H2 & N2 & U2 & T2 & O2).
    destruct (D23 i d2 H2) as (d3 & H3 & N3 & U3 & T3 & O3).
    exists d3. repeat split; congruence.
Qed.

#[export] Hint Resolve host_evolves_preorder : host_keeps.

Lemma emit_evolves e : io_keeps host_evolves (emit e).
Proof.
  intros h r h' [= _ <-]. split; [done|]. split; [|done].
  intros i d Hd. exists d. by repeat split.
Qed.

Lemma device_create_evolves d : io_keeps host_evolves (device_create d).
Proof.
  intros h r h'. unfold device_create; cbv beta. destruct (Devices h !! Unit d) as [d0|] eqn:E.
  - apply emit_evolves.
  - intros [= _ <-]. split; [|split; [|done]].
    + intros Hh. apply map_Forall_insert_2; done.
    + intros i d' Hd'. exists d'. split; [|by repeat split].
      cbn [Devices set_Devices]. rewrite lookup_insert_ne; [done|]. intros Heq. subst i. congruence.
Qed.

Lemma device_update_evolves u n s : io_keeps host_evolves (device_update u n s).
Proof.
  intros h r h'. unfold device_update; cbv beta. destruct (Devices h !! u) as [d|] eqn:E; [|intros [= _ <-]; reflexivity].
  intros [= _ <-]. split; [|split; [|done]].
  - intros Hh. apply map_Forall_insert_2; [|done]. exact (Hh u d E).
  - intros i d' Hd'. cbn [Devices set_Devices]. destruct (decide (i = u)) as [->|Hne].
    + rewrite lookup_insert_eq. eexists. split; [done|]. rewrite E in Hd'. injection Hd' as <-. by repeat split.
    + rewrite lookup_insert_ne by congruence. exists d'. by repeat split.
Qed.

#[export] Hint Resolve emit_evolves device_create_evolves device_update_evolves : host_keeps.

