(* ===== verification/Plugin.v ===== *)
(** * The Domoticz plugin ([src/plugin.py])

    [BasePlugin] publishes the controller's values as Domoticz devices:
    one device per used command, numbered from 1 in the order of
    [usedCommands].  [createDevices] creates them with a device type per
    group of commands, selector switches get their level names from the
    command's mapping table, and [updateDevices] (the heartbeat) reads all
    used commands through [HermesWr3223.readMultiple] and writes each value
    into its device.  Every method is an [io] program over the [Host] of
    [Domoticz.v]; the module-level callbacks are [dispatch], and the
    lifetime of the plugin is the step relation [plugin_step].

    The theorems here are those of the plugin alone: the command
    partition and the device numbering, the selector levels against
    [LevelNames], [createDevices] on an empty host, and the error paths
    of [getDomoticzSwitchLevel] and [updateDevices].  [Heartbeat.v] holds
    the ones that compose the plugin with the transport. *)

From S2P Require Import Prelude PyStr Registry Codec Serial Transport Presenter Domoticz.

Open Scope string_scope.
Open Scope io_scope.

(** ** Python helpers the plugin uses *)

(** [sorted(d.keys())]: Python compares strings by code point, as
    [String.le] does on ASCII. *)
Definition sorted_keys (d : gmap string string) : list string :=
  merge_sort String.le (fst <$> map_to_list d).

(** [repr(s)] of a string without quotes or escapes in it. *)
Definition py_repr (s : string) : string := "'" ++ s ++ "'".

(** [l.index(x)]: the first position of [x], or [ValueError]. *)
Fixpoint list_index (x : string) (l : list string) : Result nat :=
  match l with
  | [] => Raise (ValueError (py_repr x ++ " is not in list"))
  | y :: l' => if String.eqb x y then Ok 0 else (let? i := list_index x l' in Ok (S i))%py
  end.

(** [dict(enumerate(l, start=n))] in insertion order. *)
Fixpoint enumerate (n : nat) (l : list string) : list (nat * string) :=
  match l with
  | [] => []
  | x :: l' => (n, x) :: enumerate (S n) l'
  end.

Definition str_of_nat (n : nat) : string := str_of_int (Z.of_nat n).

(** ** [BasePlugin]: class attributes (lines 31-37) *)

Definition usedSelectorSwitchCommands : list string := ["MD"; "LS"; "Tf"].

Definition usedTemperatureCommands : list string := ["T1"; "T2"; "T3"; "T4"; "T5"; "T6"; "T7"; "T8"].

Definition usedPercentageCommands : list string := ["L1"; "L2"; "L3"; "LD"; "Ld"].

Definition usedCustomCommands : list string := ["NZ"; "NA"; "UZ"; "UA"].

Definition usedSpecificCommands : list string :=
  usedSelectorSwitchCommands ++ usedTemperatureCommands ++ usedPercentageCommands
  ++ usedCustomCommands.

Definition usedTextCommands : list string :=
  merge_sort String.le
    (elements (dom COMMANDS ∖ list_to_set usedSpecificCommands : gset string)).

Definition usedCommands : list string := usedSpecificCommands ++ usedTextCommands.

Record BasePlugin := mkBasePlugin {
  mapDeviceToUsedCmd : gmap nat string;
  mapUsedCmdToDevice : gmap string nat
}.

(** [__init__] (lines 39-41): the dict comprehension walks the items of
    [mapDeviceToUsedCmd] in insertion order. *)
Definition BasePlugin__init__ : BasePlugin :=
  {| mapDeviceToUsedCmd := dict_lit (enumerate 1 usedCommands);
     mapUsedCmdToDevice := dict_lit (map (fun kv => (kv.2, kv.1)) (enumerate 1 usedCommands)) |}.

(** ** Device creation (lines 75-116) *)

Definition createDevice (self : BasePlugin) (cmd deviceType : string)
    (options : gmap string string) : io Host Datatypes.unit :=
  if negb (bool_decide (cmd ∈ usedCommands)) then
    raise (ValueError ("cmd=" ++ cmd ++ " is not a valid command! See BasePlugin.usedCommands!"))
  else if negb (bool_decide (cmd ∈ dom COMMANDS)) then
    raise (ValueError ("cmd=" ++ cmd ++ " is not a valid command! See hermesWr3223.COMMANDS!"))
  else
    deviceIdx <- lift (dict_get (mapUsedCmdToDevice self) cmd) ;;
    c <- lift (dict_get COMMANDS cmd) ;;
    let deviceName := cmd ++ ": " ++ descr c in
    device_create {| Name := deviceName; Unit := deviceIdx; TypeName := deviceType;
                     Options := options; nValue := 0; sValue := "" |}.

(** The loop of [createSwitchOptionsFromResultMapping]: one iteration,
    and the loop over the sorted keys. *)
Definition level_step (resultMapping : gmap string string) (acc : string * string)
    (result : string) : Result (string * string) :=
  (let? mappedResult := dict_get resultMapping result in
   Ok (acc.1 ++ mappedResult ++ "|", acc.2 ++ "|"))%py.

Definition level_loop (resultMapping : gmap string string) (keys : list string)
    : Result (string * string) :=
  rfold (level_step resultMapping) ("", "") keys.

Definition createSwitchOptionsFromResultMapping (resultMapping : option (gmap string string))
    : Result (gmap string string) :=
  match resultMapping with
  | None => Ok ∅
  | Some m =>
      (let? acc := level_loop m (sorted_keys m) in
       let levelNames := str_drop_last acc.1 in
       let levelActions := str_drop_last acc.2 in
       Ok (dict_lit [("LevelNames", levelNames); ("LevelActions", levelActions);
                     ("LevelOffHidden", "false"); ("SelectorStyle", "1")]))%py
  end.

Definition createDevices (self : BasePlugin) : io Host Datatypes.unit :=
  for_each usedTemperatureCommands (fun cmd => createDevice self cmd "Temperature" ∅) ;;;
  for_each usedPercentageCommands (fun cmd => createDevice self cmd "Percentage" ∅) ;;;
  for_each usedTextCommands (fun cmd => createDevice self cmd "Text" ∅) ;;;
  for_each usedCustomCommands (fun cmd =>
    c <- lift (dict_get COMMANDS cmd) ;;
    match unit c with
    | None => raise TypeError
    | Some u => createDevice self cmd "Custom" (dict_lit [("Custom", "1;" ++ u)])
    end) ;;;
  for_each usedSelectorSwitchCommands (fun cmd =>
    c <- lift (dict_get COMMANDS cmd) ;;
    options <- lift (createSwitchOptionsFromResultMapping (mapping c)) ;;
    createDevice self cmd "Selector Switch" options).

(** ** Switch levels and device updates (lines 118-157, 196-202) *)

(** [getDomoticzSwitchLevel(cmd, result)]: the level of a selector is ten
    times the position of the raw value among the sorted mapping keys.  A
    command without a mapping raises [TypeError]: its error message is
    formatted with two arguments for three [%s]. *)
Definition getDomoticzSwitchLevel (cmd result : string) : io Host string :=
  c <- lift (dict_get COMMANDS cmd) ;;
  match mapping c with
  | None => raise TypeError
  | Some m =>
      match list_index result (sorted_keys m) with
      | Ok index => ret (str_of_nat (10 * index))
      | Raise (ValueError err) =>
          emit (ErrorMsg ("Error! Unable to get SwitchLevel for result: " ++ result
                          ++ " of cmd: " ++ cmd ++ " err: " ++ err ++ " ")) ;;;
          ret result
      | Raise e => raise e
      end
  end.

(** The module-level [UpdateDevice(Unit, nValue, sValue)]. *)
Definition UpdateDevice (u : nat) (n : Z) (s : string) : io Host Datatypes.unit := fun h =>
  match Devices h !! u with
  | None => Done (Ok tt) h
  | Some d =>
      if negb (Z.eqb (nValue d) n) || negb (String.eqb (sValue d) s) then
        (device_update u n s ;;;
         emit (LogMsg ("Update " ++ str_of_int n ++ ":'" ++ s ++ "' (" ++ Name d ++ ")"))) h
      else Done (Ok tt) h
  end.

(** The body of the [for cmd in self.usedCommands] loop. *)
Definition updateDevice_cmd (self : BasePlugin) (results : gmap string string) (cmd : string)
    : io Host Datatypes.unit :=
  match results !! cmd with
  | None => emit (ErrorMsg ("Error! No result for cmd= " ++ cmd))
  | Some result =>
      resultLogMessage <- lift (getMessageByCommandResult cmd result) ;;
      emit (DebugMsg resultLogMessage) ;;;
      resultToSet <- (if bool_decide (cmd ∈ usedSelectorSwitchCommands)
                      then getDomoticzSwitchLevel cmd result else ret result) ;;
      let resultToSet := if bool_decide (cmd ∈ usedTextCommands)
                         then resultLogMessage else resultToSet in
      deviceIdx <- lift (dict_get (mapUsedCmdToDevice self) cmd) ;;
      UpdateDevice deviceIdx 0 resultToSet
  end.

(** The [try] block of [updateDevices]; [fuel] bounds each receive loop. *)
Definition updateDevices_try (fuel : nat) (self : BasePlugin) : io Host Datatypes.unit :=
  h <- get ;;
  serialPort <- lift (dict_get (Parameters h) "SerialPort") ;;
  wgt <- lift (HermesWr3223__init__ (ports h) serialPort 1) ;;
  results <- run_local wgt (connect ;;; readMultiple fuel usedCommands) ;;
  for_each usedCommands (updateDevice_cmd self results).

(** [updateDevices]: the handler names [serial.Serialexception], which the
    module does not have, so any exception of the [try] block is replaced
    by an [AttributeError] when the [except] clause is evaluated. *)
Definition updateDevices (fuel : nat) (self : BasePlugin) : io Host Datatypes.unit := fun h =>
  match updateDevices_try fuel self h with
  | Done (Raise _) h' => Done (Raise (AttributeError "Serialexception")) h'
  | o => o
  end.

Definition onHeartbeat (fuel : nat) (self : BasePlugin) : io Host Datatypes.unit :=
  updateDevices fuel self.

(** ** Start-up, the other callbacks and the module-level entry points
    (lines 43-73, 159-192, 204-216) *)

Section HostRepr.
(** What the host shows of a device and does not model otherwise:
    [str(device)], [device.ID] and [device.LastLevel]. *)
Variable device_str : Device -> string.
Variable device_ID : Device -> Z.
Variable device_LastLevel : Device -> Z.

(** [DumpConfigToLog()]: the dicts are walked in the host's order, here
    the order of the maps. *)
Definition DumpConfigToLog : io Host Datatypes.unit :=
  h <- get ;;
  for_each (map_to_list (Parameters h)) (fun xv =>
    if String.eqb xv.2 "" then ret tt
    else emit (DebugMsg ("'" ++ xv.1 ++ "':'" ++ xv.2 ++ "'"))) ;;;
  emit (DebugMsg ("Device count: " ++ str_of_nat (size (Devices h)))) ;;;
  for_each (map_to_list (Devices h)) (fun xd =>
    let '(x, d) := xd in
    emit (DebugMsg ("Device:           " ++ str_of_nat x ++ " - " ++ device_str d)) ;;;
    emit (DebugMsg ("Device ID:       '" ++ str_of_int (device_ID d) ++ "'")) ;;;
    emit (DebugMsg ("Device Name:     '" ++ Name d ++ "'")) ;;;
    emit (DebugMsg ("Device nValue:    " ++ str_of_int (nValue d))) ;;;
    emit (DebugMsg ("Device sValue:   '" ++ sValue d ++ "'")) ;;;
    emit (DebugMsg ("Device LastLevel: " ++ str_of_int (device_LastLevel d)))).

(** [onStart()]: [Parameters["Mode6"]] raises [KeyError] when missing;
    devices are created only on a host without devices. *)
Definition onStart (self : BasePlugin) : io Host Datatypes.unit :=
  h <- get ;;
  mode <- lift (dict_get (Parameters h) "Mode6") ;;
  (if String.eqb mode "Debug" then emit (DebuggingCall 1) else ret tt) ;;;
  h <- get ;;
  (if Nat.eqb (size (Devices h)) 0
   then createDevices self ;;; emit (LogMsg "Devices created.")
   else ret tt) ;;;
  DumpConfigToLog ;;;
  emit (LogMsg "Plugin is started.") ;;;
  emit (HeartbeatCall 20).

Definition onStop : io Host Datatypes.unit := emit (LogMsg "onStop called").
Definition onConnect : io Host Datatypes.unit := emit (LogMsg "onConnect called").
Definition onMessage : io Host Datatypes.unit := emit (LogMsg "onMessage called").
Definition onCommand (Unit : nat) (Command : string) (Level : Z) : io Host Datatypes.unit :=
  emit (LogMsg ("onCommand called for Unit " ++ str_of_nat Unit ++ ": Parameter '" ++ Command
                ++ "', Level: " ++ str_of_int Level)).
Definition onNotification (Name Subject Text Status : string) (Priority : Z) (Sound ImageFile : string)
    : io Host Datatypes.unit :=
  emit (LogMsg ("Notification: " ++ Name ++ "," ++ Subject ++ "," ++ Text ++ "," ++ Status ++ ","
                ++ str_of_int Priority ++ "," ++ Sound ++ "," ++ ImageFile)).
Definition onDisconnect : io Host Datatypes.unit := emit (LogMsg "onDisconnect called").

(** The callbacks Domoticz invokes, with the arguments the plugin uses
    (connections, message data and [Hue] are ignored by the code). *)
Inductive Callback :=
| CbStart
| CbStop
| CbConnect
| CbMessage
| CbCommand (Unit : nat) (Command : string) (Level : Z)
| CbNotification (Name Subject Text Status : string) (Priority : Z) (Sound ImageFile : string)
| CbDisconnect
| CbHeartbeat.

(** The module-level functions forward each callback to [_plugin];
    [fuel] bounds each receive loop of a heartbeat. *)
Definition dispatch (fuel : nat) (_plugin : BasePlugin) (cb : Callback) : io Host Datatypes.unit :=
  match cb with
  | CbStart => onStart _plugin
  | CbStop => onStop
  | CbConnect => onConnect
  | CbMessage => onMessage
  | CbCommand u c l => onCommand u c l
  | CbNotification n s t st p snd img => onNotification n s t st p snd img
  | CbDisconnect => onDisconnect
  | CbHeartbeat => onHeartbeat fuel _plugin
  end.

(** [_plugin = BasePlugin()] (lines 159-160). *)
Definition _plugin : BasePlugin := BasePlugin__init__.

(** The lifetime of the plugin: Domoticz calls the callbacks in any
    order; an exception raised by a callback is reported by the host and
    the plugin stays loaded with the state the callback left. *)
Inductive plugin_step (fuel : nat) : Host -> Host -> Prop :=
| plugin_step_call cb h r h' :
    dispatch fuel _plugin cb h = Done r h' -> plugin_step fuel h h'.

End HostRepr.

(** ** Device numbering *)

(** [dict(enumerate(l, start=n))] maps [i] to the element at [i - n]. *)
Lemma foldl_insert_enumerate (n : nat) (l : list string) (m : gmap nat string) (i : nat) :
  foldl (fun m kv => <[kv.1 := kv.2]> m) m (enumerate n l) !! i =
  if decide (n <= i < n + List.length l) then l !! (i - n) else m !! i.
Proof.
  revert n m. induction l as [|x l IH]; intros n m; simpl.
  - case_decide; [lia|done].
  - rewrite IH. rewrite lookup_insert.
    repeat case_decide; subst; try lia; try done.
    + replace (i - n) with (S (i - S n)) by lia. done.
    + rewrite Nat.sub_diag. done.
Qed.

(** The inverted dict maps each element of a duplicate-free [l] to its
    position. *)
Lemma foldl_insert_enumerate_swap (n : nat) (l : list string) (m : gmap string nat) c i :
  NoDup l ->
  (foldl (fun m kv => <[kv.1 := kv.2]> m) m (map (fun kv => (kv.2, kv.1)) (enumerate n l)) !! c
     = Some i <->
   (n <= i /\ l !! (i - n) = Some c) \/ (c ∉ l /\ m !! c = Some i)).
Proof.
  revert n m. induction l as [|x l IH]; intros n m Hnd; simpl.
  - split; [intros; right; split; [apply not_elem_of_nil|done]|].
    intros [[_ ?]|[_ ?]]; [|done]. rewrite lookup_nil in H. done.
  - apply NoDup_cons in Hnd as [Hx Hnd]. rewrite IH by done.
    rewrite lookup_insert. rewrite elem_of_cons.
    destruct (decide (x = c)) as [->|Hne].
    + split.
      * intros [[Hle Hl]|[Hc Hm]].
        -- exfalso. apply Hx. eapply list_elem_of_lookup_2. done.
        -- simplify_eq. left. split; [lia|]. rewrite Nat.sub_diag. done.
      * intros [[Hle Hl]|[Hc _]]; [|exfalso; tauto].
        destruct (i - n) as [|k] eqn:E; simpl in Hl.
        -- simplify_eq. right. split; [done|]. f_equal. lia.
        -- exfalso. apply Hx. eapply list_elem_of_lookup_2. done.
    + split.
      * intros [[Hle Hl]|[Hc Hm]].
        -- left. split; [lia|]. replace (i - n) with (S (i - S n)) by lia. done.
        -- right. split; [intros [?|?]; congruence|done].
      * intros [[Hle Hl]|[Hc Hm]].
        -- left. destruct (i - n) as [|k] eqn:E; simpl in Hl; [congruence|].
           split; [lia|]. replace (i - S n) with k by lia. done.
        -- right. split; [tauto|done].
Qed.


Lemma usedCommands_NoDup : NoDup usedCommands.
Proof. vm_decide. Qed.
Lemma usedCommands_dom : list_to_set usedCommands = (dom COMMANDS : gset string).
Proof. vm_decide. Qed.
(** C14: Every registry command is used exactly once: [usedCommands] has
    no duplicates, and a string is a used command exactly when it is a
    key of [COMMANDS]. *)
Theorem usedCommands_partition :
  NoDup usedCommands /\ (forall cmd, cmd ∈ usedCommands <-> is_Some (COMMANDS !! cmd)).
Proof.
  split; [apply usedCommands_NoDup|]. intros cmd.
  rewrite <- elem_of_dom. rewrite <- usedCommands_dom. rewrite elem_of_list_to_set. done.
Qed.
Lemma mapUsedCmdToDevice_lookup cmd i :
  mapUsedCmdToDevice BasePlugin__init__ !! cmd = Some i <->
  1 <= i /\ usedCommands !! (i - 1) = Some cmd.
Proof.
  cbn [mapUsedCmdToDevice BasePlugin__init__]. unfold dict_lit.
  rewrite foldl_insert_enumerate_swap by apply usedCommands_NoDup.
  rewrite lookup_empty. naive_solver.
Qed.

Lemma mapDeviceToUsedCmd_lookup i cmd :
  mapDeviceToUsedCmd BasePlugin__init__ !! i = Some cmd <->
  1 <= i /\ usedCommands !! (i - 1) = Some cmd.
Proof.
  cbn [mapDeviceToUsedCmd BasePlugin__init__]. unfold dict_lit.
  rewrite foldl_insert_enumerate, lookup_empty.
  case_decide as Hr.
  - split; [intros H; split; [lia|done]|intros [_ H]; exact H].
  - split; [done|]. intros [? H]. apply lookup_lt_Some in H. lia.
Qed.

(** Distinct commands get distinct units. *)
Lemma mapUsedCmdToDevice_inj c1 c2 i :
  mapUsedCmdToDevice BasePlugin__init__ !! c1 = Some i ->
  mapUsedCmdToDevice BasePlugin__init__ !! c2 = Some i -> c1 = c2.
Proof. rewrite !mapUsedCmdToDevice_lookup. intros [_ H1] [_ H2]. congruence. Qed.

(** C15: The two dicts of [BasePlugin.__init__] are inverse: unit [i] shows
    command [cmd] exactly when [cmd] is given unit [i], exactly when [cmd]
    is the [i]-th used command counting from 1. *)
Theorem BasePlugin_device_numbering i cmd :
  (mapDeviceToUsedCmd BasePlugin__init__ !! i = Some cmd <->
   mapUsedCmdToDevice BasePlugin__init__ !! cmd = Some i) /\
  (mapUsedCmdToDevice BasePlugin__init__ !! cmd = Some i <->
   1 <= i /\ usedCommands !! (i - 1) = Some cmd).
Proof.
  split; [|apply mapUsedCmdToDevice_lookup].
  by rewrite mapDeviceToUsedCmd_lookup, mapUsedCmdToDevice_lookup.
Qed.



(** ** Selector switches *)

(** [bar_terminated [x1; ...; xn] = x1 ++ "|" ++ ... ++ xn ++ "|"]. *)
Definition bar_terminated (l : list string) : string :=
  foldr (fun x acc => x ++ "|" ++ acc) "" l.

Lemma sorted_keys_elem m r : r ∈ sorted_keys m <-> is_Some (m !! r).
Proof.
  unfold sorted_keys. rewrite (merge_sort_Permutation String.le _), list_elem_of_fmap.
  split.
  - intros [[k v] [-> Hin]]. apply elem_of_map_to_list in Hin. simpl. eauto.
  - intros [v Hv]. exists (r, v). split; [done|]. by apply elem_of_map_to_list.
Qed.

Lemma list_index_elem x l : x ∈ l -> exists k, list_index x l = Ok k /\ l !! k = Some x.
Proof.
  induction l as [|y l IH]; intros Hx; [by apply not_elem_of_nil in Hx|].
  cbn [list_index]. destruct (String.eqb_spec x y) as [->|Hne]; [by exists 0|].
  apply elem_of_cons in Hx as [?|Hx]; [done|].
  destruct (IH Hx) as (k & -> & Hk). exists (S k). done.
Qed.

Lemma level_rfold m keys a b :
  Forall (fun k => is_Some (m !! k)) keys ->
  rfold (level_step m) (a, b) keys =
  Ok (a ++ bar_terminated ((fun k => default "" (m !! k)) <$> keys),
      b ++ bar_terminated ((fun _ => "") <$> keys)).
Proof.
  revert a b. induction keys as [|k keys IH]; intros a b Hk.
  - cbn. by rewrite !str_app_nil_r.
  - apply Forall_cons in Hk as [[v Hv] Hk]. cbn [rfold fmap list_fmap bar_terminated foldr].
    unfold level_step at 1, dict_get. rewrite Hv. cbn [rbind fst snd default].
    rewrite IH by done. by rewrite !str_app_assoc, !str_app_cons, !str_app_nil_l.
Qed.

Lemma bar_terminated_join l : l <> [] -> bar_terminated l = str_join "|" l ++ "|".
Proof.
  induction l as [|x [|y l] IH]; intros Hne; [done| |].
  - cbn. by rewrite str_app_nil_r.
  - cbn [bar_terminated foldr] in *. rewrite IH by done. cbn [str_join].
    by rewrite !str_app_assoc, str_app_cons.
Qed.

(** The level names of a selector list the labels in sorted key order. *)
Lemma createSwitchOptions_levelNames m :
  m <> ∅ ->
  exists options,
    createSwitchOptionsFromResultMapping (Some m) = Ok options /\
    options !! "LevelNames" =
      Some (str_join "|" ((fun k => default "" (m !! k)) <$> sorted_keys m)).
Proof.
  intros Hm. cbn [createSwitchOptionsFromResultMapping]. unfold level_loop.
  rewrite level_rfold.
  2:{ apply Forall_forall. intros k. by rewrite sorted_keys_elem. }
  cbn [rbind fst snd]. eexists. split; [reflexivity|].
  rewrite !str_app_nil_l, bar_terminated_join.
  - rewrite str_drop_last_snoc. done.
  - destruct (map_choose m Hm) as [r [v Hr]].
    assert (Hin : r ∈ sorted_keys m) by (apply sorted_keys_elem; eauto).
    intros Hnil. apply fmap_nil_inv in Hnil. rewrite Hnil in Hin.
    by apply not_elem_of_nil in Hin.
Qed.

(** Every label of the mapping of [cmd] is free of the separator of
    [LevelNames]. *)
Definition labels_sep_free (cmd : string) : bool :=
  match COMMANDS !! cmd with
  | Some c =>
      match mapping c with
      | Some m => bool_decide (map_Forall (fun _ l => sep_free "|" l = true) m)
      | None => false
      end
  | None => false
  end.

Lemma selector_labels_sep_free : Forall (fun cmd => labels_sep_free cmd = true) usedSelectorSwitchCommands.
Proof. vm_decide. Qed.

Lemma switch_level_label_generic m r label :
  map_Forall (fun _ l => sep_free "|" l = true) m -> m !! r = Some label ->
  exists k options levelNames,
    list_index r (sorted_keys m) = Ok k /\
    createSwitchOptionsFromResultMapping (Some m) = Ok options /\
    options !! "LevelNames" = Some levelNames /\
    str_split "|" levelNames !! k = Some label.
Proof.
  intros Hsep Hr.
  assert (Hin : r ∈ sorted_keys m) by (apply sorted_keys_elem; eauto).
  destruct (list_index_elem _ _ Hin) as (k & Hidx & Hk).
  assert (Hne : m <> ∅) by (intros ->; by rewrite lookup_empty in Hr).
  destruct (createSwitchOptions_levelNames m Hne) as (options & Hopt & Hln).
  exists k, options. eexists. split; [exact Hidx|]. split; [exact Hopt|]. split; [exact Hln|].
  rewrite str_split_join.
  - rewrite list_lookup_fmap, Hk. cbn. by rewrite Hr.
  - intros Hnil. apply fmap_nil_inv in Hnil. rewrite Hnil in Hin.
    by apply not_elem_of_nil in Hin.
  - apply Forall_fmap, Forall_forall. intros k' Hk'. apply sorted_keys_elem in Hk' as [l Hl].
    cbn. rewrite Hl. exact (Hsep _ _ Hl).
Qed.

(** C8: Selector levels match their labels: for a selector command and a
    raw value [r] its mapping labels [label], [getDomoticzSwitchLevel]
    returns the level [10 * k] without touching the host, and the [k]-th
    entry of the device's [LevelNames] (split on '|', as Domoticz reads
    it) is [label]. *)
Theorem switch_level_label cmd c m r label h :
  cmd ∈ usedSelectorSwitchCommands -> COMMANDS !! cmd = Some c -> mapping c = Some m ->
  m !! r = Some label ->
  exists k options levelNames,
    getDomoticzSwitchLevel cmd r h = Done (Ok (str_of_nat (10 * k))) h /\
    createSwitchOptionsFromResultMapping (mapping c) = Ok options /\
    options !! "LevelNames" = Some levelNames /\
    str_split "|" levelNames !! k = Some label.
Proof.
  intros Hsel Hc Hm Hr.
  pose proof (proj1 (Forall_forall _ _) selector_labels_sep_free cmd Hsel) as Hsep.
  unfold labels_sep_free in Hsep. rewrite Hc, Hm in Hsep. apply bool_decide_eq_true in Hsep.
  destruct (switch_level_label_generic m r label Hsep Hr)
    as (k & options & levelNames & Hidx & Hopt & Hln & Hk).
  exists k, options, levelNames. rewrite Hm. split; [|done].
  unfold getDomoticzSwitchLevel, dict_get. rewrite Hc, bind_lift_ok, Hm, Hidx. done.
Qed.

(** ** Device creation and error paths *)


(** A host with the plugin parameters set and no devices yet. *)
Definition demo_host : Host :=
  {| Devices := ∅; log := [];
     Parameters := <["Mode6" := "Normal"]> {[ "SerialPort" := "/dev/ttyUSB0" ]}; ports := demo_world |}.

Lemma switch_level_label_witness :
  exists c m, COMMANDS !! "LS" = Some c /\ mapping c = Some m /\ m !! "2." = Some "Stufe 2" /\
  exists k options levelNames,
    getDomoticzSwitchLevel "LS" "2." demo_host = Done (Ok (str_of_nat (10 * k))) demo_host /\
    createSwitchOptionsFromResultMapping (mapping c) = Ok options /\
    options !! "LevelNames" = Some levelNames /\
    str_split "|" levelNames !! k = Some "Stufe 2".
Proof.
  eexists _, _. split; [compute_lhs; reflexivity|]. split; [compute_lhs; reflexivity|].
  split; [vm_compute; reflexivity|].
  eapply (switch_level_label "LS"); [vm_decide|compute_lhs; reflexivity..].
Defined.

(** The device type [createDevices] gives each group of commands. *)
Definition device_type (cmd : string) : string :=
  if bool_decide (cmd ∈ usedTemperatureCommands) then "Temperature"
  else if bool_decide (cmd ∈ usedPercentageCommands) then "Percentage"
  else if bool_decide (cmd ∈ usedCustomCommands) then "Custom"
  else if bool_decide (cmd ∈ usedSelectorSwitchCommands) then "Selector Switch"
  else "Text".

(** The fields of a device that identify it and hold its value. *)
Definition device_summary (d : Device) : nat * string * string * Z * string :=
  (Unit d, Name d, TypeName d, nValue d, sValue d).

(** C13: On a host without devices, [createDevices] raises nothing and
    creates exactly one device per used command: unit [i] shows the
    [i]-th used command, named [cmd ": " descr], with the device type of
    its group and the initial value [0] / [""]; the rest of the host is
    unchanged. *)
Theorem createDevices_fresh h :
  Devices h = ∅ ->
  exists D, createDevices BasePlugin__init__ h = Done (Ok tt) (set_Devices D h) /\
    device_summary <$> D =
    map_imap (fun i cmd => (fun c => (i, cmd ++ ": " ++ descr c, device_type cmd, 0%Z, "")) <$> COMMANDS !! cmd)
             (mapDeviceToUsedCmd BasePlugin__init__).
Proof.
  destruct h as [D0 l P w]. cbn. intros ->.
  eexists. split; [compute_lhs; reflexivity|]. vm_decide.
Qed.

Lemma list_index_not_elem x l :
  x ∉ l -> list_index x l = Raise (ValueError (py_repr x ++ " is not in list")).
Proof.
  induction l as [|y l IH]; intros Hx; [done|]. cbn [list_index].
  apply not_elem_of_cons in Hx as [Hne Hx].
  destruct (String.eqb_spec x y); [done|]. by rewrite IH.
Qed.



Lemma connect_fresh_unavailable w p a wgt :
  HermesWr3223__init__ w p a = Ok wgt -> line_available (w p) = false ->
  connect wgt = Done (Raise (SerialException ("could not open port " ++ p))) wgt.
Proof.
  unfold HermesWr3223__init__. destruct (_createAdressString a); intros [=<-] Hav.
  unfold connect, on_serial, serial_open. cbn. rewrite Hav. done.
Qed.

(** C7: When the serial port is not configured or cannot be opened,
    [updateDevices] does not log the error it was written to log: the
    [except serial.Serialexception] clause names an attribute the module
    does not have, so the heartbeat raises [AttributeError] and the host
    is left as it was. *)
Theorem updateDevices_port_error fuel h :
  (Parameters h !! "SerialPort" = None \/
   exists p, Parameters h !! "SerialPort" = Some p /\ line_available (ports h p) = false) ->
  updateDevices fuel BasePlugin__init__ h = Done (Raise (AttributeError "Serialexception")) h.
Proof.
  intros Hp. unfold updateDevices, updateDevices_try. rewrite bind_get.
  destruct Hp as [Hp|(p & Hp & Hav)]; unfold dict_get at 1; rewrite Hp; [done|].
  rewrite bind_lift_ok.
  destruct (HermesWr3223__init__ (ports h) p 1) as [wgt|e] eqn:Hinit; [|done].
  rewrite bind_lift_ok. unfold bind at 1, run_local, bind at 1.
  rewrite (connect_fresh_unavailable _ _ _ _ Hinit Hav). done.
Qed.

Lemma createDevices_fresh_witness :
  Devices demo_host = ∅ /\
  exists D, createDevices BasePlugin__init__ demo_host = Done (Ok tt) (set_Devices D demo_host) /\
    device_summary <$> D =
    map_imap (fun i cmd => (fun c => (i, cmd ++ ": " ++ descr c, device_type cmd, 0%Z, "")) <$> COMMANDS !! cmd)
             (mapDeviceToUsedCmd BasePlugin__init__).
Proof. split; [reflexivity|]. apply createDevices_fresh. reflexivity. Defined.



(** A host whose serial line cannot be opened. *)
Definition dead_host : Host :=
  {| Devices := ∅; log := []; Parameters := {[ "SerialPort" := "/dev/ttyUSB0" ]};
     ports := fun _ => mkLine false demo_device |}.

Lemma updateDevices_port_error_witness :
  updateDevices 10 BasePlugin__init__ dead_host = Done (Raise (AttributeError "Serialexception")) dead_host.
Proof.
  apply updateDevices_port_error. right. exists "/dev/ttyUSB0". split; reflexivity.
Defined.

