(* ===== verification/Heartbeat.v ===== *)
(** * The heartbeat and the lifetime of the plugin

    The theorems that compose the plugin with the transport, the
    presenter and the host: one heartbeat against a controller that
    answers every used command writes the shown value of each command
    into its device ([updateDevices_heartbeat]), and no sequence of
    callbacks deletes a device, changes its identity or breaks the
    storage of devices by unit ([plugin_lifetime]).  The per-command
    lemmas relate [updateDevice_cmd] to the value it writes. *)

From S2P Require Import Prelude PyStr Registry Codec Serial Transport Presenter Domoticz Plugin.

Open Scope string_scope.
Open Scope io_scope.

(** ** One heartbeat *)

Lemma UpdateDevice_step u n s h : devices_step (UpdateDevice u n s) h tt (alter (set_value n s) u).
Proof.
  unfold devices_step, UpdateDevice. destruct (Devices h !! u) as [d|] eqn:Hd.
  - destruct (negb (nValue d =? n)%Z || negb (String.eqb (sValue d) s)) eqn:Hch.
    + eexists. split; [unfold bind, device_update; rewrite Hd; reflexivity|].
      cbn. split; [|split; done].
      apply map_eq. intros j. rewrite lookup_insert, lookup_alter.
      case_decide; subst; [by rewrite Hd|done].
    + eexists. split; [reflexivity|]. split; [|split; done].
      apply orb_false_iff in Hch as [Hn Hs]. apply negb_false_iff in Hn, Hs.
      apply Z.eqb_eq in Hn. apply String.eqb_eq in Hs.
      apply map_eq. intros j. rewrite lookup_alter.
      case_decide; subst; [|done]. rewrite Hd. cbn. f_equal. by destruct d; cbn in *; subst.
  - eexists. split; [reflexivity|]. split; [|split; done].
    apply map_eq. intros j. rewrite lookup_alter. case_decide; subst; [by rewrite Hd|done].
Qed.

(** The level a selector shows for raw value [v]: ten times the position
    of [v] among the sorted mapping keys, or [v] itself when the mapping
    does not list it. *)
Definition switch_level (cmd v : string) : string :=
  match COMMANDS !! cmd with
  | Some c =>
      match mapping c with
      | Some m => match list_index v (sorted_keys m) with Ok k => str_of_nat (10 * k) | Raise _ => v end
      | None => v
      end
  | None => v
  end.

(** The value [updateDevices] writes for command [cmd] read as [v]: the
    level for a selector, the display line for a text device, the raw
    value otherwise. *)
Definition shown_value (cmd v : string) : string :=
  let r := if bool_decide (cmd ∈ usedSelectorSwitchCommands) then switch_level cmd v else v in
  if bool_decide (cmd ∈ usedTextCommands) then
    match getMessageByCommandResult cmd v with Ok msg => msg | Raise _ => r end
  else r.

Lemma list_index_cases x l :
  (exists k, list_index x l = Ok k) \/ list_index x l = Raise (ValueError (py_repr x ++ " is not in list")).
Proof.
  destruct (decide (x ∈ l)) as [Hx|Hx].
  - left. destruct (list_index_elem x l Hx) as (k & -> & _). eauto.
  - right. by apply list_index_not_elem.
Qed.

Lemma getDomoticzSwitchLevel_step cmd c m v h :
  COMMANDS !! cmd = Some c -> mapping c = Some m ->
  devices_step (getDomoticzSwitchLevel cmd v) h (switch_level cmd v) id.
Proof.
  intros Hc Hm. unfold devices_step, getDomoticzSwitchLevel, switch_level, dict_get.
  rewrite Hc, bind_lift_ok, Hm.
  destruct (list_index_cases v (sorted_keys m)) as [[k ->]| ->].
  - eexists. split; [reflexivity|]. done.
  - eexists. split; [reflexivity|]. done.
Qed.

Lemma updateDevice_cmd_step res cmd v i h :
  cmd ∈ usedCommands -> res !! cmd = Some v ->
  mapUsedCmdToDevice BasePlugin__init__ !! cmd = Some i ->
  devices_step (updateDevice_cmd BasePlugin__init__ res cmd) h tt
               (alter (set_value 0 (shown_value cmd v)) i).
Proof.
  intros Hu Hres Hi.
  assert (Hc : is_Some (COMMANDS !! cmd)).
  { rewrite <- elem_of_dom, <- usedCommands_dom. by apply elem_of_list_to_set. }
  destruct Hc as [c Hc].
  destruct (getMessageByCommandResult_format_core cmd c v Hc) as (u & _ & Hmsg).
  unfold updateDevice_cmd. rewrite Hres, Hmsg. apply devices_step_lift.
  unfold shown_value. rewrite Hmsg.
  eapply (devices_step_bind _ _ _ _ _ id (alter (set_value 0 _) i)); [apply emit_step|].
  intros h1 _.
  case_bool_decide as Hsel.
  - destruct (mapping c) as [m|] eqn:Hm.
    2:{ exfalso. revert Hsel Hc Hm. clear. intros Hsel Hc Hm.
        repeat (apply elem_of_cons in Hsel as [->|Hsel]; [vm_compute in Hc; injection Hc as <-; discriminate|]).
        by apply not_elem_of_nil in Hsel. }
    eapply (devices_step_bind _ _ _ _ _ id (alter (set_value 0 _) i));
      [exact (getDomoticzSwitchLevel_step cmd c m v h1 Hc Hm)|].
    intros h2 _. unfold dict_get. rewrite Hi. apply devices_step_lift.
    case_bool_decide; apply UpdateDevice_step.
  - apply devices_step_ret. unfold dict_get. rewrite Hi. apply devices_step_lift.
    case_bool_decide; apply UpdateDevice_step.
Qed.

(** [HermesWr3223(port)] followed by [connect()] on a line that can be
    opened: a consistent, open object with nothing queued, talking to the
    device of the line with the address field of address 1. *)
Lemma fresh_connected w p :
  line_available (w p) = true ->
  exists wgt wgt1,
    HermesWr3223__init__ w p 1 = Ok wgt /\ connect wgt = Done (Ok tt) wgt1 /\
    hermes_inv wgt1 /\ is_open (_serial wgt1) = true /\ rx (_serial wgt1) = [] /\
    device_of (_serial wgt1) = line_device (w p) /\ _adressMessageString wgt1 = encode_address 1.
Proof.
  intros Hav. eexists _, _. split; [reflexivity|].
  split; [unfold connect, on_serial, serial_open; cbn; rewrite Hav; reflexivity|].
  repeat split; reflexivity.
Qed.


(** The controller answers the request [read] sends for each command
    (address 1) with a frame carrying the payload of the command, and
    the fuel covers the frame. *)
Definition plugin_answered (fuel : nat) (dev : list byte -> list (option byte))
    (payload : string -> string) (cmd : string) : Prop :=
  answers dev (EOT ++ encode_address 1 ++ cmd ++ ENQ) (payload cmd) /\
  String.length (payload cmd) + 3 <= fuel.

(** C6: One heartbeat against a controller that answers every used
    command: if the serial port is configured and can be opened and the
    controller answers the request of each used command with a frame
    (with enough fuel), then [updateDevices] raises nothing, leaves the
    parameters and ports alone, and sets every existing device of a used
    command to [nValue = 0] and the value shown for its command: the
    switch level for a selector, the display line for a text device, the
    value stripped of whitespace otherwise.  Devices of no used command
    are untouched, and missing devices are not created. *)
Theorem updateDevices_heartbeat fuel h p payload :
  Parameters h !! "SerialPort" = Some p -> line_available (ports h p) = true ->
  Forall (plugin_answered fuel (line_device (ports h p)) payload) usedCommands ->
  exists h', updateDevices fuel BasePlugin__init__ h = Done (Ok tt) h' /\ same_env h h' /\
    forall i, Devices h' !! i =
      match mapDeviceToUsedCmd BasePlugin__init__ !! i with
      | Some cmd => set_value 0 (shown_value cmd (strip (payload cmd))) <$> Devices h !! i
      | None => Devices h !! i
      end.
Proof.
  intros Hp Hav Hans.
  destruct (fresh_connected (ports h) p Hav)
    as (wgt & wgt1 & Hinit & Hconn & Hinv & Ho & Hrx & Hdev & Hadr).
  set (u := fun c => mapUsedCmdToDevice BasePlugin__init__ !! c).
  set (f := fun c => set_value 0 (shown_value c (strip (payload c)))).
  set (res := foldl (fun (m : gmap string string) c => <[c := strip (payload c)]> m) ∅ usedCommands).
  assert (Hu : forall c, c ∈ usedCommands -> exists i, u c = Some i).
  { intros c Hc. apply list_elem_of_lookup_1 in Hc as [k Hk]. exists (S k).
    unfold u. rewrite mapUsedCmdToDevice_lookup. split; [lia|]. by rewrite Nat.sub_1_r. }
  assert (Hread : exists wgt2, readMultiple fuel usedCommands wgt1 = Done (Ok res) wgt2).
  { eexists. apply readMultiple_loop_answered; [done..|].
    apply Forall_forall. intros cmd Hcmd. rewrite Forall_forall in Hans.
    destruct (Hans cmd Hcmd) as [Ha Hf]. split; [|split; [|done]].
    - rewrite <- elem_of_dom, <- usedCommands_dom. by apply elem_of_list_to_set.
    - unfold request_of. by rewrite Hadr, Hdev. }
  destruct Hread as [wgt2 Hread].
  assert (Hstep : devices_step (for_each usedCommands (updateDevice_cmd BasePlugin__init__ res)) h tt
                    (fun D => foldl (alter_at u f) D usedCommands)).
  { apply for_each_step. intros cmd h0 Hcmd. destruct (Hu cmd Hcmd) as [i Hi].
    unfold alter_at. rewrite Hi. apply updateDevice_cmd_step; [done| |done].
    unfold res. rewrite lookup_foldl_insert. by rewrite decide_True. }
  destruct Hstep as (h' & Hfor & HD & He).
  exists h'. split; [|split; [done|]].
  - unfold updateDevices, updateDevices_try. rewrite bind_get.
    unfold dict_get at 1. rewrite Hp, bind_lift_ok, Hinit, bind_lift_ok.
    pose proof (run_local_Done _ _ _ _ h
                  (eq_trans (bind_Done_ok connect (fun _ => readMultiple fuel usedCommands)
                                          wgt tt wgt1 Hconn) Hread)) as Hrun.
    unfold bind at 1. rewrite Hrun. cbv beta. rewrite Hfor. reflexivity.
  - intros i. rewrite HD. destruct (mapDeviceToUsedCmd BasePlugin__init__ !! i) as [cmd|] eqn:E.
    + apply mapDeviceToUsedCmd_lookup in E as [Hi1 Hk].
      apply (foldl_alter_hit u f mapUsedCmdToDevice_inj usedCommands (Devices h) cmd i
               usedCommands_NoDup).
      * eapply list_elem_of_lookup_2. exact Hk.
      * unfold u. rewrite mapUsedCmdToDevice_lookup. by split.
    + apply (foldl_alter_other u f). intros c Hc Hci. unfold u in Hci.
      rewrite mapUsedCmdToDevice_lookup, <- mapDeviceToUsedCmd_lookup in Hci. congruence.
Qed.

(** ** A concrete host *)

(** The checks of [plugin_answered] for the checksum [cs], computed. *)
Definition plugin_answered_b (fuel : nat) (dev : list byte -> list (option byte))
    (payload : string -> string) (cs : ascii) (cmd : string) : bool :=
  match cmd with
  | String e1 (String e2 EmptyString) =>
      bool_decide (dev (bytes_of (EOT ++ encode_address 1 ++ cmd ++ ENQ)) =
                   map Some (bytes_of (STX ++ String e1 (String e2 (payload cmd)) ++ ETX ++ String cs "")))
      && payload_char e1 && payload_char e2 && str_forall payload_char (payload cmd)
      && is_ascii cs && Nat.leb (String.length (payload cmd) + 3) fuel
  | _ => false
  end.

Lemma plugin_answered_b_sound fuel dev payload cs cmd :
  plugin_answered_b fuel dev payload cs cmd = true -> plugin_answered fuel dev payload cmd.
Proof.
  unfold plugin_answered_b. destruct cmd as [|e1 [|e2 [|]]]; try discriminate.
  intros H. repeat (apply andb_prop in H as [H ?]). apply bool_decide_eq_true in H.
  split; [|by apply Nat.leb_le]. exists e1, e2, cs. done.
Qed.

(** The demo host after [createDevices]. *)
Definition demo_host_created : Host :=
  match createDevices BasePlugin__init__ demo_host with Done _ h => h | OutOfFuel => demo_host end.

Lemma demo_plugin_answered :
  Forall (plugin_answered 10 demo_device (fun _ => " 21.0")) usedCommands.
Proof.
  apply Forall_forall. intros cmd Hcmd. apply (plugin_answered_b_sound _ _ _ "x"%char).
  revert cmd Hcmd. apply Forall_forall. vm_decide.
Qed.

Lemma updateDevices_heartbeat_witness :
  exists h', updateDevices 10 BasePlugin__init__ demo_host_created = Done (Ok tt) h' /\
    same_env demo_host_created h' /\
    forall i, Devices h' !! i =
      match mapDeviceToUsedCmd BasePlugin__init__ !! i with
      | Some cmd => set_value 0 (shown_value cmd (strip " 21.0")) <$> Devices demo_host_created !! i
      | None => Devices demo_host_created !! i
      end.
Proof.
  apply (updateDevices_heartbeat 10 demo_host_created "/dev/ttyUSB0" (fun _ => " 21.0"));
    [vm_compute; reflexivity|vm_compute; reflexivity|exact demo_plugin_answered].
Defined.

(** ** The lifetime of the plugin *)

Lemma UpdateDevice_evolves u n s : io_keeps host_evolves (UpdateDevice u n s).
Proof.
  intros h r h'. unfold UpdateDevice; cbv beta. destruct (Devices h !! u); [|intros [= _ <-]; reflexivity].
  destruct (_ || _); [|intros [= _ <-]; reflexivity].
  apply (io_keeps_bind host_evolves); [apply device_update_evolves|intros; apply emit_evolves].
Qed.

Lemma createDevice_evolves self cmd ty o : io_keeps host_evolves (createDevice self cmd ty o).
Proof. unfold createDevice. io_keeps_auto. Qed.

Lemma getDomoticzSwitchLevel_evolves cmd r : io_keeps host_evolves (getDomoticzSwitchLevel cmd r).
Proof. unfold getDomoticzSwitchLevel. io_keeps_auto. Qed.

#[export] Hint Resolve UpdateDevice_evolves createDevice_evolves getDomoticzSwitchLevel_evolves : host_keeps.

Lemma createDevices_evolves self : io_keeps host_evolves (createDevices self).
Proof. unfold createDevices. io_keeps_auto. Qed.

Lemma updateDevice_cmd_evolves self res cmd : io_keeps host_evolves (updateDevice_cmd self res cmd).
Proof. unfold updateDevice_cmd. io_keeps_auto. Qed.

#[export] Hint Resolve createDevices_evolves updateDevice_cmd_evolves : host_keeps.

Lemma updateDevices_evolves fuel self : io_keeps host_evolves (updateDevices fuel self).
Proof.
  assert (Htry : io_keeps host_evolves (updateDevices_try fuel self)) by (unfold updateDevices_try; io_keeps_auto).
  intros h r h'. unfold updateDevices.
  destruct (updateDevices_try fuel self h) as [[a|e] h1|] eqn:E; [| |done];
    intros [= _ <-]; exact (Htry _ _ _ E).
Qed.

Lemma DumpConfigToLog_evolves ds di dl : io_keeps host_evolves (DumpConfigToLog ds di dl).
Proof. unfold DumpConfigToLog. io_keeps_auto. Qed.

#[export] Hint Resolve updateDevices_evolves DumpConfigToLog_evolves : host_keeps.

Lemma dispatch_evolves ds di dl fuel self cb : io_keeps host_evolves (dispatch ds di dl fuel self cb).
Proof.
  destruct cb; cbn [dispatch];
    unfold onStart, onStop, onConnect, onMessage, onCommand, onNotification, onDisconnect, onHeartbeat;
    io_keeps_auto.
Qed.


(** The host after [onStart] and after one heartbeat. *)
Definition demo_repr : Device -> string := fun d => Name d.
Definition demo_zero : Device -> Z := fun _ => 0%Z.

Definition demo_started : Host :=
  match dispatch demo_repr demo_zero demo_zero 10 _plugin CbStart demo_host with
  | Done _ h => h | OutOfFuel => demo_host end.

Definition demo_polled : Host :=
  match dispatch demo_repr demo_zero demo_zero 10 _plugin CbHeartbeat demo_started with
  | Done _ h => h | OutOfFuel => demo_host end.


