(* ===== verification/Debug.v ===== *)
(** * Debugging helpers and console programs

    The functions of both library files that print instead of returning:
    [debugPrintCommandResult], [debugPrintMultiCommandResult],
    [debugPrintHex], [testAsciiHex] and the [__main__] block of
    [src/lib/hermesWr3223.py]; [printHex], [createConnection],
    [testAsciiHex] and [main] of [src/lib/hermesWr3223.backup.py].

    A console program is an [io] program over a [Console]: the serial
    lines the port names refer to, and the lines printed so far.
    [print(x)] appends [str(x)]; the [repr] of [bytes], [str] and dicts
    of strings is written after CPython's rules. *)

From S2P Require Import Prelude PyStr Registry Codec Serial Transport Presenter Legacy.

Open Scope string_scope.
Open Scope io_scope.

(** ** The console *)

Record Console := mkConsole {
  con_world : string -> Line;
  stdout : list string
}.

(** [print(s)] for a string [s]. *)
Definition print (s : string) : io Console Datatypes.unit := fun c =>
  Done (Ok tt) {| con_world := con_world c; stdout := (stdout c ++ [s])%list |}.

(** ** Python formatting helpers *)

Definition hex_digit (n : N) : ascii :=
  ascii_of_N (if (n <? 10)%N then 48 + n else 87 + n)%N.

(** ["{:02x}".format(ord(c))] for a character below 256. *)
Definition hex2 (c : ascii) : string :=
  let n := N_of_ascii c in
  String (hex_digit (n / 16)%N) (String (hex_digit (n mod 16)%N) EmptyString).

(** [repr(s)] of a [str] or ([is_bytes]) of a [bytes] value:
    single quotes unless the value holds a single and no double quote;
    backslash, the quote, tab, newline and carriage return escaped; other
    bytes below 32 and 127 as [\xNN]; [bytes] also escapes bytes from
    128 on. *)
Definition repr_char (is_bytes : bool) (quote c : ascii) : string :=
  let n := N_of_ascii c in
  if Ascii.eqb c quote || Ascii.eqb c "\" then String "\" (String c EmptyString)
  else if (n =? 9)%N then "\t"
  else if (n =? 10)%N then "\n"
  else if (n =? 13)%N then "\r"
  else if (n <? 32)%N || (n =? 127)%N || (is_bytes && (128 <=? n)%N)
  then "\x" ++ hex2 c
  else String c EmptyString.

Fixpoint str_contains (c : ascii) (s : string) : bool :=
  match s with
  | EmptyString => false
  | String c' s' => Ascii.eqb c c' || str_contains c s'
  end.

Fixpoint repr_body (is_bytes : bool) (quote : ascii) (s : string) : string :=
  match s with
  | EmptyString => EmptyString
  | String c s' => repr_char is_bytes quote c ++ repr_body is_bytes quote s'
  end.

(** The double quote character. *)
Definition dquote : ascii := ascii_of_N 34.

Definition py_quote (s : string) : ascii :=
  if str_contains "'" s && negb (str_contains dquote s) then dquote else "'".

Definition py_str_repr (s : string) : string :=
  let q := py_quote s in String q (repr_body false q s ++ String q EmptyString).

Definition py_bytes_repr (bs : list byte) : string :=
  let s := string_of_list_byte bs in
  let q := py_quote s in "b" ++ String q (repr_body true q s ++ String q EmptyString).

(** [str(d)] of a dict of strings, in its insertion order. *)
Definition py_dict_repr (kvs : list (string * string)) : string :=
  "{" ++ String.concat ", " (map (fun kv => py_str_repr kv.1 ++ ": " ++ py_str_repr kv.2) kvs) ++ "}".

(** [binascii.hexlify(b)]. *)
Definition hexlify (bs : list byte) : list byte :=
  bytes_of (String.concat "" (map (fun b => hex2 (ascii_of_byte b)) bs)).

Definition hex_value (c : ascii) : option N :=
  let n := N_of_ascii c in
  if (48 <=? n)%N && (n <=? 57)%N then Some (n - 48)%N
  else if (97 <=? n)%N && (n <=? 102)%N then Some (n - 87)%N
  else if (65 <=? n)%N && (n <=? 70)%N then Some (n - 55)%N
  else None.

(** [binascii.unhexlify(s)]: [binascii.Error], a [ValueError], on an odd
    length or a character that is not a hex digit. *)
Fixpoint unhexlify_go (s : string) : Result (list byte) :=
  match s with
  | EmptyString => Ok []
  | String h (String l s') =>
      match hex_value h, hex_value l with
      | Some vh, Some vl =>
          (let? rest := unhexlify_go s' in
           Ok (byte_of_ascii (ascii_of_N (16 * vh + vl)) :: rest))%py
      | _, _ => Raise (ValueError "Non-hexadecimal digit found")
      end
  | String _ EmptyString => Raise (ValueError "Odd-length string")
  end.

Definition unhexlify (s : string) : Result (list byte) := unhexlify_go s.

(** ** [src/lib/hermesWr3223.py] *)

(** The string [debugPrintHex(s)] prints: [":".join(...)]. *)
Definition hex_colon (s : string) : string :=
  str_join ":" (map hex2 (list_ascii_of_string s)).

Definition debugPrintHex (s : string) : io Console Datatypes.unit := print (hex_colon s).

(** [wgt = HermesWr3223("/dev/ttyUSB0"); wgt.connect()] and then [m]. *)
Definition with_device {A} (m : io HermesWr3223 A) : io Console A :=
  c <- get ;;
  wgt <- lift (HermesWr3223__init__ (con_world c) "/dev/ttyUSB0" 1) ;;
  run_local wgt (connect ;;; m).

Definition debugPrintCommandResult (fuel : nat) (cmd : string) : io Console Datatypes.unit :=
  result <- with_device (read fuel cmd) ;;
  msg <- lift (getMessageByCommandResult cmd result) ;;
  print msg.

Definition debugPrintMultiCommandResult (fuel : nat) (cmds : list string)
    : io Console Datatypes.unit :=
  results <- with_device (readMultiple fuel cmds) ;;
  for_each cmds (fun cmd =>
    (if bool_decide (is_Some (results !! cmd)) then ret tt
     else print ("Error! No result for cmd= " ++ cmd)) ;;;
    v <- lift (dict_get results cmd) ;;
    msg <- lift (getMessageByCommandResult cmd v) ;;
    print msg).

(** The request of [testAsciiHex], written as escapes in the source. *)
Definition asciiRequest : string := EOT ++ "0011T1" ++ ENQ.

Definition testAsciiHex : io Console Datatypes.unit :=
  kai <- lift (encode_ascii "kai") ;;
  print (py_bytes_repr (hexlify kai)) ;;;
  u <- lift (unhexlify "6b6169") ;;
  print (py_bytes_repr u) ;;;
  debugPrintHex "kai" ;;;
  c <- get ;;
  wgt <- lift (HermesWr3223__init__ (con_world c) "InvalidSerialPort" 1) ;;
  requestT1 <- lift (_createReadRequest (_adressMessageString wgt) "T1") ;;
  print (_makeHumanReadable requestT1) ;;;
  print (_makeHumanReadable asciiRequest).

(** The [__main__] block: all codes, sorted. *)
Definition lib_main (fuel : nat) : io Console Datatypes.unit :=
  let allCommandsSorted := merge_sort String.le (elements (dom COMMANDS : gset string)) in
  debugPrintMultiCommandResult fuel allCommandsSorted.

(** ** [src/lib/hermesWr3223.backup.py] *)

Module BackupDebug.

Definition printHex (s : string) : io Console Datatypes.unit :=
  print (String.concat "" (map hex2 (list_ascii_of_string s))).

(** [createConnection()]: a port given to [serial.Serial] is opened by the
    constructor; [xonxoff=0] and [rtscts=1] are pyserial's [False] and
    [True]. *)
Definition createConnection : io Console Serial :=
  c <- get ;;
  let s := Serial__init__ (con_world c) in
  let s := {| port := Some "/dev/ttyUSB0"; baudrate := 9600; bytesize := SEVENBITS;
              parity := PARITY_EVEN; stopbits := STOPBITS_ONE; timeout := Some 5%Z;
              xonxoff := false; rtscts := true; is_open := is_open s; world := world s;
              rx := rx s; tx := tx s |} in
  match serial_open s with
  | Done (Ok _) s' => ret s'
  | Done (Raise e) _ => raise e
  | OutOfFuel => out_of_fuel
  end.

Definition hermesReadRequestTest : string := EOT ++ "0011T1" ++ ENQ.

Definition testAsciiHex : io Console Datatypes.unit :=
  print (Backup.makeHumanReadable hermesReadRequestTest) ;;;
  kai <- lift (encode_ascii "kai") ;;
  print (py_bytes_repr (hexlify kai)) ;;;
  u <- lift (unhexlify "6b6169") ;;
  print (py_bytes_repr u) ;;;
  printHex "kai" ;;;
  requestT1 <- lift (Backup.createReadRequest 1 "T1") ;;
  print (Backup.makeHumanReadable requestT1).

(** [main()]: [query] fills a fresh dict in the order of [COMMANDS], so
    [print(result)] shows the commands in that order. *)
Definition main (fuel : nat) : io Console Datatypes.unit :=
  print "" ;;;
  conn <- createConnection ;;
  result <- run_local conn (Backup.query fuel) ;;
  print (py_dict_repr (omap (fun k => (fun v => (k, v)) <$> result !! k) (map fst Backup.COMMANDS))).

End BackupDebug.

(** ** Properties *)

(** Reading back two hex digits. *)
Definition unhex2 (h : string) : option ascii :=
  match h with
  | String a (String b EmptyString) =>
      match hex_value a, hex_value b with
      | Some va, Some vb => Some (ascii_of_N (16 * va + vb))
      | _, _ => None
      end
  | _ => None
  end.

(** Reading back the output of [debugPrintHex]. *)
Definition unhex_colon (h : string) : option string :=
  if String.eqb h "" then Some ""
  else string_of_list_ascii <$> mapM unhex2 (str_split ":" h).

Lemma unhex2_hex2 c : unhex2 (hex2 c) = Some c.
Proof. destruct c as [[] [] [] [] [] [] [] []]; reflexivity. Qed.

Lemma hex2_sep_free c : sep_free ":" (hex2 c) = true.
Proof. destruct c as [[] [] [] [] [] [] [] []]; reflexivity. Qed.

Lemma hex2_length c : String.length (hex2 c) = 2.
Proof. reflexivity. Qed.

Lemma hex2_nonempty c : hex2 c <> "".
Proof. discriminate. Qed.

(** C34: The output of [debugPrintHex] determines its input: reading the
    colon-separated pairs of hex digits back gives the string printed. *)
Theorem hex_colon_roundtrip s : unhex_colon (hex_colon s) = Some s.
Proof.
  unfold unhex_colon, hex_colon. destruct s as [|c s]; [reflexivity|].
  rewrite (proj2 (String.eqb_neq _ _)).
  2:{ cbn [list_ascii_of_string map]. destruct s; [discriminate|].
      cbn [str_join list_ascii_of_string map]. unfold hex2 at 1. rewrite str_app_cons. discriminate. }
  rewrite str_split_join.
  - rewrite mapM_fmap_Some.
    + cbn. by rewrite string_of_list_ascii_of_string.
    + intros x. apply unhex2_hex2.
  - discriminate.
  - apply Forall_forall. intros x Hx. apply list_elem_of_fmap in Hx as [c' [-> _]]. apply hex2_sep_free.
Qed.

Lemma str_join_pairs_length (l : list string) :
  l <> [] -> Forall (fun x => String.length x = 2) l ->
  String.length (str_join ":" l) = 3 * List.length l - 1.
Proof.
  induction l as [|x [|y l] IH]; intros Hne Hl; [done| |].
  - apply Forall_cons in Hl as [Hx _]. cbn. lia.
  - apply Forall_cons in Hl as [Hx Hl].
    change (str_join ":" (x :: y :: l)) with (x ++ String ":" (str_join ":" (y :: l))).
    rewrite str_length_app. cbn [String.length]. rewrite IH by done. cbn [List.length]. lia.
Qed.

(** C35: [debugPrintHex] prints three characters per input character but
    one: two hex digits each, separated by colons. *)
Theorem hex_colon_length s :
  s <> "" -> String.length (hex_colon s) = 3 * String.length s - 1.
Proof.
  intros Hs. unfold hex_colon. rewrite str_join_pairs_length.
  - rewrite length_map. f_equal. f_equal. induction s as [|c s IH]; [done|]. cbn.
    destruct s; [done|]. by rewrite IH.
  - destruct s; [done|discriminate].
  - apply Forall_forall. intros x Hx. apply list_elem_of_fmap in Hx as [c [-> _]]. apply hex2_length.
Qed.

Lemma hex_colon_length_witness :
  "kai" <> "" /\ String.length (hex_colon "kai") = 3 * String.length "kai" - 1.
Proof. split; [discriminate|]. apply hex_colon_length. discriminate. Defined.

(** C25: The backup's [createConnection()] opens the port the class opens:
    for the port ["/dev/ttyUSB0"], it returns exactly the serial port of
    [HermesWr3223(port)] after [connect()] (9600 baud, 7E1, 5 s timeout,
    RTS/CTS), or raises the same exception. *)
Theorem createConnection_refines_connect c wgt :
  HermesWr3223__init__ (con_world c) "/dev/ttyUSB0" 1 = Ok wgt ->
  match connect wgt with
  | Done (Ok _) wgt1 => BackupDebug.createConnection c = Done (Ok (_serial wgt1)) c
  | Done (Raise e) _ => BackupDebug.createConnection c = Done (Raise e) c
  | OutOfFuel => False
  end.
Proof.
  intros [= <-]. unfold connect, on_serial, BackupDebug.createConnection, serial_open.
  cbn. destruct (line_available (con_world c "/dev/ttyUSB0")); reflexivity.
Qed.

Lemma createConnection_refines_connect_witness :
  let c := {| con_world := demo_world; stdout := [] |} in
  HermesWr3223__init__ (con_world c) "/dev/ttyUSB0" 1 = Ok demo_initial /\
  BackupDebug.createConnection c = Done (Ok (_serial demo_connected)) c.
Proof.
  intros c. assert (H : HermesWr3223__init__ (con_world c) "/dev/ttyUSB0" 1 = Ok demo_initial) by reflexivity.
  split; [exact H|]. exact (createConnection_refines_connect c demo_initial H).
Defined.


Lemma with_device_Done {A} (m : io HermesWr3223 A) c a c' :
  with_device m c = Done (Ok a) c' -> exists o o', m o = Done (Ok a) o'.
Proof.
  unfold with_device, bind, get, lift, run_local.
  destruct (HermesWr3223__init__ (con_world c) "/dev/ttyUSB0" 1) as [wgt|]; [|done].
  destruct (connect wgt) as [[[]|e] w1|]; [|done|done].
  destruct (m w1) as [r w2|] eqn:E; [|done]. intros [= -> _]. eauto.
Qed.

(** [debugPrintMultiCommandResult] without the branch for a missing
    command and with a lookup that cannot fail. *)
Definition debugPrintMultiCommandResult_ref (fuel : nat) (cmds : list string)
    : io Console Datatypes.unit :=
  results <- with_device (readMultiple fuel cmds) ;;
  for_each cmds (fun cmd =>
    msg <- lift (getMessageByCommandResult cmd (default "" (results !! cmd))) ;;
    print msg).

(** C24: The [not cmd in results] branch of [debugPrintMultiCommandResult]
    is dead and its [results[cmd]] never raises [KeyError]: the function
    behaves as the same loop without the branch and with a lookup that
    cannot fail, because a dict [readMultiple] returns holds every
    requested command. *)
Theorem debugPrintMultiCommandResult_no_missing fuel cmds :
  io_equiv (debugPrintMultiCommandResult fuel cmds) (debugPrintMultiCommandResult_ref fuel cmds).
Proof.
  intros c. unfold debugPrintMultiCommandResult, debugPrintMultiCommandResult_ref, bind.
  destruct (with_device (readMultiple fuel cmds) c) as [[res|e] c1|] eqn:E; [|done|done].
  destruct (with_device_Done _ _ _ _ E) as (o & o' & Hr).
  pose proof (readMultiple_loop_keys _ _ _ _ _ _ Hr) as Hkeys.
  apply for_each_ext_in. intros cmd Hcmd s.
  destruct (proj2 (Hkeys cmd) (or_introl Hcmd)) as [v Hv].
  rewrite bool_decide_eq_true_2 by (rewrite Hv; eauto).
  unfold ret, dict_get. rewrite Hv. reflexivity.
Qed.

(** C37: When the port cannot be opened, the backup's [main] prints its
    empty line and then raises [SerialException] from [createConnection]. *)
Theorem main_port_unavailable fuel c :
  line_available (con_world c "/dev/ttyUSB0") = false ->
  BackupDebug.main fuel c =
  Done (Raise (SerialException "could not open port /dev/ttyUSB0"))
       {| con_world := con_world c; stdout := (stdout c ++ [""])%list |}.
Proof.
  intros Hav. unfold BackupDebug.main, BackupDebug.createConnection, serial_open.
  unfold bind at 1, print at 1. cbv beta. unfold bind at 1, bind at 1, get. cbn [con_world is_open Serial__init__ port].
  cbn [world Serial__init__]. rewrite Hav. reflexivity.
Qed.

Lemma main_port_unavailable_witness :
  let c := {| con_world := fun _ => mkLine false demo_device; stdout := [] |} in
  line_available (con_world c "/dev/ttyUSB0") = false /\
  BackupDebug.main 10 c =
  Done (Raise (SerialException "could not open port /dev/ttyUSB0"))
       {| con_world := con_world c; stdout := (stdout c ++ [""])%list |}.
Proof. intros c. split; [reflexivity|]. apply main_port_unavailable. reflexivity. Defined.
